(** * IESCO smart-billing generators: a shallow embedding

    The generator scripts (datagenerator_v1.1.py, datagenerator_v1.2.py,
    datagenerator_v1.3.py, datagenerator_v2.0_parallel.py) are embedded as
    Rocq functions.  Conventions used throughout:

    - Python numbers are modelled by exact rationals [Q]; equalities between
      amounts are stated with [==].  [round(x, n)] is round-half-to-even on the
      exact value, which is what CPython computes on the value it is given.
    - Every call to the random module is an explicit input (a "draw"): the
      functions below take the values returned by [random.random()],
      [random.uniform], [random.gauss], [random.randint] as arguments, so a
      theorem quantified over the draws covers every run.
    - pandas frames are lists of records, [iloc[0]] / [iloc[-1]] are the head
      and the last element, boolean masks are [filter].  Where a function is
      called on a frame that may have no rows, and therefore no columns, or
      on a frame read back from a CSV file, whose columns have the dtypes
      pandas infers, the frame is modelled with its columns (module
      [Frames]) and the exceptions are results. *)

From Stdlib Require Import QArith Qround Qabs ZArith List String DecimalString Sorted FinFun Lia Lqa Bool.
Import ListNotations.

Local Open Scope Q_scope.

(** ** Numbers *)

Module Num.

(** Comparison operators of the source, as booleans. *)
Definition ltb (a b : Q) : bool := negb (Qle_bool b a).
Definition leb (a b : Q) : bool := Qle_bool a b.
Definition gtb (a b : Q) : bool := ltb b a.
Definition geb (a b : Q) : bool := leb b a.

(** Python's two-argument [max(a, b)] and [min(a, b)]: the first argument is
    kept unless the second one is strictly better. *)
Definition py_max (a b : Q) : Q := if gtb b a then b else a.
Definition py_min (a b : Q) : Q := if ltb b a then b else a.

(** Nearest integer, ties to the even neighbour. *)
Definition round_half_even (q : Q) : Z :=
  let f := Qfloor q in
  match Qcompare (q - inject_Z f) (1 # 2) with
  | Lt => f
  | Gt => (f + 1)%Z
  | Eq => if Z.even f then f else (f + 1)%Z
  end.

Definition scale (ndigits : nat) : Q := inject_Z (10 ^ Z.of_nat ndigits).

(** [round(x, ndigits)]. *)
Definition round (x : Q) (ndigits : nat) : Q :=
  inject_Z (round_half_even (x * scale ndigits)) / scale ndigits.

(** [sum(xs)] / [Series.sum()]. *)
Definition sum (xs : list Q) : Q := fold_left Qplus xs 0.

(** [needle in hay] on strings. *)
Definition contains (needle hay : string) : bool :=
  match String.index 0 needle hay with
  | Some _ => true
  | None => false
  end.

End Num.

(** ** Billing engine *)

(** A slab limit is a number of units or [float('inf')]. *)
Inductive limit : Type :=
| Units (u : Q)
| Unbounded.

Definition min_limit (remaining : Q) (l : limit) : Q :=
  match l with
  | Units u => Num.py_min remaining u
  | Unbounded => remaining
  end.

Definition slab_table := list (limit * Q).

(** The loop shared by [calculate_bill] (v1.1) and [_calculate_bill] (v1.2):
<<
   for limit, rate in slabs:
       if remaining <= 0: break
       slab_units = min(remaining, limit)
       variable_charges += slab_units * rate
       remaining -= slab_units
>> *)
Fixpoint slab_loop (slabs : slab_table) (remaining variable_charges : Q) : Q :=
  match slabs with
  | [] => variable_charges
  | (lim, rate) :: rest =>
      if Num.leb remaining 0 then variable_charges
      else
        let slab_units := min_limit remaining lim in
        slab_loop rest (remaining - slab_units) (variable_charges + slab_units * rate)
  end.

Record bill : Type := mkBill {
  billing_month : string;
  issue_date : Z;
  due_date : Z;
  units_consumed : Q;
  variable_charges : Q;
  fixed_charges : Q;
  gst : Q;
  electricity_duty : Q;
  tv_fee : Q;
  late_payment_surcharge : Q;
  total_amount : Q;
  amount_within_due_date : Q;
  amount_after_due_date : Q;
  tariff_applied : string
}.

(** The two [random.random()] calls of a bill computation. *)
Record bill_draws : Type := mkBillDraws {
  tv_draw : Q;
  late_draw : Q
}.



(** ** Readings *)

(** The values of the [data_quality_flag] column: the title-cased issue
    names and ["Normal"]. *)
Inductive quality_flag : Type :=
| Normal
| MissingReading
| NegativeReading
| ZeroReading
| AbnormalSpike
| VoltageSag
| FrequencyVariation
| SignalDrop
| BatteryFault
| MeterTamper
| ReverseEnergy.

Definition flag_eqb (a b : quality_flag) : bool :=
  match a, b with
  | Normal, Normal | MissingReading, MissingReading
  | NegativeReading, NegativeReading | ZeroReading, ZeroReading
  | AbnormalSpike, AbnormalSpike | VoltageSag, VoltageSag
  | FrequencyVariation, FrequencyVariation | SignalDrop, SignalDrop
  | BatteryFault, BatteryFault | MeterTamper, MeterTamper
  | ReverseEnergy, ReverseEnergy => true
  | _, _ => false
  end.

(** A pandas timestamp: its position on the time axis (minutes) and the
    attributes the generators read from it. *)
Record timestamp : Type := mkTs {
  time : Z;
  hour : Z;
  month : Z;
  dayofweek : Z
}.

(** One row of the readings table. *)
Record reading : Type := mkReading {
  r_timestamp : timestamp;
  meter_number : string;
  reading_kwh : Q;
  energy_consumed_kwh : Q;
  voltage_v : Q;
  current_a : Q;
  frequency_hz : Q;
  power_factor : Q;
  temperature_c : Q;
  signal_strength_dbm : Q;
  battery_voltage_v : Q;
  data_quality_flag : quality_flag
}.

(** [random.uniform(a, b)] and [random.gauss(mu, sigma)] as functions of the
    underlying unit draw [r] in [0, 1) and standard normal draw [z]. *)
Definition uniform (a b r : Q) : Q := a + (b - a) * r.
Definition gauss (mu sigma z : Q) : Q := mu + z * sigma.

(** [issue_probabilities], in insertion order. *)
Definition issue_table := list (quality_flag * Q).

(** The cumulative scan used by [_determine_quality_flag] (v1.1) and
    [_apply_data_quality_issues] (v1.2): the first issue whose cumulative
    probability exceeds [rand_val], or ["Normal"]. *)
Fixpoint scan_issues (table : issue_table) (cumulative rand_val : Q) : quality_flag :=
  match table with
  | [] => Normal
  | (issue, prob) :: rest =>
      if Num.ltb rand_val (cumulative + prob) then issue
      else scan_issues rest (cumulative + prob) rand_val
  end.

(** The random inputs of one reading: unit draws [r_*] feeding
    [random.uniform], [rand_val] from [random.random()], and standard normal
    draws [z_*] feeding [random.gauss].  [r_issue] is the draw made inside the
    defect branch that was taken, when that branch draws. *)
Record reading_draws : Type := mkDraws {
  r_base : Q;
  r_solar : Q;
  r_jitter : Q;
  rand_val : Q;
  r_issue : Q;
  z_voltage : Q;
  z_frequency : Q;
  z_power_factor : Q;
  z_temperature : Q;
  z_signal : Q;
  z_battery : Q
}.

(** The per-meter loop state: [cumulative_reading] and [previous_reading]. *)
Record registers : Type := mkRegs {
  cumulative_reading : Q;
  previous_reading : Q
}.

Definition between (lo x hi : Z) : bool := ((lo <=? x) && (x <=? hi))%Z.

Module V11.

Definition issue_probabilities : issue_table :=
  [ (MissingReading, 0.02); (NegativeReading, 0.005); (ZeroReading, 0.01);
    (AbnormalSpike, 0.01); (VoltageSag, 0.015); (FrequencyVariation, 0.01);
    (SignalDrop, 0.02); (BatteryFault, 0.005) ].

(** [self.issue_probabilities[key]]. *)
Definition prob (key : quality_flag) : Q :=
  match find (fun e => flag_eqb (fst e) key) issue_probabilities with
  | Some e => snd e
  | None => 0
  end.

Definition _determine_quality_flag (rand_val : Q) : quality_flag :=
  scan_issues issue_probabilities 0 rand_val.

(** (base_min, base_max, peak_min, peak_max) by tariff. *)
Definition bands (tariff : string) : Q * Q * Q * Q :=
  if Num.contains "A-1" tariff then (0.1, 0.5, 0.5, 0.8)
  else if Num.contains "A-2" tariff then (0.3, 1.0, 1.0, 1.5)
  else (1.0, 5.0, 5.0, 8.0).

(** The [monthly_multiplier] dictionary. *)
Definition monthly_multiplier : list (Z * Q) :=
  [ (1%Z, 0.7); (2%Z, 0.7); (3%Z, 0.8); (4%Z, 0.9); (5%Z, 1.2); (6%Z, 1.4);
    (7%Z, 1.4); (8%Z, 1.3); (9%Z, 1.1); (10%Z, 0.9); (11%Z, 0.8); (12%Z, 0.7) ].

(** [monthly_multiplier[month]]; a missing key raises. *)
Definition multiplier_of (m : Z) : option Q :=
  option_map snd (find (fun e => Z.eqb (fst e) m) monthly_multiplier).

(** The interval consumption drawn for a timestamp (source lines 322-342). *)
Definition draw_consumption (tariff : string) (ts : timestamp) (d : reading_draws) : option Q :=
  let '(base_min, base_max, peak_min, peak_max) := bands tariff in
  let is_peak := between 6 (hour ts) 10 || between 18 (hour ts) 23 in
  let weekend_multiplier := if (5 <=? dayofweek ts)%Z then 1.1 else 1.0 in
  let base_consumption :=
    if is_peak then uniform peak_min peak_max (r_base d)
    else uniform base_min base_max (r_base d) in
  match multiplier_of (month ts) with
  | None => None
  | Some mm =>
      Some (base_consumption * mm * weekend_multiplier * uniform 0.9 1.1 (r_jitter d))
  end.

(** What one iteration of the timestamp loop does to the registers, and the
    row it appends, if any.  [None] stands for a raised exception (unknown
    month key, division by a zero voltage). *)
Definition reading_step (meter tariff : string) (st : registers)
    (ts : timestamp) (d : reading_draws) : option (registers * option reading) :=
  match draw_consumption tariff ts d with
  | None => None
  | Some consumption0 =>
    let cumulative0 := cumulative_reading st + consumption0 in
    let rv := rand_val d in
    let voltage0 := gauss 230 10 (z_voltage d) in
    if Qeq_bool voltage0 0 then None else
    let current := (consumption0 * 1000) / voltage0 in
    let frequency0 := gauss 50 0.2 (z_frequency d) in
    let pf := gauss 0.95 0.03 (z_power_factor d) in
    let temperature :=
      gauss 30 5 (z_temperature d) + (if (12 <? hour ts)%Z then 15 else 0) in
    let signal0 := gauss (-70) 10 (z_signal d) in
    let battery0 := gauss 3.7 0.2 (z_battery d) in
    let emit consumption cumulative voltage frequency signal battery :=
      Some (mkRegs cumulative cumulative,
            Some {| r_timestamp := ts;
                    meter_number := meter;
                    reading_kwh := Num.round cumulative 3;
                    energy_consumed_kwh := Num.round consumption 3;
                    voltage_v := Num.round voltage 1;
                    current_a := Num.round current 2;
                    frequency_hz := Num.round frequency 2;
                    power_factor := Num.round pf 3;
                    temperature_c := Num.round temperature 1;
                    signal_strength_dbm := Num.round signal 1;
                    battery_voltage_v := Num.round battery 2;
                    data_quality_flag := _determine_quality_flag rv |}) in
    let t1 := prob MissingReading in
    let t2 := t1 + prob NegativeReading in
    let t3 := t2 + prob ZeroReading in
    let t4 := t3 + prob AbnormalSpike in
    let t5 := t4 + prob VoltageSag in
    let t6 := t5 + prob FrequencyVariation in
    let t7 := t6 + prob SignalDrop in
    let t8 := t7 + prob BatteryFault in
    if Num.ltb rv t1 then
      Some (mkRegs cumulative0 (previous_reading st), None)
    else if Num.ltb rv t2 then
      let consumption := - consumption0 in
      emit consumption (previous_reading st - consumption) voltage0 frequency0 signal0 battery0
    else if Num.ltb rv t3 then
      emit 0 cumulative0 voltage0 frequency0 signal0 battery0
    else if Num.ltb rv t4 then
      let consumption := consumption0 * uniform 5 10 (r_issue d) in
      emit consumption (cumulative0 + consumption) voltage0 frequency0 signal0 battery0
    else if Num.ltb rv t5 then
      emit consumption0 cumulative0 (uniform 160 200 (r_issue d)) frequency0 signal0 battery0
    else if Num.ltb rv t6 then
      emit consumption0 cumulative0 voltage0 (uniform 47 53 (r_issue d)) signal0 battery0
    else if Num.ltb rv t7 then
      emit consumption0 cumulative0 voltage0 frequency0 (uniform (-110) (-90) (r_issue d)) battery0
    else if Num.ltb rv t8 then
      emit consumption0 cumulative0 voltage0 frequency0 signal0 (uniform 2.5 3.0 (r_issue d))
    else
      emit consumption0 (cumulative0 + consumption0) voltage0 frequency0 signal0 battery0
  end.

(** The timestamp loop of [generate_readings] for one meter: the rows
    appended, in order, and the final registers. *)
Fixpoint timestamp_loop (meter tariff : string) (st : registers)
    (grid : list (timestamp * reading_draws)) : option (registers * list reading) :=
  match grid with
  | [] => Some (st, [])
  | (ts, d) :: rest =>
      match reading_step meter tariff st ts d with
      | None => None
      | Some (st', row) =>
          match timestamp_loop meter tariff st' rest with
          | None => None
          | Some (st'', rows) =>
              Some (st'', match row with Some r => r :: rows | None => rows end)
          end
      end
  end.

Definition generate_readings (meter tariff : string)
    (grid : list (timestamp * reading_draws)) : option (list reading) :=
  option_map snd (timestamp_loop meter tariff (mkRegs 0 0) grid).

(** *** Billing *)

Definition residential_slabs : slab_table :=
  [ (Units 100, 5.79); (Units 200, 8.11); (Units 300, 10.20);
    (Units 400, 16.00); (Units 500, 18.00); (Unbounded, 21.00) ].

Definition commercial_slabs : slab_table :=
  [ (Units 100, 16.00); (Units 300, 18.00); (Unbounded, 21.00) ].

(** Tariff selection of [calculate_bill]: slab table and fixed charge. *)
Definition tariff_rates (tariff : string) (connected_load : Q) : slab_table * Q :=
  if Num.contains "A-1" tariff then
    (residential_slabs, if Num.ltb connected_load 5 then 50 else 100)
  else if Num.contains "A-2" tariff then
    (commercial_slabs, 250 * connected_load)
  else if Num.contains "B-1" tariff then
    ([(Unbounded, 14.00)], 200 * connected_load)
  else
    ([(Unbounded, 16.00)], 300 * connected_load).

(** The unrounded quantities [calculate_bill] works with before it builds
    the record. *)
Definition variable_of (consumption_kwh : Q) (tariff : string) (connected_load : Q) : Q :=
  slab_loop (fst (tariff_rates tariff connected_load)) consumption_kwh 0.

Definition fixed_of (tariff : string) (connected_load : Q) : Q :=
  snd (tariff_rates tariff connected_load).

Definition gst_of (variable fixed_charge : Q) : Q := (variable + fixed_charge) * 0.18.
Definition duty_of (variable : Q) : Q := variable * 0.015.
Definition tv_fee_of (d : bill_draws) : Q := if Num.gtb (tv_draw d) 0.7 then 35 else 0.
Definition late_of (d : bill_draws) (variable fixed_charge : Q) : Q :=
  if Num.gtb (late_draw d) 0.9 then (variable + fixed_charge) * 0.05 else 0.

(** [IESCODataGenerator.calculate_bill].  [issue] is the day number of the
    25th of the billing month ([pd.to_datetime(f"25 {billing_month}")]). *)
Definition calculate_bill (consumption_kwh : Q) (tariff : string) (connected_load : Q)
    (month : string) (issue : Z) (d : bill_draws) : bill :=
  let variable := variable_of consumption_kwh tariff connected_load in
  let fixed_charge := fixed_of tariff connected_load in
  let g := gst_of variable fixed_charge in
  let duty := duty_of variable in
  let tv := tv_fee_of d in
  let late_payment := late_of d variable fixed_charge in
  let total := variable + fixed_charge + g + duty + tv + late_payment in
  {| billing_month := month;
     issue_date := issue;
     due_date := (issue + 14)%Z;
     units_consumed := Num.round consumption_kwh 2;
     variable_charges := Num.round variable 2;
     fixed_charges := Num.round fixed_charge 2;
     gst := Num.round g 2;
     electricity_duty := Num.round duty 2;
     tv_fee := Num.round tv 2;
     late_payment_surcharge := Num.round late_payment 2;
     total_amount := Num.round total 2;
     amount_within_due_date := Num.round total 2;
     amount_after_due_date := Num.round (total * 1.05) 2;
     tariff_applied := tariff |}.

(** *** Monthly bills *)

(** The columns of the meters table read by the billing loop. *)
Record consumer : Type := mkConsumer {
  c_meter_number : string;
  c_consumer_id : string;
  c_tariff_category : string;
  c_connected_load_kw : Q
}.

(** A billing month: its label, its first instant, the first instant of the
    next month, and the day number of its 25th. *)
Record billing_period : Type := mkPeriod {
  month_str : string;
  month_start : Z;
  next_month : Z;
  day25 : Z
}.

(** A row of the bills table: the dictionary built by [calculate_bill] with
    the meter and consumer keys added by the caller. *)
Record bill_row : Type := mkBillRow {
  row_bill : bill;
  row_meter_number : string;
  row_consumer_id : string
}.

(** [readings_df[readings_df['meter_number'] == meter_number]]. *)
Definition meter_readings (readings_df : list reading) (meter : string) : list reading :=
  filter (fun r => String.eqb (meter_number r) meter) readings_df.

(** The rows with [billing_month <= timestamp < next_month]. *)
Definition month_readings (rows : list reading) (bp : billing_period) : list reading :=
  filter (fun r => ((month_start bp <=? time (r_timestamp r))
                    && (time (r_timestamp r) <? next_month bp))%Z) rows.

(** The consumption handed to [calculate_bill] for a non-empty month (source
    lines 605-621); [None] when the month has no reading and no bill is made. *)
Definition total_consumption (rows : list reading) : option Q :=
  match rows with
  | [] => None
  | first :: _ =>
      let first_reading := reading_kwh first in
      let last_reading := reading_kwh (last rows first) in
      let estimate :=
        if Num.ltb last_reading first_reading || Num.ltb last_reading 0 then
          Num.sum (map energy_consumed_kwh
                     (filter (fun r => Num.gtb (energy_consumed_kwh r) 0) rows))
        else last_reading - first_reading in
      Some (Num.py_max 0 estimate)
  end.

(** The body of the two nested loops of [generate_monthly_bills] for one
    meter and one billing month. *)
Definition monthly_bill (readings_df : list reading) (m : consumer)
    (bp : billing_period) (d : bill_draws) : option bill_row :=
  match total_consumption (month_readings (meter_readings readings_df (c_meter_number m)) bp) with
  | None => None
  | Some consumption =>
      Some {| row_bill := calculate_bill consumption (c_tariff_category m)
                            (c_connected_load_kw m) (month_str bp) (day25 bp) d;
              row_meter_number := c_meter_number m;
              row_consumer_id := c_consumer_id m |}
  end.

(** [generate_monthly_bills]: meters outermost, months innermost; [draws i j]
    gives the random inputs of the bill of the [i]-th meter for the [j]-th
    month.  [readings_df] holds the rows of a frame that has rows and whose
    meter numbers are strings, as [generate_readings] builds them;
    [Frames.generate_monthly_bills] below is the same function on any frame,
    also one without columns or read back from the readings file. *)
Definition indexed {A : Type} (l : list A) : list (nat * A) :=
  combine (seq 0 (List.length l)) l.

Definition generate_monthly_bills (meters_df : list consumer) (readings_df : list reading)
    (billing_months : list billing_period)
    (draws : nat -> nat -> bill_draws) : list bill_row :=
  flat_map (fun im =>
    flat_map (fun jbp =>
      match monthly_bill readings_df (snd im) (snd jbp) (draws (fst im) (fst jbp)) with
      | Some b => [b]
      | None => []
      end) (indexed billing_months)) (indexed meters_df).

(** *** Payments *)

Inductive payment_status : Type := Paid | Partial | Unpaid.

Record payment : Type := mkPayment {
  p_consumer_id : string;
  p_meter_number : string;
  p_billing_month : string;
  bill_amount : Q;
  p_due_date : Z;
  status : payment_status;
  payment_date : option Z;
  paid_amount : Q;
  payment_method : option string;
  transaction_id : option (string * Z);
  outstanding_amount : Q
}.

Definition payment_methods : list string :=
  [ "Bank Branch"; "Bank ATM"; "Bank Mobile App"; "EasyPaisa"; "JazzCash";
    "1Bill"; "Online Banking"; "IESCO Office"; "Franchise" ]%string.

(** The random inputs of one payment. *)
Record payment_draws : Type := mkPayDraws {
  paid_draw : Q;        (* random.random() < 0.85 *)
  timing_draw : Q;      (* rand_val *)
  days_draw : Z;        (* the randint of the timing branch taken *)
  late_factor : Q;      (* unit draw of random.uniform(1.0, 1.1) *)
  shift_draw : Z;       (* random.randint(1, 5) *)
  method_draw : nat;    (* index picked by random.choices *)
  txn_draw : Z;         (* the randint of the transaction id *)
  partial_draw : Q;     (* random.random() < 0.05 *)
  partial_factor : Q    (* unit draw of random.uniform(0.5, 0.95) *)
}.

Definition transaction_prefix (method : string) : string :=
  if existsb (String.eqb method) ["EasyPaisa"; "JazzCash"; "1Bill"]%string then "EP"
  else if Num.contains "Bank" method || Num.contains "Online" method then "BNK"
  else "CSH".



End V11.

(** ** Transformers *)

(** An element of a transformer's [upgrade_history]. *)
Record upgrade_entry : Type := mkUpgrade {
  u_date : Z;
  old_rating : Q;
  new_rating : Q
}.

Record transformer : Type := mkTransformer {
  transformer_id : string;
  transformer_type : string;
  rating_kva : Q;
  capacity_utilization_pct : Q;
  upgrade_date : option Z;
  upgrade_history : list upgrade_entry;
  consumers_connected : Z;
  phase_type : string
}.

(** The [transformer_upgrade] entry of the events log. *)
Record upgrade_event : Type := mkUpgradeEvent {
  e_date : Z;
  e_transformer_id : string;
  old_rating_kva : Q;
  new_rating_kva : Q
}.

(** [transformer_specs['distribution_transformer']['types']] as
    (rating_kva, upgrade_to) pairs; v1.2 and v1.3 list the same tiers. *)
Definition distribution_types : list (Q * Q) :=
  [ (1500, 2000); (1000, 1500); (750, 1000); (500, 750); (250, 400); (100, 200) ].

(** The for/else search for the upgrade path. *)
Fixpoint find_upgrade (types : list (Q * Q)) (old : Q) : Q :=
  match types with
  | [] => old * 1.5
  | (rating, upgrade_to) :: rest =>
      if Qeq_bool rating old then upgrade_to else find_upgrade rest old
  end.

(** The "record upgrade" block, identical in [simulate_monthly_events]
    (v1.2) and [simulate_monthly_events_region] (v1.3): the transformer after
    the in-place update, and the event appended to the log. *)
Definition upgrade (current_date : Z) (t : transformer) : transformer * upgrade_event :=
  let old := rating_kva t in
  let new := find_upgrade distribution_types old in
  ({| transformer_id := transformer_id t;
      transformer_type := transformer_type t;
      rating_kva := new;
      capacity_utilization_pct := capacity_utilization_pct t * (old / new);
      upgrade_date := Some current_date;
      upgrade_history := upgrade_history t ++ [mkUpgrade current_date old new];
      consumers_connected := consumers_connected t;
      phase_type := phase_type t |},
   mkUpgradeEvent current_date (transformer_id t) old new).

(** In-place update of the element at position [i] of a list of records. *)
Fixpoint update_at {A : Type} (i : nat) (f : A -> A) (l : list A) : list A :=
  match l, i with
  | [], _ => []
  | x :: rest, O => f x :: rest
  | x :: rest, S j => x :: update_at j f rest
  end.

(** The positions of the elements of [l] satisfying [p]: a list
    comprehension over shared records keeps references, which are modelled by
    positions in the store. *)
Definition positions {A : Type} (p : A -> bool) (l : list A) : list nat :=
  map fst (filter (fun ix => p (snd ix)) (combine (seq 0 (List.length l)) l)).

Module V12.

(** Tariff selection of [_calculate_bill]. *)
Definition tariff_rates (tariff : string) (connected_load : Q) : slab_table * Q :=
  if Num.contains "A-1" tariff then
    (V11.residential_slabs, if Num.ltb connected_load 5 then 50 else 100)
  else if Num.contains "A-2" tariff then
    (V11.commercial_slabs, 250 * connected_load)
  else if Num.contains "B-1" tariff then
    ([(Unbounded, 14.00)], 200 * connected_load)
  else if Num.contains "B-2" tariff then
    ([(Unbounded, 16.00)], 300 * connected_load)
  else if Num.contains "C-1" tariff then
    ([(Unbounded, 12.00)], 100 * connected_load)
  else
    ([(Unbounded, 18.00)], 400 * connected_load).

Definition variable_of (consumption_kwh : Q) (tariff : string) (connected_load : Q) : Q :=
  slab_loop (fst (tariff_rates tariff connected_load)) consumption_kwh 0.

Definition fixed_of (tariff : string) (connected_load : Q) : Q :=
  snd (tariff_rates tariff connected_load).

Definition late_of (d : bill_draws) (variable fixed : Q) : Q :=
  if Num.gtb (late_draw d) 0.1 then 0 else (variable + fixed) * 0.05.

(** [_calculate_bill]; [billing_date] is the 25th of the billing month. *)
Definition _calculate_bill (consumption_kwh : Q) (tariff : string) (connected_load : Q)
    (month : string) (billing_date : Z) (d : bill_draws) : bill :=
  let variable := variable_of consumption_kwh tariff connected_load in
  let fixed := fixed_of tariff connected_load in
  let g := (variable + fixed) * 0.18 in
  let duty := variable * 0.015 in
  let tv := V11.tv_fee_of d in
  let late := late_of d variable fixed in
  let total := variable + fixed + g + duty + tv + late in
  {| billing_month := month;
     issue_date := (billing_date - 5)%Z;
     due_date := (billing_date + 14)%Z;
     units_consumed := Num.round consumption_kwh 2;
     variable_charges := Num.round variable 2;
     fixed_charges := Num.round fixed 2;
     gst := Num.round g 2;
     electricity_duty := Num.round duty 2;
     tv_fee := Num.round tv 2;
     late_payment_surcharge := Num.round late 2;
     total_amount := Num.round total 2;
     amount_within_due_date := Num.round total 2;
     amount_after_due_date := Num.round (total * 1.05) 2;
     tariff_applied := tariff |}.

(** *** Readings *)

Definition issue_probabilities : issue_table :=
  [ (MissingReading, 0.02); (NegativeReading, 0.005); (ZeroReading, 0.01);
    (AbnormalSpike, 0.01); (VoltageSag, 0.015); (FrequencyVariation, 0.01);
    (SignalDrop, 0.02); (BatteryFault, 0.005); (MeterTamper, 0.003);
    (ReverseEnergy, 0.002) ].

(** The columns of a meter row read by the reading and billing loops and
    written by the monthly events.  The descriptive columns (names, address,
    coordinates, make and model, histories) do not influence any of them and
    are left out. *)
Record meter : Type := mkMeter {
  m_meter_number : string;
  m_consumer_id : string;
  m_previous_meter_number : option string;
  m_meter_generation : Z;
  m_installation_date : Z;
  m_deactivation_date : option Z;
  m_is_active : bool;
  m_status : string;
  m_tariff_category : string;
  m_connected_load_kw : Q;
  m_distribution_transformer_id : string;
  m_meter_type : string;
  m_has_solar : bool;
  m_solar_installation_date : option Z
}.

Definition _get_consumption_params (tariff : string) : Q * Q * Q * Q :=
  if Num.contains "A-1" tariff then (0.1, 0.5, 0.5, 0.8)
  else if Num.contains "A-2" tariff then (0.3, 1.0, 1.0, 1.8)
  else if Num.contains "B-1" tariff then (1.0, 3.0, 3.0, 5.0)
  else if Num.contains "B-2" tariff then (3.0, 8.0, 8.0, 15.0)
  else if Num.contains "C-1" tariff then (0.5, 2.0, 2.0, 4.0)
  else (5.0, 15.0, 15.0, 25.0).

Definition _generate_voltage (ts : timestamp) (load_factor z : Q) : Q :=
  let base := if between 10 (hour ts) 14 then 225
              else if between 18 (hour ts) 22 then 220 else 230 in
  base * (1 - 0.03 * load_factor) + gauss 0 2 z.

Definition _generate_frequency (ts : timestamp) (z : Q) : Q :=
  if between 18 (hour ts) 22 then 49.8 + gauss 0 0.1 z
  else if between 1 (hour ts) 4 then 50.1 + gauss 0 0.1 z
  else 50.0 + gauss 0 0.1 z.

Definition _generate_power_factor (tariff : string) (z : Q) : Q :=
  let base := if Num.contains "B" tariff then 0.95
              else if Num.contains "A-2" tariff then 0.92 else 0.88 in
  Num.py_max 0.8 (Num.py_min 0.99 (base + gauss 0 0.02 z)).

Definition _generate_temperature (ts : timestamp) (z : Q) : Q :=
  let daily_temp := if between 14 (hour ts) 16 then 32
                    else if between 4 (hour ts) 6 then 20 else 26 in
  let seasonal := if existsb (Z.eqb (month ts)) [5; 6; 7; 8]%Z then 35
                  else if existsb (Z.eqb (month ts)) [12; 1; 2]%Z then 10 else 25 in
  (daily_temp + seasonal) / 2 + gauss 0 3 z.

Definition _generate_signal_strength (ts : timestamp) (z : Q) : Q :=
  if between 0 (hour ts) 5 then -65 + gauss 0 5 z
  else if between 9 (hour ts) 12 || between 18 (hour ts) 21 then -75 + gauss 0 5 z
  else -70 + gauss 0 5 z.

Definition _generate_battery_voltage (z : Q) : Q := 3.7 + gauss 0 0.1 z.

(** The tuple returned by [_apply_data_quality_issues]. *)
Record adjusted : Type := mkAdjusted {
  a_consumption : Q;
  a_cumulative : Q;
  a_voltage : Q;
  a_frequency : Q;
  a_signal : Q;
  a_battery : Q;
  a_flag : quality_flag
}.

Definition _apply_data_quality_issues (rand_val consumption cumulative_reading
    previous_reading voltage frequency signal_strength battery_voltage : Q) : adjusted :=
  let keep c cum v f s b flag := mkAdjusted c cum v f s b flag in
  match scan_issues issue_probabilities 0 rand_val with
  | MissingReading =>
      keep consumption cumulative_reading voltage frequency signal_strength battery_voltage MissingReading
  | NegativeReading =>
      keep (- consumption) (previous_reading - consumption) voltage frequency signal_strength battery_voltage NegativeReading
  | ZeroReading =>
      keep 0 previous_reading voltage frequency signal_strength battery_voltage ZeroReading
  | AbnormalSpike =>
      keep (consumption * 10) (cumulative_reading + consumption * 9) voltage frequency signal_strength battery_voltage AbnormalSpike
  | VoltageSag =>
      keep consumption cumulative_reading (voltage * 0.7) frequency signal_strength battery_voltage VoltageSag
  | FrequencyVariation =>
      keep consumption cumulative_reading voltage 47.5 signal_strength battery_voltage FrequencyVariation
  | SignalDrop =>
      keep consumption cumulative_reading voltage frequency (-105) battery_voltage SignalDrop
  | BatteryFault =>
      keep consumption cumulative_reading voltage frequency signal_strength 2.8 BatteryFault
  | MeterTamper =>
      keep (consumption * 0.3) (previous_reading + consumption * 0.3) voltage frequency signal_strength battery_voltage MeterTamper
  | ReverseEnergy =>
      keep (- consumption) (previous_reading - consumption) voltage frequency signal_strength battery_voltage ReverseEnergy
  | Normal =>
      keep consumption cumulative_reading voltage frequency signal_strength battery_voltage Normal
  end.

(** The interval consumption drawn for a timestamp (source lines 714-744). *)
Definition draw_consumption (m : meter) (ts : timestamp) (d : reading_draws) : Q * bool :=
  let '(base_min, base_max, peak_min, peak_max) := _get_consumption_params (m_tariff_category m) in
  let is_peak := between 6 (hour ts) 10 || between 18 (hour ts) 23 in
  let weekend_multiplier := if (5 <=? dayofweek ts)%Z then 1.2 else 1.0 in
  let seasonal_multiplier :=
    if existsb (Z.eqb (month ts)) [5; 6; 7; 8; 9]%Z then 1.4 else 1.0 in
  let solar_active :=
    m_has_solar m &&
    match m_solar_installation_date m with
    | None => true
    | Some sd => (sd <=? time ts)%Z
    end in
  let base_consumption :=
    if is_peak then uniform peak_min peak_max (r_base d)
    else uniform base_min base_max (r_base d) in
  let c1 := base_consumption * weekend_multiplier * seasonal_multiplier in
  let c2 := if solar_active && between 8 (hour ts) 17
            then c1 * uniform 0.3 0.8 (r_solar d) else c1 in
  (c2 * uniform 0.9 1.1 (r_jitter d), solar_active).

(** Whether the timestamp loop skips [ts] for this meter: before the
    installation, after the deactivation, or inside a failure window. *)
Definition skipped (m : meter) (failures : list (Z * Z)) (ts : timestamp) : bool :=
  (time ts <? m_installation_date m)%Z
  || match m_deactivation_date m with
     | Some dd => (dd <? time ts)%Z
     | None => false
     end
  || existsb (fun w => ((fst w <=? time ts) && (time ts <=? snd w))%Z) failures.

(** One iteration of the timestamp loop of [generate_readings_dynamic];
    [utilization] is the transformer's [capacity_utilization_pct]. *)
Definition reading_step (m : meter) (utilization : Q) (failures : list (Z * Z))
    (st : registers) (ts : timestamp) (d : reading_draws) : registers * option reading :=
  if skipped m failures ts then (st, None)
  else
    let consumption0 := fst (draw_consumption m ts d) in
    let cumulative0 := cumulative_reading st + consumption0 in
    let voltage0 := _generate_voltage ts (utilization / 100) (z_voltage d) in
    let current := if Num.gtb voltage0 0 then (consumption0 * 1000) / voltage0 else 0 in
    let frequency0 := _generate_frequency ts (z_frequency d) in
    let pf := _generate_power_factor (m_tariff_category m) (z_power_factor d) in
    let temperature := _generate_temperature ts (z_temperature d) in
    let signal0 := _generate_signal_strength ts (z_signal d) in
    let battery0 := _generate_battery_voltage (z_battery d) in
    let a := _apply_data_quality_issues (rand_val d) consumption0 cumulative0
               (previous_reading st) voltage0 frequency0 signal0 battery0 in
    (mkRegs (a_cumulative a) (a_cumulative a),
     Some {| r_timestamp := ts;
             meter_number := m_meter_number m;
             reading_kwh := Num.round (a_cumulative a) 3;
             energy_consumed_kwh := Num.round (a_consumption a) 3;
             voltage_v := Num.round (a_voltage a) 1;
             current_a := Num.round current 2;
             frequency_hz := Num.round (a_frequency a) 2;
             power_factor := Num.round pf 3;
             temperature_c := Num.round temperature 1;
             signal_strength_dbm := Num.round (a_signal a) 1;
             battery_voltage_v := Num.round (a_battery a) 2;
             data_quality_flag := a_flag a |}).

Fixpoint timestamp_loop (m : meter) (utilization : Q) (failures : list (Z * Z))
    (st : registers) (grid : list (timestamp * reading_draws)) : registers * list reading :=
  match grid with
  | [] => (st, [])
  | (ts, d) :: rest =>
      let '(st', row) := reading_step m utilization failures st ts d in
      let '(st'', rows) := timestamp_loop m utilization failures st' rest in
      (st'', match row with Some r => r :: rows | None => rows end)
  end.

(** The rows [generate_readings_dynamic] appends for one meter. *)
Definition generate_readings_dynamic (m : meter) (utilization : Q)
    (failures : list (Z * Z)) (grid : list (timestamp * reading_draws)) : list reading :=
  snd (timestamp_loop m utilization failures (mkRegs 0 0) grid).

(** *** Monthly bills *)

(** The consumption billed by [generate_monthly_bills_dynamic] for the rows
    of one month (source lines 953-970); [None] when the month is empty. *)
Definition month_consumption (rows : list reading) : option Q :=
  match rows with
  | [] => None
  | _ :: _ =>
      let valid_readings :=
        filter (fun r => flag_eqb (data_quality_flag r) Normal) rows in
      let consumption :=
        match valid_readings with
        | first_row :: _ :: _ =>
            let first := reading_kwh first_row in
            let last_ := reading_kwh (last valid_readings first_row) in
            if Num.geb last_ first then last_ - first
            else Num.sum (map energy_consumed_kwh valid_readings)
        | _ => Num.sum (map energy_consumed_kwh rows)
        end in
      Some (Num.py_max 0 consumption)
  end.

(** *** Monthly events: transformer upgrades *)

Definition overloaded (t : transformer) : bool :=
  Num.gtb (capacity_utilization_pct t) 85
  && String.eqb (transformer_type t) "distribution".

(** Section 4 of [simulate_monthly_events].  [sample] is the result of
    [random.sample(overloaded_transformers, k)], given as positions in
    [overloaded_transformers]; the loop upgrades the sampled records in the
    shared [transformers_list]. *)
Definition transformer_upgrades (current_date : Z) (sample : list nat)
    (transformers_list : list transformer)
    : list transformer * list upgrade_event :=
  let overloaded_transformers := positions overloaded transformers_list in
  fold_left
    (fun (acc : list transformer * list upgrade_event) k =>
       match nth_error overloaded_transformers k with
       | None => acc
       | Some i =>
           match nth_error (fst acc) i with
           | None => acc
           | Some t =>
               (update_at i (fun t0 => fst (upgrade current_date t0)) (fst acc),
                snd acc ++ [snd (upgrade current_date t)])
           end
       end)
    sample (transformers_list, []).

(** What [random.sample(population, k)] can return: [k] distinct positions
    of the population. *)
Definition is_sample (sample : list nat) (population_size k : nat) : Prop :=
  NoDup sample /\ Forall (fun i => (i < population_size)%nat) sample
  /\ List.length sample = k.

(** *** Monthly events: meter creation *)

(** [f"{n}"] for an integer. *)
Definition format_int (n : Z) : string := NilZero.string_of_int (Z.to_int n).

(** (min_load, max_load) of [tariff_categories]. *)
Definition load_range (tariff : string) : Q * Q :=
  if String.eqb tariff "A-1a" then (1, 5)
  else if String.eqb tariff "A-1b" then (5, 30)
  else if String.eqb tariff "A-2a" then (1, 5)
  else if String.eqb tariff "A-2b" then (5, 50)
  else if String.eqb tariff "B-1" then (5, 25)
  else if String.eqb tariff "B-2" then (25, 500)
  else if String.eqb tariff "C-1" then (5, 50)
  else (50, 1000).

(** The random inputs of [_generate_new_meter].  [number_draws] are the
    successive results of [random.randint(10000000000, 99999999999)] in the
    uniqueness loop. *)
Record new_meter_draws : Type := mkNewMeterDraws {
  tariff_pick : nat;
  consumer_draw : Z;
  number_draws : list Z;
  load_draw : Q;
  solar_draw : Q;
  solar_date_draw : Q
}.

(** The [while True] loop of [_generate_new_meter]: the first drawn number
    that no existing meter carries.  [None] when the supplied draws all
    collide, that is, the loop is still running. *)
Fixpoint unique_meter_number (existing_meters : list meter) (draws : list Z) : option string :=
  match draws with
  | [] => None
  | n :: rest =>
      let candidate := format_int n in
      if existsb (fun m => String.eqb (m_meter_number m) candidate) existing_meters
      then unique_meter_number existing_meters rest
      else Some candidate
  end.

Definition _generate_new_meter (t : transformer) (connection_date : Z)
    (existing_meters : list meter) (d : new_meter_draws) : option meter :=
  let tariff_options :=
    if String.eqb (phase_type t) "1-phase" then ["A-1a"; "A-2a"]%string
    else ["A-1b"; "A-2b"; "B-1"; "C-1"]%string in
  let tariff := nth (tariff_pick d) tariff_options "A-1a"%string in
  match unique_meter_number existing_meters (number_draws d) with
  | None => None
  | Some number =>
      Some {| m_meter_number := number;
              m_consumer_id := "CI" ++ format_int (consumer_draw d);
              m_previous_meter_number := None;
              m_meter_generation := 1;
              m_installation_date := connection_date;
              m_deactivation_date := None;
              m_is_active := true;
              m_status := "Active";
              m_tariff_category := tariff;
              m_connected_load_kw :=
                Num.round (uniform (fst (load_range tariff)) (snd (load_range tariff))
                             (load_draw d)) 2;
              m_distribution_transformer_id := transformer_id t;
              m_meter_type := "Smart";
              m_has_solar := Num.gtb (solar_draw d) 0.9;
              m_solar_installation_date :=
                if Num.gtb (solar_date_draw d) 0.9 then Some connection_date else None |}
  end.

(** The meter side of one new connection in section 1 of
    [simulate_monthly_events]: [meters_list.append(new_meter)]. *)
Definition new_connection (t : transformer) (current_date : Z)
    (meters_list : list meter) (d : new_meter_draws) : option (list meter) :=
  option_map (fun m => meters_list ++ [m])
    (_generate_new_meter t current_date meters_list d).

(** The random inputs of one replacement: the position picked by
    [random.choice(active_meters)], the drawn meter number, and the draw that
    decides the upgrade to a smart meter. *)
Record replacement_draws : Type := mkReplDraws {
  choice : nat;
  number_draw : Z;
  smart_draw : Q
}.

Definition _replace_meter (old_meter : meter) (replacement_date : Z)
    (d : replacement_draws) : meter :=
  {| m_meter_number := format_int (number_draw d);
     m_consumer_id := m_consumer_id old_meter;
     m_previous_meter_number := Some (m_meter_number old_meter);
     m_meter_generation := (m_meter_generation old_meter + 1)%Z;
     m_installation_date := replacement_date;
     m_deactivation_date := None;
     m_is_active := true;
     m_status := "Active";
     m_tariff_category := m_tariff_category old_meter;
     m_connected_load_kw := m_connected_load_kw old_meter;
     m_distribution_transformer_id := m_distribution_transformer_id old_meter;
     m_meter_type :=
       if negb (String.eqb (m_meter_type old_meter) "Smart") && Num.gtb (smart_draw d) 0.3
       then "Smart" else m_meter_type old_meter;
     m_has_solar := m_has_solar old_meter;
     m_solar_installation_date := m_solar_installation_date old_meter |}.

(** The deactivation of the replaced record. *)
Definition deactivate_replaced (current_date : Z) (m : meter) : meter :=
  {| m_meter_number := m_meter_number m;
     m_consumer_id := m_consumer_id m;
     m_previous_meter_number := m_previous_meter_number m;
     m_meter_generation := m_meter_generation m;
     m_installation_date := m_installation_date m;
     m_deactivation_date := Some current_date;
     m_is_active := false;
     m_status := "Replaced";
     m_tariff_category := m_tariff_category m;
     m_connected_load_kw := m_connected_load_kw m;
     m_distribution_transformer_id := m_distribution_transformer_id m;
     m_meter_type := m_meter_type m;
     m_has_solar := m_has_solar m;
     m_solar_installation_date := m_solar_installation_date m |}.

(** Section 2 of [simulate_monthly_events]: [active_meters] is computed once,
    then each iteration picks one of its elements, appends the replacement to
    [meters_list] and deactivates the picked record in place. *)
Definition meter_replacements (current_date : Z) (draws : list replacement_draws)
    (meters_list : list meter) : list meter :=
  let active_meters := positions m_is_active meters_list in
  fold_left
    (fun ms d =>
       match nth_error active_meters (choice d) with
       | None => ms
       | Some i =>
           match nth_error ms i with
           | None => ms
           | Some meter_to_replace =>
               update_at i (deactivate_replaced current_date)
                 (ms ++ [_replace_meter meter_to_replace current_date d])
           end
       end)
    draws meters_list.

End V12.

Module V13.

(** Section 3 of [simulate_monthly_events_region]: every distribution
    transformer above 85% utilisation is upgraded when its own
    [random.random()] draw is below 0.02.  [draws i] is the draw of the
    transformer at position [i]. *)
Definition selected (t : transformer) (draw : Q) : bool :=
  String.eqb (transformer_type t) "distribution"
  && (Num.gtb (capacity_utilization_pct t) 85 && Num.ltb draw 0.02).

Fixpoint upgrade_loop (current_date : Z) (draws : nat -> Q) (i : nat)
    (transformers : list transformer) : list transformer * list upgrade_event :=
  match transformers with
  | [] => ([], [])
  | t :: rest =>
      let '(rest', events) := upgrade_loop current_date draws (S i) rest in
      if selected t (draws i)
      then (fst (upgrade current_date t) :: rest', snd (upgrade current_date t) :: events)
      else (t :: rest', events)
  end.

Definition transformer_upgrades (current_date : Z) (draws : nat -> Q)
    (transformers : list transformer) : list transformer * list upgrade_event :=
  upgrade_loop current_date draws 0 transformers.

End V13.

Module V20.

(** The keys of the [meter_data] dictionary the pipeline reads and writes.
    [sanctioned_load_kw] and [last_reading] are read with [.get(key, default)]. *)
Record meter_data : Type := mkMeterData {
  meter_id : string;
  consumer_type : option string;
  sanctioned_load_kw : option Q;
  last_reading : option Q
}.

Record reading : Type := mkReading {
  meter_number : string;
  timestamp : Z;
  reading_kwh : Q;
  consumption_kwh : Q;
  voltage_v : Q;
  current_a : Q;
  power_factor : Q;
  frequency_hz : Q;
  status : string
}.

(** The random inputs of one reading. *)
Record draws : Type := mkDraws {
  r_consumption : Q;
  z_voltage : Q;
  z_power_factor : Q;
  z_frequency : Q
}.

(** [self.base.generate_consumption_patterns], when the base simulator was
    loaded and has that method.  The base simulator (datagenerator_v1.5.py) is
    loaded at run time and is an input here: a function of the consumer type,
    the timestamp and its random draw. *)
Definition base_simulator := option (string -> Z -> Q -> Q).

(** [timestamp.hour] of a datetime counted in minutes from a midnight. *)
Definition hour_of (t : Z) : Z := ((t / 60) mod 24)%Z.

Definition get {A : Type} (field : option A) (default : A) : A :=
  match field with
  | Some v => v
  | None => default
  end.

Definition consumption_kw (base : base_simulator) (md : meter_data) (t : Z) (d : draws) : Q :=
  match base with
  | Some generate_consumption_patterns =>
      generate_consumption_patterns
        (get (consumer_type md) "RESIDENTIAL_GENERAL"%string) t (r_consumption d)
  | None =>
      let base_load := get (sanctioned_load_kw md) 5 in
      let hour := hour_of t in
      if between 18 hour 23 then base_load * uniform 0.7 0.95 (r_consumption d)
      else if between 6 hour 9 then base_load * uniform 0.5 0.7 (r_consumption d)
      else base_load * uniform 0.2 0.5 (r_consumption d)
  end.

(** [_generate_single_reading]: the row, and [meter_data] after the
    assignment to its [last_reading] key. *)
Definition _generate_single_reading (base : base_simulator) (md : meter_data)
    (t : Z) (d : draws) : meter_data * reading :=
  let consumption := consumption_kw base md t d in
  let prev_reading := get (last_reading md) 0 in
  let current_reading := prev_reading + consumption * (15 / 60) in
  ({| meter_id := meter_id md;
      consumer_type := consumer_type md;
      sanctioned_load_kw := sanctioned_load_kw md;
      last_reading := Some current_reading |},
   {| meter_number := meter_id md;
      timestamp := t;
      reading_kwh := Num.round current_reading 2;
      consumption_kwh := Num.round (consumption * (15 / 60)) 3;
      voltage_v := Num.round (gauss 230 5 (z_voltage d)) 1;
      current_a := Num.round (consumption / 0.23) 2;
      power_factor := Num.round (gauss 0.95 0.02 (z_power_factor d)) 2;
      frequency_hz := Num.round (gauss 50 0.1 (z_frequency d)) 1;
      status := "normal" |}).

(** The loop of [_generate_month_readings],
<<
   while current_time <= month_end:
       readings.append(self._generate_single_reading(...))
       current_time += timedelta(minutes=frequency_minutes)
>>
    run for at most [fuel] iterations; [None] when the loop has not exited by
    then.  [rng n] holds the draws of the [n]-th reading of the meter. *)
Fixpoint month_loop (fuel : nat) (base : base_simulator) (rng : nat -> draws)
    (frequency_minutes month_end : Z) (md : meter_data) (n : nat) (current_time : Z)
    : option (meter_data * nat * list reading) :=
  if (current_time <=? month_end)%Z then
    match fuel with
    | O => None
    | S fuel' =>
        let '(md', r) := _generate_single_reading base md current_time (rng n) in
        match month_loop fuel' base rng frequency_minutes month_end md' (S n)
                (current_time + frequency_minutes)%Z with
        | None => None
        | Some (md'', n', rows) => Some (md'', n', r :: rows)
        end
    end
  else Some (md, n, []).

(** The number of grid points of a month window. *)
Definition grid_size (frequency_minutes month_start month_end : Z) : nat :=
  Z.to_nat ((month_end - month_start) / frequency_minutes + 1).

Definition _generate_month_readings (base : base_simulator) (rng : nat -> draws)
    (md : meter_data) (n : nat) (month_start month_end frequency_minutes : Z)
    : option (meter_data * nat * list reading) :=
  month_loop (grid_size frequency_minutes month_start month_end) base rng
    frequency_minutes month_end md n month_start.

(** The readings part of the month loop of [process_single_meter_pipeline],
<<
   while current_date <= end_dt:
       month_start = current_date
       month_end = month_start + relativedelta(months=1) - timedelta(days=1)
       if month_end > end_dt: month_end = end_dt
       results['readings'].extend(self._generate_month_readings(...))
       current_date = month_start + relativedelta(months=1)
>>
    run for at most [fuel] months.  Datetimes are counted in minutes;
    [add_month t] stands for [t + relativedelta(months=1)], the calendar
    arithmetic of dateutil.  The one [meter_data] dictionary is threaded
    through all the months. *)
Fixpoint month_loop_readings (fuel : nat) (add_month : Z -> Z) (base : base_simulator)
    (rng : nat -> draws) (frequency_minutes end_dt : Z) (md : meter_data) (n : nat)
    (current_date : Z) : option (meter_data * list reading) :=
  if (current_date <=? end_dt)%Z then
    match fuel with
    | O => None
    | S fuel' =>
        let month_start := current_date in
        let month_end0 := (add_month month_start - 1440)%Z in
        let month_end := if (end_dt <? month_end0)%Z then end_dt else month_end0 in
        match _generate_month_readings base rng md n month_start month_end frequency_minutes with
        | None => None
        | Some (md', n', month_rows) =>
            match month_loop_readings fuel' add_month base rng frequency_minutes end_dt
                    md' n' (add_month month_start) with
            | None => None
            | Some (md'', rows) => Some (md'', month_rows ++ rows)
            end
        end
    end
  else Some (md, []).

(** [results['readings']] of [process_single_meter_pipeline], with enough
    fuel for every month between [start] and [end_dt] when [add_month] moves
    forward. *)
Definition process_single_meter_pipeline (add_month : Z -> Z) (base : base_simulator)
    (rng : nat -> draws) (md : meter_data) (start end_dt frequency_minutes : Z)
    : option (meter_data * list reading) :=
  month_loop_readings (Z.to_nat (end_dt - start + 1)) add_month base rng
    frequency_minutes end_dt md 0 start.

(** The month windows (month_start, month_end) visited by that loop. *)
Fixpoint month_windows (fuel : nat) (add_month : Z -> Z) (end_dt current_date : Z)
    : list (Z * Z) :=
  if (current_date <=? end_dt)%Z then
    match fuel with
    | O => []
    | S fuel' =>
        let month_end0 := (add_month current_date - 1440)%Z in
        (current_date, if (end_dt <? month_end0)%Z then end_dt else month_end0)
          :: month_windows fuel' add_month end_dt (add_month current_date)
    end
  else [].

End V20.

(** ** The regional generator (v1.3): readings *)

(** The exceptions the reading loop can raise. *)
Inductive error : Type :=
| KeyError
| ValueError.

(** A call that returns a value or raises. *)
Inductive outcome (A : Type) : Type :=
| Returned (a : A)
| Raised (e : error).

Arguments Returned {A} a.
Arguments Raised {A} e.

Module Region.

(** The columns of a meter row read by [generate_region_readings] and read
    or written by the replacements of [simulate_monthly_events_region]. *)
Record meter : Type := mkMeter {
  m_meter_number : string;
  m_consumer_id : string;
  m_previous_meter_number : option string;
  m_meter_generation : Z;
  m_tariff_category : string;
  m_district : string;
  m_installation_date : Z;
  m_deactivation_date : option Z;
  m_is_active : bool;
  m_status : string;
  m_meter_type : string;
  m_has_solar : bool
}.

Definition issue_probabilities : issue_table :=
  [ (MissingReading, 0.02); (NegativeReading, 0.005); (ZeroReading, 0.01);
    (AbnormalSpike, 0.01); (VoltageSag, 0.015); (FrequencyVariation, 0.01);
    (SignalDrop, 0.02); (BatteryFault, 0.005); (MeterTamper, 0.003);
    (ReverseEnergy, 0.002) ].

Definition _get_consumption_params (tariff : string) : Q * Q * Q * Q :=
  if Num.contains "A-1" tariff then (0.1, 0.5, 0.5, 0.8)
  else if Num.contains "A-2" tariff then (0.3, 1.0, 1.0, 1.8)
  else if Num.contains "B-1" tariff then (1.0, 3.0, 3.0, 5.0)
  else if Num.contains "B-2" tariff then (3.0, 8.0, 8.0, 15.0)
  else if Num.contains "C-1" tariff then (0.5, 2.0, 2.0, 4.0)
  else (5.0, 15.0, 15.0, 25.0).

(** [district in ['ISLAMABAD', 'RAWALPINDI']]. *)
Definition urban (district : string) : bool :=
  String.eqb district "ISLAMABAD" || String.eqb district "RAWALPINDI".

(** The [district_multiplier] lookup, with its default. *)
Definition district_multiplier (district : string) : Q :=
  if String.eqb district "ISLAMABAD" then 1.3
  else if String.eqb district "RAWALPINDI" then 1.2
  else if String.eqb district "ATTOCK" then 1.0
  else if String.eqb district "JHELUM" then 0.9
  else if String.eqb district "CHAKWAL" then 0.8
  else 1.0.

Definition _generate_voltage_region (ts : timestamp) (district : string) (z : Q) : Q :=
  let base := if urban district then 230 else 225 in
  let variation := if urban district then 3 else 5 in
  let base' := if between 18 (hour ts) 22 then base * 0.97 else base in
  base' + gauss 0 variation z.

(** [base_temps], as (summer, winter, spring); [None] for a district that is
    not a key. *)
Definition base_temps (district : string) : option (Q * Q * Q) :=
  if String.eqb district "ISLAMABAD" then Some (35, 8, 25)
  else if String.eqb district "RAWALPINDI" then Some (36, 7, 26)
  else if String.eqb district "ATTOCK" then Some (38, 6, 24)
  else if String.eqb district "JHELUM" then Some (40, 5, 27)
  else if String.eqb district "CHAKWAL" then Some (39, 4, 23)
  else None.

(** [_generate_temperature_region]; [None] is the KeyError of
    [base_temps[district]], which every branch evaluates. *)
Definition _generate_temperature_region (ts : timestamp) (district : string) (z : Q)
    : option Q :=
  match base_temps district with
  | None => None
  | Some (summer, winter, spring) =>
      let base := if existsb (Z.eqb (month ts)) [5; 6; 7; 8]%Z then summer
                  else if existsb (Z.eqb (month ts)) [12; 1; 2]%Z then winter
                  else spring in
      let base' := if between 14 (hour ts) 16 then base + 5
                   else if between 4 (hour ts) 6 then base - 5 else base in
      Some (base' + gauss 0 2 z)
  end.

(** What [_apply_data_quality_issues] returns: a tuple of seven values, or,
    in the battery-fault branch, a tuple of eight (consumption, cumulative
    reading, voltage, frequency, signal strength, 2.8, battery voltage,
    flag). *)
Inductive returned : Type :=
| Tuple7 (a : V12.adjusted)
| Tuple8 (consumption cumulative voltage frequency signal fault_voltage battery : Q)
         (flag : quality_flag).

Definition _apply_data_quality_issues (rand_val consumption cumulative_reading
    previous_reading voltage frequency signal_strength battery_voltage : Q) : returned :=
  let keep c cum v f s b flag := Tuple7 (V12.mkAdjusted c cum v f s b flag) in
  match scan_issues issue_probabilities 0 rand_val with
  | MissingReading =>
      keep consumption cumulative_reading voltage frequency signal_strength battery_voltage MissingReading
  | NegativeReading =>
      keep (- consumption) (previous_reading - consumption) voltage frequency signal_strength battery_voltage NegativeReading
  | ZeroReading =>
      keep 0 previous_reading voltage frequency signal_strength battery_voltage ZeroReading
  | AbnormalSpike =>
      keep (consumption * 10) (cumulative_reading + consumption * 9) voltage frequency signal_strength battery_voltage AbnormalSpike
  | VoltageSag =>
      keep consumption cumulative_reading (voltage * 0.7) frequency signal_strength battery_voltage VoltageSag
  | FrequencyVariation =>
      keep consumption cumulative_reading voltage 47.5 signal_strength battery_voltage FrequencyVariation
  | SignalDrop =>
      keep consumption cumulative_reading voltage frequency (-105) battery_voltage SignalDrop
  | BatteryFault =>
      Tuple8 consumption cumulative_reading voltage frequency signal_strength 2.8 battery_voltage BatteryFault
  | MeterTamper =>
      keep (consumption * 0.3) (previous_reading + consumption * 0.3) voltage frequency signal_strength battery_voltage MeterTamper
  | ReverseEnergy =>
      keep (- consumption) (previous_reading - consumption) voltage frequency signal_strength battery_voltage ReverseEnergy
  | Normal =>
      keep consumption cumulative_reading voltage frequency signal_strength battery_voltage Normal
  end.

(** The interval consumption drawn for a timestamp (source lines 980-1014). *)
Definition draw_consumption (m : meter) (ts : timestamp) (d : reading_draws) : Q :=
  let '(base_min, base_max, peak_min, peak_max) := _get_consumption_params (m_tariff_category m) in
  let is_peak :=
    if urban (m_district m)
    then between 5 (hour ts) 10 || between 17 (hour ts) 23
    else between 5 (hour ts) 9 || between 18 (hour ts) 22 in
  let weekend_multiplier := if (5 <=? dayofweek ts)%Z then 1.3 else 1.0 in
  let seasonal_multiplier :=
    if existsb (Z.eqb (month ts)) [5; 6; 7; 8; 9]%Z then 1.5 else 1.0 in
  let base_consumption :=
    if is_peak then uniform peak_min peak_max (r_base d)
    else uniform base_min base_max (r_base d) in
  let c1 := base_consumption * weekend_multiplier * seasonal_multiplier
            * district_multiplier (m_district m) in
  let c2 := if m_has_solar m && between 8 (hour ts) 17
            then c1 * uniform 0.3 0.7 (r_solar d) else c1 in
  c2 * uniform 0.9 1.1 (r_jitter d).

Definition skipped (m : meter) (failures : list (Z * Z)) (ts : timestamp) : bool :=
  (time ts <? m_installation_date m)%Z
  || match m_deactivation_date m with
     | Some dd => (dd <? time ts)%Z
     | None => false
     end
  || existsb (fun w => ((fst w <=? time ts) && (time ts <=? snd w))%Z) failures.

(** One iteration of the timestamp loop of [generate_region_readings].  The
    seven-name unpacking of the result of [_apply_data_quality_issues] raises
    ValueError on a tuple of eight. *)
Definition reading_step (m : meter) (failures : list (Z * Z)) (st : registers)
    (ts : timestamp) (d : reading_draws) : outcome (registers * option reading) :=
  if skipped m failures ts then Returned (st, None)
  else
    let consumption0 := draw_consumption m ts d in
    let cumulative0 := cumulative_reading st + consumption0 in
    let voltage0 := _generate_voltage_region ts (m_district m) (z_voltage d) in
    let current := if Num.gtb voltage0 0 then (consumption0 * 1000) / voltage0 else 0 in
    let frequency0 := 50.0 + gauss 0 0.1 (z_frequency d) in
    let pf := 0.92 + gauss 0 0.02 (z_power_factor d) in
    match _generate_temperature_region ts (m_district m) (z_temperature d) with
    | None => Raised KeyError
    | Some temperature =>
        let signal0 := -70 + gauss 0 5 (z_signal d) in
        let battery0 := 3.7 + gauss 0 0.1 (z_battery d) in
        match _apply_data_quality_issues (rand_val d) consumption0 cumulative0
                (previous_reading st) voltage0 frequency0 signal0 battery0 with
        | Tuple8 _ _ _ _ _ _ _ _ => Raised ValueError
        | Tuple7 a =>
            Returned
              (mkRegs (V12.a_cumulative a) (V12.a_cumulative a),
               Some {| r_timestamp := ts;
                       meter_number := m_meter_number m;
                       reading_kwh := Num.round (V12.a_cumulative a) 3;
                       energy_consumed_kwh := Num.round (V12.a_consumption a) 3;
                       voltage_v := Num.round (V12.a_voltage a) 1;
                       current_a := Num.round current 2;
                       frequency_hz := Num.round (V12.a_frequency a) 2;
                       power_factor := Num.round pf 3;
                       temperature_c := Num.round temperature 1;
                       signal_strength_dbm := Num.round (V12.a_signal a) 1;
                       battery_voltage_v := Num.round (V12.a_battery a) 2;
                       data_quality_flag := V12.a_flag a |})
        end
    end.

Fixpoint timestamp_loop (m : meter) (failures : list (Z * Z)) (st : registers)
    (grid : list (timestamp * reading_draws)) : outcome (registers * list reading) :=
  match grid with
  | [] => Returned (st, [])
  | (ts, d) :: rest =>
      match reading_step m failures st ts d with
      | Raised e => Raised e
      | Returned (st', row) =>
          match timestamp_loop m failures st' rest with
          | Raised e => Raised e
          | Returned (st'', rows) =>
              Returned (st'', match row with Some r => r :: rows | None => rows end)
          end
      end
  end.

(** The rows [generate_region_readings] appends for one meter, or the
    exception that ends the call. *)
Definition generate_region_readings (m : meter) (failures : list (Z * Z))
    (grid : list (timestamp * reading_draws)) : outcome (list reading) :=
  match timestamp_loop m failures (mkRegs 0 0) grid with
  | Raised e => Raised e
  | Returned (_, rows) => Returned rows
  end.

(** *** Monthly events: replacements by age *)

(** [_replace_meter_region]; [number_draw] is the result of
    [random.randint(10000000000, 99999999999)]. *)
Definition _replace_meter_region (old_meter : meter) (replacement_date : Z)
    (number_draw : Z) : meter :=
  {| m_meter_number := V12.format_int number_draw;
     m_consumer_id := m_consumer_id old_meter;
     m_previous_meter_number := Some (m_meter_number old_meter);
     m_meter_generation := (m_meter_generation old_meter + 1)%Z;
     m_tariff_category := m_tariff_category old_meter;
     m_district := m_district old_meter;
     m_installation_date := replacement_date;
     m_deactivation_date := None;
     m_is_active := true;
     m_status := "Active";
     m_meter_type := "Smart";
     m_has_solar := m_has_solar old_meter |}.

(** The deactivation of the replaced record. *)
Definition deactivate_replaced (current_date : Z) (m : meter) : meter :=
  {| m_meter_number := m_meter_number m;
     m_consumer_id := m_consumer_id m;
     m_previous_meter_number := m_previous_meter_number m;
     m_meter_generation := m_meter_generation m;
     m_tariff_category := m_tariff_category m;
     m_district := m_district m;
     m_installation_date := m_installation_date m;
     m_deactivation_date := Some current_date;
     m_is_active := false;
     m_status := "Replaced";
     m_meter_type := m_meter_type m;
     m_has_solar := m_has_solar m |}.

(** [(current_date - install_date).days], dates counted in minutes. *)
Definition meter_age_days (current_date : Z) (m : meter) : Z :=
  ((current_date - m_installation_date m) / 1440)%Z.

Definition failure_prob (age_days : Z) : Q :=
  inject_Z age_days / (10 * 365) * 0.01.

(** Whether the loop replaces the meter, given its [random.random()] draw. *)
Definition fails (current_date : Z) (m : meter) (draw : Q) : bool :=
  m_is_active m && Num.ltb draw (failure_prob (meter_age_days current_date m)).

(** The [reason] of the replacement event. *)
Definition reason (age_days : Z) : string :=
  if (8 * 365 <? age_days)%Z then "End of life" else "Fault".

(** Section 2 of [simulate_monthly_events_region]: the loop runs over the
    meters that were active when it started; a meter whose draw is below its
    failure probability is deactivated in place and its replacement is
    appended to the list.  [draws i] holds the draws of the meter at position
    [i]; the result is the records that were in the list, and the appended
    ones. *)
Fixpoint replacement_loop (current_date : Z) (draws : nat -> Q * Z) (i : nat)
    (meters : list meter) : list meter * list meter :=
  match meters with
  | [] => ([], [])
  | m :: rest =>
      let '(rest', appended) := replacement_loop current_date draws (S i) rest in
      if fails current_date m (fst (draws i))
      then (deactivate_replaced current_date m :: rest',
            _replace_meter_region m current_date (snd (draws i)) :: appended)
      else (m :: rest', appended)
  end.

Definition meter_replacements (current_date : Z) (draws : nat -> Q * Z)
    (meters : list meter) : list meter :=
  let '(kept, appended) := replacement_loop current_date draws 0 meters in
  kept ++ appended.

End Region.


(** ** The parallel pipeline (v2.0): bills and payments *)

Module Pipeline.

(** [_simple_billing]; the consumer type is not read. *)
Definition _simple_billing (consumption_kwh : Q) (consumer_type : option string) : Q :=
  if Num.leb consumption_kwh 50 then consumption_kwh * 2.0
  else if Num.leb consumption_kwh 100 then 50 * 2.0 + (consumption_kwh - 50) * 5.0
  else if Num.leb consumption_kwh 200 then
    50 * 2.0 + 50 * 5.0 + (consumption_kwh - 100) * 10.0
  else 50 * 2.0 + 50 * 5.0 + 100 * 10.0 + (consumption_kwh - 200) * 15.0.

(** The amounts and dates of a bill dictionary; dates in minutes, as the
    timestamps of the readings. *)
Record bill : Type := mkBill {
  b_meter_id : string;
  b_billing_month : Z;
  b_issue_date : Z;
  b_due_date : Z;
  b_previous_reading : Q;
  b_current_reading : Q;
  b_consumption_kwh : Q;
  b_bill_amount : Q;
  b_status : string
}.

(** [self.base.calculate_bill_amount], when the base simulator has it: the
    bill amount as a function of the consumption, the tariff category and the
    consumer type. *)
Definition base_billing := option (Q -> string -> string -> Q).

(** [_calculate_month_bill].  [tariff_category] is the key of that name in
    [meter_data], read with a default; [add_month t] stands for
    [t + relativedelta(months=1)]. *)
Definition _calculate_month_bill (add_month : Z -> Z) (billing : base_billing)
    (tariff_category : option string) (md : V20.meter_data)
    (month_readings : list V20.reading) (billing_month : Z) : option bill :=
  match month_readings with
  | [] => None
  | first :: _ =>
      let total_consumption := Num.sum (map V20.consumption_kwh month_readings) in
      let bill_amount :=
        match billing with
        | Some calculate_bill_amount =>
            calculate_bill_amount total_consumption
              (V20.get tariff_category "A-1a"%string)
              (V20.get (V20.consumer_type md) "RESIDENTIAL_GENERAL"%string)
        | None => _simple_billing total_consumption (V20.consumer_type md)
        end in
      Some {| b_meter_id := V20.meter_id md;
              b_billing_month := billing_month;
              b_issue_date := (add_month billing_month + 5 * 1440)%Z;
              b_due_date := (add_month billing_month + 15 * 1440)%Z;
              b_previous_reading := V20.reading_kwh first;
              b_current_reading := V20.reading_kwh (last month_readings first);
              b_consumption_kwh := Num.round total_consumption 2;
              b_bill_amount := Num.round bill_amount 2;
              b_status := "issued" |}
  end.

Record payment : Type := mkPayment {
  p_meter_id : string;
  p_bill_amount : Q;
  p_amount_paid : Q;
  p_payment_date : option Z;
  p_payment_method : option string;
  p_status : string
}.

(** The random inputs of one payment: the draw compared with the payment
    probability, [random.randint(0, 20)], the draw that decides between full
    and partial payment, the unit draw of [random.uniform(0.5, 0.9)] and the
    position picked by [random.choice]. *)
Record payment_draws : Type := mkPaymentDraws {
  paid_draw : Q;
  payment_delay : Z;
  full_draw : Q;
  partial_draw : Q;
  method_pick : nat
}.

Definition payment_methods : list string := ["online"; "bank"; "cash"; "mobile_app"]%string.

Definition payment_prob (consumer_type : string) (bill_amount : Q) : Q :=
  let payment_prob0 :=
    if Num.gtb bill_amount 10000 then 0.75
    else if Num.gtb bill_amount 5000 then 0.85
    else 0.92 in
  if Num.contains "GOVT" consumer_type || Num.contains "PROTECTED" consumer_type
  then 0.98 else payment_prob0.

(** [_generate_payment]. *)
Definition _generate_payment (md : V20.meter_data) (b : option bill) (d : payment_draws)
    : option payment :=
  match b with
  | None => None
  | Some bill =>
      let consumer_type := V20.get (V20.consumer_type md) "RESIDENTIAL_GENERAL"%string in
      let bill_amount := b_bill_amount bill in
      let is_paid := Num.ltb (paid_draw d) (payment_prob consumer_type bill_amount) in
      if is_paid then
        let payment_date := (b_issue_date bill + payment_delay d * 1440)%Z in
        let full := Num.ltb (full_draw d) 0.95 in
        Some {| p_meter_id := b_meter_id bill;
                p_bill_amount := bill_amount;
                p_amount_paid :=
                  if full then bill_amount
                  else Num.round (bill_amount * uniform 0.5 0.9 (partial_draw d)) 2;
                p_payment_date := Some payment_date;
                p_payment_method := nth_error payment_methods (method_pick d);
                p_status := if full then "paid" else "partial" |}
      else
        Some {| p_meter_id := b_meter_id bill;
                p_bill_amount := bill_amount;
                p_amount_paid := 0;
                p_payment_date := None;
                p_payment_method := None;
                p_status := "unpaid" |}
  end.

(** [results] of [process_single_meter_pipeline]: the three lists the month
    loop extends. *)
Record results : Type := mkResults {
  readings : list V20.reading;
  bills : list (option bill);
  payments : list (option payment)
}.

(** The month loop of [process_single_meter_pipeline] with its three steps,
<<
   month_readings = self._generate_month_readings(...)
   results['readings'].extend(month_readings)
   if month_readings:
       month_bill = self._calculate_month_bill(meter_data, month_readings, month_start)
       results['bills'].append(month_bill)
       payment = self._generate_payment(meter_data, month_bill)
       results['payments'].append(payment)
   current_date = month_start + relativedelta(months=1)
>>
    run for at most [fuel] months.  [prng k] holds the payment draws of the
    [k]-th month visited. *)
Fixpoint month_loop (fuel : nat) (add_month : Z -> Z) (base : V20.base_simulator)
    (billing : base_billing) (tariff_category : option string)
    (rng : nat -> V20.draws) (prng : nat -> payment_draws)
    (frequency_minutes end_dt : Z) (md : V20.meter_data) (n k : nat)
    (current_date : Z) : option (V20.meter_data * results) :=
  if (current_date <=? end_dt)%Z then
    match fuel with
    | O => None
    | S fuel' =>
        let month_start := current_date in
        let month_end0 := (add_month month_start - 1440)%Z in
        let month_end := if (end_dt <? month_end0)%Z then end_dt else month_end0 in
        match V20._generate_month_readings base rng md n month_start month_end
                frequency_minutes with
        | None => None
        | Some (md', n', month_readings) =>
            let month_bill :=
              _calculate_month_bill add_month billing tariff_category md' month_readings
                month_start in
            let payment := _generate_payment md' month_bill (prng k) in
            match month_loop fuel' add_month base billing tariff_category rng prng
                    frequency_minutes end_dt md' n' (S k) (add_month month_start) with
            | None => None
            | Some (md'', rest) =>
                Some (md'',
                      {| readings := month_readings ++ readings rest;
                         bills := match month_readings with
                                  | [] => bills rest
                                  | _ :: _ => month_bill :: bills rest
                                  end;
                         payments := match month_readings with
                                     | [] => payments rest
                                     | _ :: _ => payment :: payments rest
                                     end |})
            end
        end
    end
  else Some (md, mkResults [] [] []).

Definition process_single_meter_pipeline (add_month : Z -> Z) (base : V20.base_simulator)
    (billing : base_billing) (tariff_category : option string)
    (rng : nat -> V20.draws) (prng : nat -> payment_draws)
    (md : V20.meter_data) (start end_dt frequency_minutes : Z)
    : option (V20.meter_data * results) :=
  month_loop (Z.to_nat (end_dt - start + 1)) add_month base billing tariff_category
    rng prng frequency_minutes end_dt md 0 0 start.

End Pipeline.


(** ** The life of a distribution transformer (v1.2, v1.3) *)

Module Events.

(** [transformer_specs['distribution_transformer']['types']] as
    (rating_kva, phase) pairs. *)
Definition distribution_phases : list (Q * string) :=
  [ (1500, "3-phase"); (1000, "3-phase"); (750, "3-phase"); (500, "3-phase");
    (250, "1-phase"); (100, "1-phase") ]%string.

(** The distribution transformer built by [generate_initial_transformers]
    from the tier picked by [random.choices] and the unit draw of
    [random.uniform(30, 85)]. *)
Definition initial (id : string) (tier : nat) (r : Q) : option transformer :=
  match nth_error distribution_phases tier with
  | None => None
  | Some (rating, phase) =>
      Some {| transformer_id := id;
              transformer_type := "distribution";
              rating_kva := rating;
              capacity_utilization_pct := uniform 30 85 r;
              upgrade_date := None;
              upgrade_history := [];
              consumers_connected := 0;
              phase_type := phase |}
  end.

(** The transformer side of a new connection (section 1 of the monthly
    step):
<<
   transformer['consumers_connected'] = transformer.get('consumers_connected', 0) + 1
   transformer['capacity_utilization_pct'] = min(95,
       transformer['capacity_utilization_pct'] + random.uniform(0.5, 2))
>> *)
Definition connect (t : transformer) (r : Q) : transformer :=
  {| transformer_id := transformer_id t;
     transformer_type := transformer_type t;
     rating_kva := rating_kva t;
     capacity_utilization_pct :=
       Num.py_min 95 (capacity_utilization_pct t + uniform 0.5 2 r);
     upgrade_date := upgrade_date t;
     upgrade_history := upgrade_history t;
     consumers_connected := (consumers_connected t + 1)%Z;
     phase_type := phase_type t |}.

(** The transformer side of a disconnection (section 5 of the v1.2 monthly
    step):
<<
   t['consumers_connected'] = max(0, t.get('consumers_connected', 1) - 1)
   t['capacity_utilization_pct'] = max(10, t['capacity_utilization_pct'] - random.uniform(1, 3))
>> *)
Definition disconnect (t : transformer) (r : Q) : transformer :=
  {| transformer_id := transformer_id t;
     transformer_type := transformer_type t;
     rating_kva := rating_kva t;
     capacity_utilization_pct :=
       Num.py_max 10 (capacity_utilization_pct t - uniform 1 3 r);
     upgrade_date := upgrade_date t;
     upgrade_history := upgrade_history t;
     consumers_connected := Z.max 0 (consumers_connected t - 1);
     phase_type := phase_type t |}.

(** What a monthly step can do to one transformer.  An upgrade is applied
    only to a distribution transformer whose utilisation is above 85. *)
Inductive event : Type :=
| NewConnection (r : Q)
| TransformerUpgrade (current_date : Z)
| ConsumerChurn (r : Q).

Definition apply (t : transformer) (e : event) : transformer :=
  match e with
  | NewConnection r => connect t r
  | TransformerUpgrade current_date =>
      if V12.overloaded t then fst (upgrade current_date t) else t
  | ConsumerChurn r => disconnect t r
  end.

(** The transformer after a sequence of events. *)
Definition history (t : transformer) (events : list event) : transformer :=
  fold_left apply events t.

End Events.


(** ** Readings frames of v1.1: built in memory, and read back from the file *)

Module Frames.

(** The dtype of the [meter_number] column of a frame.  The meters are
    created with their number as a str (source line 212), so a frame built
    in memory holds Python strings there ([object]); [pd.read_csv] chooses
    the dtype of each column from the text of its fields.  [dt_object] is a
    column of Python strings: the files written by [generate_readings] hold
    fields of one kind only, and pandas makes no column of mixed values of
    them. *)
Inductive dtype : Type :=
| dt_object
| dt_int64
| dt_float64
| dt_bool.

(** The type inference of [pd.read_csv] for one column: from the fields as
    they are written in the file to the dtype of the column.  It is pandas'
    own and an input of the model. *)
Definition inference : Type := list string -> dtype.

(** A readings frame as billing reads it: a frame without any column
    ([pd.DataFrame([])]), or the rows together with the dtype of their
    [meter_number] column.  A row keeps its values as [generate_readings]
    built them; under a numeric dtype the [meter_number] of a row is the text
    the number was read from. *)
Inductive frame : Type :=
| NoColumns
| Columns (meter_number_dtype : dtype) (rows : list reading).

(** [pd.DataFrame(readings)] for the list of dictionaries that
    [generate_readings] builds. *)
Definition DataFrame (readings : list reading) : frame :=
  match readings with
  | [] => NoColumns
  | _ :: _ => Columns dt_object readings
  end.

(** [pd.read_csv(readings_path)] on a file that holds the header line and
    the rows [rows].  The timestamps and the numeric columns come back as
    they were written; the dtype of [meter_number] is the one inferred from
    its fields. *)
Definition read_csv (infer : inference) (rows : list reading) : frame :=
  Columns (infer (map meter_number rows)) rows.

(** The chunks after the first: [chunk_size] rows each while rows remain,
    the last one possibly shorter.  [fuel] bounds their number. *)
Fixpoint next_chunks (fuel chunk_size : nat) (rows : list reading) : list (list reading) :=
  match rows, fuel with
  | [], _ => []
  | _ :: _, O => []
  | _ :: _, S fuel' =>
      firstn chunk_size rows :: next_chunks fuel' chunk_size (skipn chunk_size rows)
  end.

(** [pd.read_csv(readings_path, chunksize=chunk_size)], iterated to its end:
    ValueError for a chunk size below 1; otherwise the rows of the file in
    consecutive chunks, the dtypes of each chunk inferred from its own rows.
    The first chunk is yielded even when the file has no row. *)
Definition read_csv_chunks (infer : inference) (chunk_size : nat) (rows : list reading)
    : outcome (list frame) :=
  match chunk_size with
  | O => Raised ValueError
  | S _ =>
      Returned (map (read_csv infer)
                  (firstn chunk_size rows
                   :: next_chunks (List.length rows) chunk_size (skipn chunk_size rows)))
  end.

Definition bind {A B : Type} (call : outcome A) (rest : A -> outcome B) : outcome B :=
  match call with
  | Returned a => rest a
  | Raised e => Raised e
  end.

Notation "x <- call ;; rest" := (bind call (fun x => rest))
  (at level 61, call at next level, right associativity).

(** [df[df['meter_number'] == meter_number]] for a str [meter_number]:
    KeyError when the frame has no such column; the rows holding that string
    in an [object] column; no row of a numeric column, whose values equal no
    str. *)
Definition select (df : frame) (meter_number : string) : outcome (list reading) :=
  match df with
  | NoColumns => Raised KeyError
  | Columns dt_object rows => Returned (V11.meter_readings rows meter_number)
  | Columns _ _ => Returned []
  end.

(** The bill of one month from the readings of the meter. *)
Definition monthly_bill (meter_readings : list reading) (m : V11.consumer)
    (bp : V11.billing_period) (d : bill_draws) : option V11.bill_row :=
  match V11.total_consumption (V11.month_readings meter_readings bp) with
  | None => None
  | Some consumption =>
      Some {| V11.row_bill :=
                V11.calculate_bill consumption (V11.c_tariff_category m)
                  (V11.c_connected_load_kw m) (V11.month_str bp) (V11.day25 bp) d;
              V11.row_meter_number := V11.c_meter_number m;
              V11.row_consumer_id := V11.c_consumer_id m |}
  end.

(** The loop over the billing months for one meter; [draws j] gives the
    random inputs of the bill of the [j]-th month. *)
Definition months_loop (meter_readings : list reading) (m : V11.consumer)
    (billing_months : list V11.billing_period) (draws : nat -> bill_draws)
    : list V11.bill_row :=
  flat_map (fun jbp =>
    match monthly_bill meter_readings m (snd jbp) (draws (fst jbp)) with
    | Some b => [b]
    | None => []
    end) (V11.indexed billing_months).

(** The loop over the meters of [generate_monthly_bills]. *)
Fixpoint meters_loop (readings_df : frame) (billing_months : list V11.billing_period)
    (draws : nat -> nat -> bill_draws) (meters : list (nat * V11.consumer))
    : outcome (list V11.bill_row) :=
  match meters with
  | [] => Returned []
  | (i, m) :: rest =>
      meter_readings <- select readings_df (V11.c_meter_number m) ;;
      bills <- meters_loop readings_df billing_months draws rest ;;
      Returned (months_loop meter_readings m billing_months (draws i) ++ bills)
  end.

(** [generate_monthly_bills] on a readings frame; [draws i j] gives the
    random inputs of the bill of the [i]-th meter for the [j]-th month. *)
Definition generate_monthly_bills (meters_df : list V11.consumer) (readings_df : frame)
    (billing_months : list V11.billing_period) (draws : nat -> nat -> bill_draws)
    : outcome (list V11.bill_row) :=
  meters_loop readings_df billing_months draws (V11.indexed meters_df).

(** The chunk loop for one meter:
<<
   meter_readings = []
   for chunk in pd.read_csv(readings_path, chunksize=chunk_size):
       meter_chunk = chunk[chunk['meter_number'] == meter_number]
       if len(meter_chunk) > 0:
           meter_readings.append(meter_chunk)
>> *)
Fixpoint chunk_loop (chunks : list frame) (meter_number : string)
    : outcome (list (list reading)) :=
  match chunks with
  | [] => Returned []
  | chunk :: rest =>
      meter_chunk <- select chunk meter_number ;;
      meter_readings <- chunk_loop rest meter_number ;;
      Returned (if (0 <? List.length meter_chunk)%nat then meter_chunk :: meter_readings
                else meter_readings)
  end.

(** The loop over the meters of [generate_monthly_bills_chunked]: the file
    is read again for every meter; a meter without readings is skipped
    ([continue]), the others are billed from [pd.concat(meter_readings)]. *)
Fixpoint chunked_meters_loop (infer : inference) (readings_file : list reading)
    (billing_months : list V11.billing_period) (chunk_size : nat)
    (draws : nat -> nat -> bill_draws) (meters : list (nat * V11.consumer))
    : outcome (list V11.bill_row) :=
  match meters with
  | [] => Returned []
  | (i, m) :: rest =>
      chunks <- read_csv_chunks infer chunk_size readings_file ;;
      meter_readings <- chunk_loop chunks (V11.c_meter_number m) ;;
      bills <- chunked_meters_loop infer readings_file billing_months chunk_size draws rest ;;
      Returned (match meter_readings with
                | [] => []
                | _ :: _ =>
                    months_loop (List.concat meter_readings) m billing_months (draws i)
                end ++ bills)
  end.

(** [generate_monthly_bills_chunked] on a readings file that holds the
    header line and the rows [readings_file]. *)
Definition generate_monthly_bills_chunked (infer : inference)
    (meters_df : list V11.consumer) (readings_file : list reading)
    (billing_months : list V11.billing_period) (chunk_size : nat)
    (draws : nat -> nat -> bill_draws) : outcome (list V11.bill_row) :=
  chunked_meters_loop infer readings_file billing_months chunk_size draws
    (V11.indexed meters_df).

End Frames.


(** ** The events log read by the v1.2 reading loop *)

Module Log.

(** The keys of an entry of the events log that the reading loop reads;
    [failure_duration_days] and [recovery_date] are read with [.get]. *)
Record event : Type := mkEvent {
  event_type : string;
  date : Z;
  meter_number : string;
  failure_duration_days : option Z;
  recovery_date : option Z
}.

(** The [meter_failure] entry appended by section 3 of
    [simulate_monthly_events]; [failure_duration] is the result of
    [random.randint(1, 7)]. *)
Definition meter_failure (current_date : Z) (m : V12.meter) (failure_duration : Z) : event :=
  {| event_type := "meter_failure";
     date := current_date;
     meter_number := V12.m_meter_number m;
     failure_duration_days := Some failure_duration;
     recovery_date := Some (current_date + failure_duration * 1440)%Z |}.

(** The window (failure_start, failure_end) of a failure entry. *)
Definition window (e : event) : Z * Z :=
  let failure_start := date e in
  (failure_start,
   V20.get (recovery_date e)
     (failure_start + V20.get (failure_duration_days e) 1 * 1440)%Z).

(** [failures_by_meter.get(meter_number, [])] after the lookup loop of
    [generate_readings_dynamic]. *)
Definition failures_by_meter (events_log : list event) (meter : string) : list (Z * Z) :=
  map window
    (filter (fun e => String.eqb (event_type e) "meter_failure"
                      && String.eqb (meter_number e) meter) events_log).

(** The rows of one meter, with its failure windows looked up in the log. *)
Definition generate_readings_dynamic (m : V12.meter) (utilization : Q)
    (events_log : list event) (grid : list (timestamp * reading_draws)) : list reading :=
  V12.generate_readings_dynamic m utilization
    (failures_by_meter events_log (V12.m_meter_number m)) grid.

End Log.


(** ** The lifecycle lists of replaced meters *)

Module Lifecycle.

(** An element of a meter's [lifecycle_events] list. *)
Record entry : Type := mkEntry {
  le_date : Z;
  le_event : string;
  le_old_meter : string
}.

(** The list objects of the run.  A meter dictionary holds a reference to its
    [lifecycle_events] list, that is, a position in the store; [None] when
    the dictionary has no such key. *)
Definition store := list (list entry).

Record meter : Type := mkMeter {
  meter_number : string;
  lifecycle_events : option nat
}.

(** The list a meter's [lifecycle_events] key designates. *)
Definition events_of (h : store) (m : meter) : option (list entry) :=
  match lifecycle_events m with
  | None => None
  | Some i => nth_error h i
  end.

(** The lifecycle part of [_replace_meter] (v1.2):
<<
   new_meter = old_meter.copy()
   ...
   if 'lifecycle_events' not in new_meter:
       new_meter['lifecycle_events'] = []
   new_meter['lifecycle_events'].append({...})
>>
    The copy is shallow: the new dictionary holds the reference of the old
    one, and [append] changes the list it designates. *)
Definition _replace_meter (h : store) (old_meter : meter) (replacement_date : Z)
    (number : string) : store * meter :=
  let e := mkEntry replacement_date "meter_replacement" (meter_number old_meter) in
  match lifecycle_events old_meter with
  | Some i =>
      (update_at i (fun l => l ++ [e]) h,
       {| meter_number := number; lifecycle_events := Some i |})
  | None =>
      (h ++ [[] ++ [e]],
       {| meter_number := number; lifecycle_events := Some (List.length h) |})
  end.

(** The lifecycle part of [_replace_meter_region] (v1.3):
<<
   new_meter = old_meter.copy()
   ...
   new_meter['lifecycle_events'] = old_meter.get('lifecycle_events', []) + [{...}]
>>
    The concatenation builds a new list. *)
Definition _replace_meter_region (h : store) (old_meter : meter) (replacement_date : Z)
    (number : string) : store * meter :=
  let e := mkEntry replacement_date "meter_replacement" (meter_number old_meter) in
  let old_events := match events_of h old_meter with
                    | Some l => l
                    | None => []
                    end in
  (h ++ [old_events ++ [e]],
   {| meter_number := number; lifecycle_events := Some (List.length h) |}).

End Lifecycle.


(** ** Monthly bills of v1.2 *)

Module Bills.

(** The sorted keys of [readings_df.groupby('meter_number')]: the distinct
    meter numbers of the readings, in increasing order. *)
Fixpoint insert (k : string) (keys : list string) : list string :=
  match keys with
  | [] => [k]
  | k' :: rest => if String.leb k k' then k :: keys else k' :: insert k rest
  end.

Definition sort (keys : list string) : list string := fold_right insert [] keys.

Definition groupby_keys (readings_df : list reading) : list string :=
  sort (nodup string_dec (map meter_number readings_df)).

(** [meters_df[meters_df['meter_number'] == meter_number].iloc[0]]; [None] is
    the IndexError of [iloc[0]] on an empty selection. *)
Definition meter_info (meters_df : list V12.meter) (number : string) : option V12.meter :=
  find (fun m => String.eqb (V12.m_meter_number m) number) meters_df.

(** The month loop for one group of readings. *)
Definition bills_of_group (info : V12.meter) (number : string)
    (meter_readings : list reading) (billing_months : list V11.billing_period)
    (draws : nat -> bill_draws) : list V11.bill_row :=
  flat_map (fun jbp =>
    match V12.month_consumption (V11.month_readings meter_readings (snd jbp)) with
    | None => []
    | Some consumption =>
        [ {| V11.row_bill :=
               V12._calculate_bill consumption (V12.m_tariff_category info)
                 (V12.m_connected_load_kw info) (V11.month_str (snd jbp))
                 (V11.day25 (snd jbp)) (draws (fst jbp));
             V11.row_meter_number := number;
             V11.row_consumer_id := V12.m_consumer_id info |} ]
    end) (V11.indexed billing_months).

(** The loop over the groups; [draws i j] gives the random inputs of the bill
    of the [i]-th group for the [j]-th month. *)
Fixpoint groups_loop (meters_df : list V12.meter) (readings_df : list reading)
    (billing_months : list V11.billing_period) (draws : nat -> nat -> bill_draws)
    (i : nat) (keys : list string) : option (list V11.bill_row) :=
  match keys with
  | [] => Some []
  | number :: rest =>
      match meter_info meters_df number with
      | None => None
      | Some info =>
          match groups_loop meters_df readings_df billing_months draws (S i) rest with
          | None => None
          | Some bills =>
              Some (bills_of_group info number
                      (V11.meter_readings readings_df number) billing_months (draws i)
                    ++ bills)
          end
      end
  end.

(** [generate_monthly_bills_dynamic] on the frame [pd.DataFrame(readings)]
    that [generate_readings_dynamic] returns.  Built from an empty list of
    rows the frame has no column, and [readings_df.groupby('meter_number')]
    raises KeyError; [None] stands for that exception and for the IndexError
    of [meter_info]. *)
Definition generate_monthly_bills_dynamic (meters_df : list V12.meter)
    (readings_df : list reading) (billing_months : list V11.billing_period)
    (draws : nat -> nat -> bill_draws) : option (list V11.bill_row) :=
  match readings_df with
  | [] => None
  | _ :: _ =>
      groups_loop meters_df readings_df billing_months draws 0 (groupby_keys readings_df)
  end.

End Bills.


(** ** Writing the readings of v1.1 to a file in chunks *)

Module Writer.

(** A line of the readings file: the header line or a data row. *)
Inductive line : Type :=
| Header
| Row (r : reading).

(** [chunk_df.to_csv(output_path, mode='a', header=write_header)] for a
    chunk that is not empty. *)
Definition to_csv (file : list line) (write_header : bool) (readings : list reading)
    : list line :=
  file ++ (if write_header then [Header] else []) ++ map Row readings.

(** The state of the meters loop of [generate_readings]. *)
Record state : Type := mkState {
  readings : list reading;
  file : list line;
  write_header : bool;
  meters_processed : nat
}.

(** The end of one iteration of the meters loop, after the rows of the meter
    were appended to [readings]:
<<
   meters_processed += 1
   if output_path and len(readings) >= chunk_size * len(timestamps):
       chunk_df.to_csv(output_path, mode='a', header=write_header, index=False)
       write_header = False
       readings = []
>> *)
Definition after_meter (output_path : bool) (chunk_size timestamps : nat)
    (w : state) (meter_rows : list reading) : state :=
  let readings' := readings w ++ meter_rows in
  if output_path && (chunk_size * timestamps <=? List.length readings')%nat then
    {| readings := [];
       file := to_csv (file w) (write_header w) readings';
       write_header := false;
       meters_processed := S (meters_processed w) |}
  else
    {| readings := readings';
       file := file w;
       write_header := write_header w;
       meters_processed := S (meters_processed w) |}.

(** [generate_readings] around the per-meter loops: [meters_rows] holds, for
    each meter, the rows its timestamp loop appends; [file0] is the content
    of the file before the call.  The result is the returned frame and the
    content of the file. *)
Definition generate_readings (output_path : bool) (file0 : list line)
    (chunk_size timestamps : nat) (meters_rows : list (list reading))
    : list reading * list line :=
  let w := fold_left (after_meter output_path chunk_size timestamps) meters_rows
             (mkState [] file0 true 0) in
  let w' :=
    if output_path && (0 <? List.length (readings w))%nat then
      {| readings := [];
         file := to_csv (file w) (write_header w) (readings w);
         write_header := false;
         meters_processed := meters_processed w |}
    else w in
  if output_path then ([], file w') else (readings w', file w').

End Writer.


(** ** The shared state of the parallel workers (v2.0) *)

Module Parallel.

(** A line of an output file: the header line or a data row. *)
Inductive line (A : Type) : Type :=
| Header
| Row (a : A).

Arguments Header {A}.
Arguments Row {A} a.

(** One block of [_write_meter_data_to_disk]; [None] is a file that does
    not exist:
<<
   if results['readings']:
       if os.path.exists(readings_file):
           df.to_csv(readings_file, mode='a', header=False, index=False)
       else:
           df.to_csv(readings_file, index=False)
>> *)
Definition append_rows {A : Type} (file : option (list (line A))) (rows : list A)
    : option (list (line A)) :=
  match rows with
  | [] => file
  | _ :: _ =>
      match file with
      | Some content => Some (content ++ map Row rows)
      | None => Some (Header :: map Row rows)
      end
  end.

Record disk : Type := mkDisk {
  readings_file : option (list (line V20.reading));
  bills_file : option (list (line (option Pipeline.bill)));
  payments_file : option (list (line (option Pipeline.payment)))
}.

(** [self.progress_stats]. *)
Record stats : Type := mkStats {
  meters_completed : nat;
  readings_generated : nat;
  bills_generated : nat;
  payments_generated : nat
}.

(** What the workers share: the output directory and the counters. *)
Record shared : Type := mkShared {
  files : disk;
  progress_stats : stats
}.

(** The two critical sections a worker enters once its pipeline has
    completed: the body of [_write_meter_data_to_disk] and the update of the
    counters, each under [self.lock]. *)
Inductive action : Type :=
| Write (results : Pipeline.results)
| Count (results : Pipeline.results).

Definition step (s : shared) (a : action) : shared :=
  match a with
  | Write results =>
      {| files :=
           {| readings_file :=
                append_rows (readings_file (files s)) (Pipeline.readings results);
              bills_file := append_rows (bills_file (files s)) (Pipeline.bills results);
              payments_file :=
                append_rows (payments_file (files s)) (Pipeline.payments results) |};
         progress_stats := progress_stats s |}
  | Count results =>
      {| files := files s;
         progress_stats :=
           {| meters_completed := meters_completed (progress_stats s) + 1;
              readings_generated :=
                readings_generated (progress_stats s)
                + List.length (Pipeline.readings results);
              bills_generated :=
                bills_generated (progress_stats s) + List.length (Pipeline.bills results);
              payments_generated :=
                payments_generated (progress_stats s)
                + List.length (Pipeline.payments results) |} |}
  end.

(** The critical sections of one worker, in program order; a pipeline that
    raised ([None]) enters none. *)
Definition worker (outcome : option Pipeline.results) : list action :=
  match outcome with
  | Some results => [Write results; Count results]
  | None => []
  end.

(** The shared state after the critical sections ran in the order
    [schedule], from an empty output directory and zeroed counters. *)
Definition run (schedule : list action) : shared :=
  fold_left step schedule (mkShared (mkDisk None None None) (mkStats 0 0 0 0)).

End Parallel.


(** ** Disconnections of the v1.2 monthly step *)

Module Churn.

(** The random inputs of one disconnection: the position picked by
    [random.choice(active_meters)] and the one picked among the statuses. *)
Record churn_draws : Type := mkChurnDraws {
  choice : nat;
  status_pick : nat
}.

Definition statuses : list string := ["Disconnected"; "Suspended"; "Closed"]%string.

(** The meter side of one disconnection:
<<
   meter['is_active'] = False
   meter['deactivation_date'] = current_date
   meter['status'] = random.choice(['Disconnected', 'Suspended', 'Closed'])
>> *)
Definition disconnect (current_date : Z) (status : string) (m : V12.meter) : V12.meter :=
  {| V12.m_meter_number := V12.m_meter_number m;
     V12.m_consumer_id := V12.m_consumer_id m;
     V12.m_previous_meter_number := V12.m_previous_meter_number m;
     V12.m_meter_generation := V12.m_meter_generation m;
     V12.m_installation_date := V12.m_installation_date m;
     V12.m_deactivation_date := Some current_date;
     V12.m_is_active := false;
     V12.m_status := status;
     V12.m_tariff_category := V12.m_tariff_category m;
     V12.m_connected_load_kw := V12.m_connected_load_kw m;
     V12.m_distribution_transformer_id := V12.m_distribution_transformer_id m;
     V12.m_meter_type := V12.m_meter_type m;
     V12.m_has_solar := V12.m_has_solar m;
     V12.m_solar_installation_date := V12.m_solar_installation_date m |}.

(** Section 5 of [simulate_monthly_events], meter side.  [active_meters]
    holds the positions of the records that were active when section 2
    started: the list is not recomputed. *)
Definition consumer_churn (current_date : Z) (active_meters : list nat)
    (draws : list churn_draws) (meters_list : list V12.meter) : list V12.meter :=
  fold_left
    (fun ms d =>
       match nth_error active_meters (choice d) with
       | None => ms
       | Some i =>
           update_at i
             (disconnect current_date (nth (status_pick d) statuses "Disconnected"%string))
             ms
       end)
    draws meters_list.

(** Sections 2 and 5 of one monthly step, on one [active_meters] list. *)
Definition replacements_then_churn (current_date : Z)
    (replacement_draws : list V12.replacement_draws) (draws : list churn_draws)
    (meters_list : list V12.meter) : list V12.meter :=
  consumer_churn current_date (positions V12.m_is_active meters_list) draws
    (V12.meter_replacements current_date replacement_draws meters_list).

End Churn.


(** ** The reconciliation rule in the words of the specification *)

Module Spec.

(** "Prefer last register value in month minus first register value in month
    when that difference is non-negative; otherwise fall back to summing only
    the interval-consumption field over readings flagged Normal within the
    month; clamp the final result to >= 0."  This definition follows the
    specification, not the code, and is only used for comparison. *)
Definition reconciled_consumption (rows : list reading) : option Q :=
  match rows with
  | [] => None
  | first :: _ =>
      let difference := reading_kwh (last rows first) - reading_kwh first in
      let figure :=
        if Num.geb difference 0 then difference
        else Num.sum (map energy_consumed_kwh
                        (filter (fun r => flag_eqb (data_quality_flag r) Normal) rows)) in
      Some (Num.py_max 0 figure)
  end.

End Spec.

(** ** Auxiliary notions and sample data used in the statements *)

(** The Normal rows of a month, and the rows with positive interval
    consumption. *)
Definition normal_rows (rows : list reading) : list reading :=
  filter (fun r => flag_eqb (data_quality_flag r) Normal) rows.

Definition positive_rows (rows : list reading) : list reading :=
  filter (fun r => Num.gtb (energy_consumed_kwh r) 0) rows.

Definition energy (rows : list reading) : Q := Num.sum (map energy_consumed_kwh rows).

Definition first_register (rows : list reading) : Q :=
  match rows with
  | [] => 0
  | r :: _ => reading_kwh r
  end.

Definition last_register (rows : list reading) : Q :=
  match rows with
  | [] => 0
  | r :: _ => reading_kwh (last rows r)
  end.

(** A month of three rows for one meter: a normal reading, a spike, and a
    negative reading that takes the register below its first value. *)
Definition row (t : Z) (register energy : Q) (flag : quality_flag) : reading :=
  {| r_timestamp := mkTs t 0 1 0; meter_number := "10000000001";
     reading_kwh := register; energy_consumed_kwh := energy;
     voltage_v := 230; current_a := 1; frequency_hz := 50; power_factor := 0.95;
     temperature_c := 30; signal_strength_dbm := -70; battery_voltage_v := 3.7;
     data_quality_flag := flag |}.

Definition backward_month : list reading :=
  [ row 0 10 1 Normal; row 15 20 10 AbnormalSpike; row 30 5 (-15) NegativeReading ].

(** A value with at most [n] decimals. *)
Definition decimal (n : nat) (x : Q) : Prop :=
  exists k : Z, x == inject_Z k / Num.scale n.

(** The values [random.random()] can return, closed at 1 for simplicity. *)
Definition unit_draw (r : Q) : Prop := 0 <= r <= 1.

(** The unit draws of a reading are in range. *)
Definition valid_draws (d : reading_draws) : Prop :=
  unit_draw (r_base d) /\ unit_draw (r_solar d) /\ unit_draw (r_jitter d)
  /\ unit_draw (r_issue d).

(** The flags under which v1.2 sets the register below the previous one. *)
Definition lowers_register (r : reading) : bool :=
  flag_eqb (data_quality_flag r) NegativeReading
  || flag_eqb (data_quality_flag r) ReverseEnergy.

Definition keeps_register (r : reading) : bool := negb (lowers_register r).

(** No restriction on the rows. *)
Definition any_row (r : reading) : bool := true.

(** [run_above ok lo rows]: the registers stay at or above [lo] along the
    longest prefix of [rows] whose rows all satisfy [ok]. *)
Fixpoint run_above (ok : reading -> bool) (lo : Q) (rows : list reading) : Prop :=
  match rows with
  | [] => True
  | r :: rest => ok r = true -> lo <= reading_kwh r /\ run_above ok lo rest
  end.

(** Every row bounds from below the run of [ok] rows that follows it. *)
Fixpoint monotone_runs (ok : reading -> bool) (rows : list reading) : Prop :=
  match rows with
  | [] => True
  | r :: rest => run_above ok (reading_kwh r) rest /\ monotone_runs ok rest
  end.

(** Register monotonicity between successive Normal rows, ignoring the rows
    in between, as the specification states it. *)
Definition normal_monotone (rows : list reading) : Prop :=
  forall pre a mid b post,
    rows = pre ++ a :: mid ++ b :: post ->
    data_quality_flag a = Normal ->
    data_quality_flag b = Normal ->
    Forall (fun r => data_quality_flag r <> Normal) mid ->
    reading_kwh a <= reading_kwh b.

(** A residential meter and three readings of it: a normal one, one whose
    draw falls in the negative-reading band with a large consumption, and
    another normal one. *)
Definition sample_meter : V12.meter :=
  {| V12.m_meter_number := "10000000001"; V12.m_consumer_id := "CI1000001";
     V12.m_previous_meter_number := None; V12.m_meter_generation := 1;
     V12.m_installation_date := 0; V12.m_deactivation_date := None;
     V12.m_is_active := true; V12.m_status := "Active";
     V12.m_tariff_category := "A-1a"; V12.m_connected_load_kw := 3;
     V12.m_distribution_transformer_id := "DT000001"; V12.m_meter_type := "Smart";
     V12.m_has_solar := false; V12.m_solar_installation_date := None |}.

Definition sample_draws (base rv : Q) : reading_draws :=
  {| r_base := base; r_solar := 0; r_jitter := 0.5; rand_val := rv; r_issue := 0;
     z_voltage := 0; z_frequency := 0; z_power_factor := 0; z_temperature := 0;
     z_signal := 0; z_battery := 0 |}.

Definition sample_grid : list (timestamp * reading_draws) :=
  [ (mkTs 0 0 1 0, sample_draws 0 0.5);
    (mkTs 15 0 1 0, sample_draws 0.75 0.02);
    (mkTs 30 0 1 0, sample_draws 0 0.5) ].

(** The consumption drawn over a grid by the v1.1 generator. *)
Definition drawn_consumption (tariff : string) (grid : list (timestamp * reading_draws)) : Q :=
  Num.sum (map (fun td => match V11.draw_consumption tariff (fst td) (snd td) with
                          | Some c => c
                          | None => 0
                          end) grid).

(** Whether the sample (positions in the list [ov] of overloaded
    transformers) designates the store position [j]. *)
Definition sampled (ov sample : list nat) (j : nat) : bool :=
  existsb (fun k => match nth_error ov k with
                    | Some i => Nat.eqb i j
                    | None => false
                    end) sample.

(** Two distribution transformers, the first one overloaded. *)
Definition sample_transformers : list transformer :=
  [ {| transformer_id := "DT000001"; transformer_type := "distribution";
       rating_kva := 500; capacity_utilization_pct := 90; upgrade_date := None;
       upgrade_history := []; consumers_connected := 120; phase_type := "3-phase" |};
    {| transformer_id := "DT000002"; transformer_type := "distribution";
       rating_kva := 250; capacity_utilization_pct := 50; upgrade_date := None;
       upgrade_history := []; consumers_connected := 40; phase_type := "1-phase" |} ].




(** A population of two active meters with distinct numbers, and the draws
    of a replacement of the first one for which [random.randint] returns the
    number of the second. *)
Definition meter_numbered (number : string) : V12.meter :=
  {| V12.m_meter_number := number; V12.m_consumer_id := "CI1000001";
     V12.m_previous_meter_number := None; V12.m_meter_generation := 1;
     V12.m_installation_date := 0; V12.m_deactivation_date := None;
     V12.m_is_active := true; V12.m_status := "Active";
     V12.m_tariff_category := "A-1a"; V12.m_connected_load_kw := 3;
     V12.m_distribution_transformer_id := "DT000001"; V12.m_meter_type := "Smart";
     V12.m_has_solar := false; V12.m_solar_installation_date := None |}.

Definition sample_population : list V12.meter :=
  [ meter_numbered "10000000001"; meter_numbered "10000000002" ].

Definition colliding_replacement : V12.replacement_draws :=
  {| V12.choice := 0; V12.number_draw := 10000000002; V12.smart_draw := 0.5 |}.

(** The sampling grid of a window: [month_start], [month_start + f], ...,
    up to [month_end]. *)
Definition grid_points (frequency_minutes month_start month_end : Z) : list Z :=
  map (fun k => (month_start + Z.of_nat k * frequency_minutes)%Z)
      (seq 0 (V20.grid_size frequency_minutes month_start month_end)).

(** The register of the parallel pipeline: [meter_data.get('last_reading', 0)]. *)
Definition register (md : V20.meter_data) : Q := V20.get (V20.last_reading md) 0.

(** The consumption model returns no negative power: the base simulator
    when there is one, and otherwise a sanctioned load that is not negative
    together with unit draws in range. *)
Definition consumption_nonneg (base : V20.base_simulator) (rng : nat -> V20.draws)
    (md : V20.meter_data) : Prop :=
  match base with
  | Some generate_consumption_patterns =>
      forall consumer_type t r, 0 <= generate_consumption_patterns consumer_type t r
  | None =>
      0 <= V20.get (V20.sanctioned_load_kw md) 5
      /\ forall n, unit_draw (V20.r_consumption (rng n))
  end.

Definition register_order (a b : V20.reading) : Prop :=
  V20.reading_kwh a <= V20.reading_kwh b.

(** What a run of readings guarantees: one row per grid point, all normal,
    registers in order and between the register before and after the run. *)
Definition run_spec (md md' : V20.meter_data) (rows : list V20.reading) (points : list Z) : Prop :=
  map V20.timestamp rows = points
  /\ Forall (fun r => V20.status r = "normal"%string) rows
  /\ register md <= register md'
  /\ V20.sanctioned_load_kw md' = V20.sanctioned_load_kw md
  /\ Forall (fun r => Num.round (register md) 2 <= V20.reading_kwh r
                      /\ V20.reading_kwh r <= Num.round (register md') 2) rows
  /\ StronglySorted register_order rows.

(** A meter of the fallback population and constant draws. *)
Definition sample_meter_data : V20.meter_data :=
  {| V20.meter_id := "MTR-000000"; V20.consumer_type := Some "RESIDENTIAL_GENERAL"%string;
     V20.sanctioned_load_kw := Some 4; V20.last_reading := None |}.

Definition sample_rng (n : nat) : V20.draws :=
  {| V20.r_consumption := 0.5; V20.z_voltage := 0; V20.z_power_factor := 0;
     V20.z_frequency := 0 |}.

(** [t + relativedelta(months=1)] for the datetimes of April and May 2024,
    counted in minutes from 2024-04-01 00:00: a datetime of April (30 days)
    moves to the same day and time of May, and the first of May (a month of
    31 days) moves to the first of June. *)
Definition spring_2024 (t : Z) : Z :=
  if (t <? 43200)%Z then (t + 43200)%Z else (t + 44640)%Z.

(** A slab table whose rates lie in [lo, hi] and whose limits are positive. *)
Definition rates_between (lo hi : Q) (slabs : slab_table) : Prop :=
  Forall (fun slab => lo <= snd slab <= hi
                      /\ match fst slab with
                         | Units u => 0 < u
                         | Unbounded => True
                         end) slabs.

(** A slab table that reaches a slab without limit. *)
Fixpoint reaches_unbounded (slabs : slab_table) : Prop :=
  match slabs with
  | [] => False
  | (Unbounded, _) :: _ => True
  | (Units _, _) :: rest => reaches_unbounded rest
  end.

(** Whether the record at position [j] of the meters list is picked by one of
    the draws of the replacement loop; [active] holds the positions of
    [active_meters]. *)
Definition replaced (active : list nat) (draws : list V12.replacement_draws) (j : nat) : bool :=
  existsb (fun d => match nth_error active (V12.choice d) with
                    | Some i => Nat.eqb i j
                    | None => false
                    end) draws.

(** The draws of the replacement loop whose choice designates an element of
    [active_meters]. *)
Definition effective (active : list nat) (draws : list V12.replacement_draws)
    : list V12.replacement_draws :=
  filter (fun d => (V12.choice d <? List.length active)%nat) draws.


(** The band of the defect draw that selects the battery fault. *)
Definition battery_band (rv : Q) : Prop := 0.09 <= rv /\ rv < 0.095.

(** A timestamp of the grid at which the regional loop does not skip the
    meter. *)
Definition visited (m : Region.meter) (failures : list (Z * Z))
    (td : timestamp * reading_draws) : Prop :=
  Region.skipped m failures (fst td) = false.




(** The unit draw of an event is in range. *)
Definition event_in_range (e : Events.event) : Prop :=
  match e with
  | Events.NewConnection r => unit_draw r
  | Events.TransformerUpgrade _ => True
  | Events.ConsumerChurn r => unit_draw r
  end.


(** The results written by a schedule, in the order of the writes, and the
    results of the pipelines that completed. *)
Definition written (schedule : list Parallel.action) : list Pipeline.results :=
  flat_map (fun a => match a with
                     | Parallel.Write results => [results]
                     | Parallel.Count _ => []
                     end) schedule.

Definition completed (outcomes : list (option Pipeline.results)) : list Pipeline.results :=
  flat_map (fun o => match o with
                     | Some results => [results]
                     | None => []
                     end) outcomes.

(** The content of an output file made of the given rows. *)
Definition file_of {A : Type} (rows : list A) : option (list (Parallel.line A)) :=
  match rows with
  | [] => None
  | _ :: _ => Some (Parallel.Header :: map Parallel.Row rows)
  end.

Definition total {A : Type} (f : Pipeline.results -> list A) (rs : list Pipeline.results) : nat :=
  list_sum (map (fun r => List.length (f r)) rs).


(** Whether the record at position [j] is picked by one of the draws of the
    disconnection loop. *)
Definition churned (active : list nat) (draws : list Churn.churn_draws) (j : nat) : bool :=
  existsb (fun d => match nth_error active (Churn.choice d) with
                    | Some i => Nat.eqb i j
                    | None => false
                    end) draws.


(** A decimal numeral that fits 64 bits: between 1 and 18 digits and nothing
    else.  The meter numbers of v1.1 are written as 11 digits. *)
Definition is_digit (c : Ascii.ascii) : bool :=
  (48 <=? Ascii.nat_of_ascii c)%nat && (Ascii.nat_of_ascii c <=? 57)%nat.

Definition numeral (s : string) : bool :=
  (1 <=? String.length s)%nat && (String.length s <=? 18)%nat
  && forallb is_digit (list_ascii_of_string s).

(** What the statements assume of pandas' inference: a column that is not
    empty and holds only such numerals is read as int64. *)
Definition reads_numerals_as_int64 (infer : Frames.inference) : Prop :=
  forall column,
    column <> [] -> forallb numeral column = true -> infer column = Frames.dt_int64.

(** An inference with that property, which leaves every other column as
    text. *)
Definition sample_inference : Frames.inference :=
  fun column =>
    match column with
    | [] => Frames.dt_object
    | _ :: _ => if forallb numeral column then Frames.dt_int64 else Frames.dt_object
    end.

(** Three readings of the meter 10000000001 in one month, and the meters
    table that holds that meter. *)
Definition sample_file : list reading :=
  [ row 0 10 10 Normal; row 15 20 10 Normal; row 30 30 10 Normal ].

Definition sample_consumers : list V11.consumer :=
  [ V11.mkConsumer "10000000001" "1000001" "A-1a" 3 ].

(** * Properties *)

(** ** Comparisons and rounding *)

Lemma ltb_lt (a b : Q) : Num.ltb a b = true <-> a < b.
Proof.
  unfold Num.ltb. rewrite negb_true_iff, <- not_true_iff_false, Qle_bool_iff.
  split; [apply Qnot_le_lt | apply Qlt_not_le].
Qed.

Lemma ltb_ge (a b : Q) : Num.ltb a b = false <-> b <= a.
Proof.
  unfold Num.ltb. rewrite negb_false_iff. apply Qle_bool_iff.
Qed.

Lemma leb_le (a b : Q) : Num.leb a b = true <-> a <= b.
Proof. apply Qle_bool_iff. Qed.

Lemma leb_gt (a b : Q) : Num.leb a b = false <-> b < a.
Proof.
  unfold Num.leb. rewrite <- not_true_iff_false, Qle_bool_iff.
  split; [apply Qnot_le_lt | apply Qlt_not_le].
Qed.

Lemma gtb_gt (a b : Q) : Num.gtb a b = true <-> b < a.
Proof. apply ltb_lt. Qed.

Lemma gtb_le (a b : Q) : Num.gtb a b = false <-> a <= b.
Proof. apply ltb_ge. Qed.

Lemma geb_ge (a b : Q) : Num.geb a b = true <-> b <= a.
Proof. apply leb_le. Qed.

Lemma py_max_0_nonneg (x : Q) : 0 <= Num.py_max 0 x.
Proof.
  unfold Num.py_max. destruct (Num.gtb x 0) eqn:E.
  - apply gtb_gt in E. lra.
  - lra.
Qed.

Lemma py_max_0_case (x : Q) :
  (0 < x /\ Num.py_max 0 x = x) \/ (x <= 0 /\ Num.py_max 0 x = 0).
Proof.
  unfold Num.py_max. destruct (Num.gtb x 0) eqn:E.
  - left. apply gtb_gt in E. auto.
  - right. apply gtb_le in E. auto.
Qed.

Lemma round_half_even_bounds (q : Q) :
  - (1 # 2) <= inject_Z (Num.round_half_even q) - q <= 1 # 2.
Proof.
  unfold Num.round_half_even.
  pose proof (Qfloor_le q) as Hlo.
  pose proof (Qlt_floor q) as Hhi.
  rewrite inject_Z_plus in Hhi. change (inject_Z 1) with 1 in Hhi.
  destruct (Qcompare_spec (q - inject_Z (Qfloor q)) (1 # 2)) as [E | E | E].
  - destruct (Z.even (Qfloor q)).
    + lra.
    + rewrite inject_Z_plus. change (inject_Z 1) with 1. lra.
  - lra.
  - rewrite inject_Z_plus. change (inject_Z 1) with 1. lra.
Qed.

Lemma round_half_even_inject (z : Z) : Num.round_half_even (inject_Z z) = z.
Proof.
  unfold Num.round_half_even. rewrite Qfloor_Z.
  destruct (Qcompare_spec (inject_Z z - inject_Z z) (1 # 2)) as [E | E | E];
    try reflexivity; lra.
Qed.

Lemma round_half_even_comp (p q : Q) :
  p == q -> Num.round_half_even p = Num.round_half_even q.
Proof.
  intros E. unfold Num.round_half_even.
  rewrite (Qfloor_comp _ _ E).
  assert (Qcompare (p - inject_Z (Qfloor q)) (1 # 2)
          = Qcompare (q - inject_Z (Qfloor q)) (1 # 2)) as ->; [ | reflexivity].
  apply Qcompare_comp; [rewrite E | ]; reflexivity.
Qed.

Lemma round_half_even_mono (p q : Q) :
  p <= q -> (Num.round_half_even p <= Num.round_half_even q)%Z.
Proof.
  intros Hpq.
  destruct (Z_le_gt_dec (Num.round_half_even p) (Num.round_half_even q)) as [ | Hgt];
    [assumption | exfalso].
  pose proof (round_half_even_bounds p) as Hp.
  pose proof (round_half_even_bounds q) as Hq.
  assert (Hz : (Num.round_half_even q + 1 <= Num.round_half_even p)%Z) by lia.
  rewrite Zle_Qle, inject_Z_plus in Hz. change (inject_Z 1) with 1 in Hz.
  (* both are ties around the same half-integer: p == q *)
  assert (Epq : p == q) by lra.
  rewrite (round_half_even_comp _ _ Epq) in Hgt. lia.
Qed.

Lemma scale_pos (n : nat) : 0 < Num.scale n.
Proof.
  unfold Num.scale. change 0 with (inject_Z 0). rewrite <- Zlt_Qlt.
  apply Z.pow_pos_nonneg; lia.
Qed.

Lemma round_mono (x y : Q) (n : nat) : x <= y -> Num.round x n <= Num.round y n.
Proof.
  intros Hxy. unfold Num.round, Qdiv.
  pose proof (scale_pos n) as Hs.
  apply Qmult_le_compat_r.
  - rewrite <- Zle_Qle. apply round_half_even_mono.
    apply Qmult_le_compat_r; lra.
  - apply Qlt_le_weak, Qinv_lt_0_compat, Hs.
Qed.

Lemma round_decimal (x : Q) (n : nat) : decimal n (Num.round x n).
Proof. eexists. unfold Num.round. reflexivity. Qed.

Lemma round_comp (x y : Q) (n : nat) : x == y -> Num.round x n == Num.round y n.
Proof.
  intros E. unfold Num.round.
  rewrite (round_half_even_comp (x * Num.scale n) (y * Num.scale n)).
  - reflexivity.
  - rewrite E. reflexivity.
Qed.

Lemma round_of_decimal (x : Q) (n : nat) : decimal n x -> Num.round x n == x.
Proof.
  intros [k Hk]. pose proof (scale_pos n) as Hs.
  rewrite (round_comp _ _ n Hk). unfold Num.round.
  rewrite (round_half_even_comp _ (inject_Z k)).
  - rewrite round_half_even_inject. symmetry. exact Hk.
  - field. lra.
Qed.

Lemma decimal_plus (n : nat) (x y : Q) : decimal n x -> decimal n y -> decimal n (x + y).
Proof.
  intros [a Ha] [b Hb]. exists (a + b)%Z. pose proof (scale_pos n).
  rewrite Ha, Hb, inject_Z_plus. field. lra.
Qed.

Lemma decimal_minus (n : nat) (x y : Q) : decimal n x -> decimal n y -> decimal n (x - y).
Proof.
  intros [a Ha] [b Hb]. exists (a - b)%Z. pose proof (scale_pos n).
  rewrite Ha, Hb. unfold Z.sub. rewrite inject_Z_plus, inject_Z_opp. field. lra.
Qed.

Lemma decimal_comp (n : nat) (x y : Q) : x == y -> decimal n x -> decimal n y.
Proof. intros E [k Hk]. exists k. rewrite <- E. exact Hk. Qed.

(** The rounding error of [round(x, 2)] and [round(x, 3)]. *)
Lemma round2_error (x : Q) : - (1 # 200) <= Num.round x 2 - x <= 1 # 200.
Proof.
  pose proof (round_half_even_bounds (x * Num.scale 2)) as H.
  unfold Num.round. set (k := inject_Z (Num.round_half_even (x * Num.scale 2))) in *.
  change (Num.scale 2) with (100 # 1) in *.
  assert (E : k / (100 # 1) == k * (1 # 100)) by (field).
  rewrite E. lra.
Qed.

Lemma round3_error (x : Q) : - (1 # 2000) <= Num.round x 3 - x <= 1 # 2000.
Proof.
  pose proof (round_half_even_bounds (x * Num.scale 3)) as H.
  unfold Num.round. set (k := inject_Z (Num.round_half_even (x * Num.scale 3))) in *.
  change (Num.scale 3) with (1000 # 1) in *.
  assert (E : k / (1000 # 1) == k * (1 # 1000)) by (field).
  rewrite E. lra.
Qed.

(** ** Billing engine *)

(** C2 (scenario A).  For tariff "A-1", connected load 3 kW and 250 units the
    slab loop of both [calculate_bill] (v1.1) and [_calculate_bill] (v1.2)
    bills 100 units at 5.79 and the remaining 150 units at 8.11, because the
    second slab accepts up to 200 units of what remains: the variable charge
    is 1795.50, not the 1900.00 of the 100/100/50 split that the slab
    comments ("101-200 units", "201-300 units") describe.  The fixed charge
    is 50, and GST and duty are the 18% and 1.5% of the amounts computed. *)
Theorem scenario_A_variable_charge (month : string) (issue : Z) (d : bill_draws) :
  let b1 := V11.calculate_bill 250 "A-1" 3 month issue d in
  let b2 := V12._calculate_bill 250 "A-1" 3 month issue d in
  V11.variable_of 250 "A-1" 3 == 100 * 5.79 + 150 * 8.11
  /\ variable_charges b1 == 1795.5
  /\ ~ variable_charges b1 == 1900
  /\ fixed_charges b1 == 50
  /\ gst b1 == Num.round ((1795.5 + 50) * 0.18) 2
  /\ electricity_duty b1 == Num.round (1795.5 * 0.015) 2
  /\ variable_charges b2 == 1795.5
  /\ fixed_charges b2 == 50.
Proof.
  cbv zeta. repeat split; try (vm_compute; reflexivity).
  intros H. vm_compute in H. discriminate H.
Qed.

(** The stored total is the rounding of the unrounded sum. *)
Lemma total_amount_unfold (c : Q) (tariff : string) (load : Q) (month : string)
    (issue : Z) (d : bill_draws) :
  let v := V11.variable_of c tariff load in
  let f := V11.fixed_of tariff load in
  total_amount (V11.calculate_bill c tariff load month issue d)
  = Num.round (v + f + V11.gst_of v f + V11.duty_of v + V11.tv_fee_of d
               + V11.late_of d v f) 2.
Proof. reflexivity. Qed.

Lemma tv_fee_decimal (d : bill_draws) : decimal 2 (V11.tv_fee_of d).
Proof.
  unfold V11.tv_fee_of. destruct (Num.gtb (tv_draw d) 0.7).
  - exists 3500%Z. reflexivity.
  - exists 0%Z. reflexivity.
Qed.

(** C7, as the code has it.  [total_amount] is [round(total, 2)] of the sum
    of the unrounded components; the stored component fields are rounded one
    by one, so their sum, rounded, can differ from [total_amount], by at most
    0.03. *)
Theorem total_amount_vs_stored_components (c : Q) (tariff : string) (load : Q)
    (month : string) (issue : Z) (d : bill_draws) :
  let b := V11.calculate_bill c tariff load month issue d in
  let v := V11.variable_of c tariff load in
  let f := V11.fixed_of tariff load in
  total_amount b
    == Num.round (v + f + V11.gst_of v f + V11.duty_of v + V11.tv_fee_of d
                  + V11.late_of d v f) 2
  /\ Qabs (total_amount b
           - Num.round (variable_charges b + fixed_charges b + gst b
                        + electricity_duty b + tv_fee b
                        + late_payment_surcharge b) 2) <= 3 # 100.
Proof.
  cbv zeta. split; [reflexivity | ].
  rewrite total_amount_unfold. unfold V11.calculate_bill.
  cbn [variable_charges fixed_charges gst electricity_duty tv_fee
       late_payment_surcharge].
  set (v := V11.variable_of c tariff load).
  set (f := V11.fixed_of tariff load).
  set (g := V11.gst_of v f). set (du := V11.duty_of v).
  set (tv := V11.tv_fee_of d). set (l := V11.late_of d v f).
  assert (Hsum : Num.round (Num.round v 2 + Num.round f 2 + Num.round g 2
                            + Num.round du 2 + Num.round tv 2 + Num.round l 2) 2
                 == Num.round v 2 + Num.round f 2 + Num.round g 2
                    + Num.round du 2 + Num.round tv 2 + Num.round l 2).
  { apply round_of_decimal. repeat apply decimal_plus; apply round_decimal. }
  pose proof (round2_error v). pose proof (round2_error f).
  pose proof (round2_error g). pose proof (round2_error du).
  pose proof (round2_error l).
  pose proof (round2_error (v + f + g + du + tv + l)).
  pose proof (round_of_decimal tv 2 (tv_fee_decimal d)) as Htv. fold tv in Htv.
  apply Qabs_Qle_condition. split; lra.
Qed.

(** C7, as stated, fails: a "B-1" meter of 5 kW billed for 0.03 units, no TV
    fee and no surcharge, has total 1180.50 while its stored components sum
    to 1180.51. *)
Lemma total_amount_counterexample :
  let b := V11.calculate_bill 0.03 "B-1" 5 "JAN 24" 0 (mkBillDraws 0 0) in
  total_amount b == 1180.50
  /\ variable_charges b + fixed_charges b + gst b + electricity_duty b + tv_fee b
     + late_payment_surcharge b == 1180.51
  /\ ~ Qabs (total_amount b
             - Num.round (variable_charges b + fixed_charges b + gst b
                          + electricity_duty b + tv_fee b
                          + late_payment_surcharge b) 2) <= 1 # 1000000.
Proof.
  cbv zeta. repeat split; try (vm_compute; reflexivity).
  intros H. vm_compute in H. apply H. reflexivity.
Qed.

(** ** Consumption reconciliation *)

(** C1, as stated, fails on both generators: on [backward_month] the register
    difference is negative and the Normal rows sum to 1, but v1.1 bills 11
    (every row with positive interval consumption, whatever its flag) and
    v1.2 bills 0 (fewer than two Normal rows: all rows are summed, then
    clamped). *)
Lemma reconciliation_counterexample :
  (exists c, Spec.reconciled_consumption backward_month = Some c /\ c == 1)
  /\ (exists c, V11.total_consumption backward_month = Some c /\ c == 11)
  /\ (exists c, V12.month_consumption backward_month = Some c /\ c == 0)
  /\ V11.total_consumption backward_month <> Spec.reconciled_consumption backward_month
  /\ V12.month_consumption backward_month <> Spec.reconciled_consumption backward_month.
Proof.
  repeat split.
  - eexists. split; [reflexivity | vm_compute; reflexivity].
  - eexists. split; [reflexivity | vm_compute; reflexivity].
  - eexists. split; [reflexivity | vm_compute; reflexivity].
  - vm_compute. discriminate.
  - vm_compute. discriminate.
Qed.

Lemma v11_total_consumption_cases (rows : list reading) :
  rows <> [] ->
  exists c, V11.total_consumption rows = Some c /\ 0 <= c
    /\ (first_register rows <= last_register rows -> 0 <= last_register rows ->
        c == last_register rows - first_register rows)
    /\ (last_register rows < first_register rows \/ last_register rows < 0 ->
        c == Num.py_max 0 (energy (positive_rows rows))).
Proof.
  destruct rows as [ | r0 rest]; [congruence | intros _].
  unfold V11.total_consumption, first_register, last_register.
  set (lst := reading_kwh (last (r0 :: rest) r0)).
  set (fst_ := reading_kwh r0).
  eexists. split; [reflexivity | ]. split; [apply py_max_0_nonneg | ].
  split.
  - intros Hle Hpos.
    assert (E1 : Num.ltb lst fst_ = false) by (apply ltb_ge; exact Hle).
    assert (E2 : Num.ltb lst 0 = false) by (apply ltb_ge; exact Hpos).
    rewrite E1, E2. cbn [orb].
    destruct (py_max_0_case (lst - fst_)) as [[_ ->] | [Hn ->]]; [reflexivity | lra].
  - intros Hback.
    assert (E : Num.ltb lst fst_ || Num.ltb lst 0 = true).
    { apply orb_true_iff. destruct Hback as [H | H]; [left | right]; apply ltb_lt, H. }
    rewrite E. reflexivity.
Qed.

Lemma v12_normal_rows (rows : list reading) :
  filter (fun r => flag_eqb (data_quality_flag r) Normal) rows = normal_rows rows.
Proof. reflexivity. Qed.

Lemma v12_month_consumption_cases (rows : list reading) :
  rows <> [] ->
  exists c, V12.month_consumption rows = Some c /\ 0 <= c
    /\ ((2 <= List.length (normal_rows rows))%nat ->
        first_register (normal_rows rows) <= last_register (normal_rows rows) ->
        c == last_register (normal_rows rows) - first_register (normal_rows rows))
    /\ ((2 <= List.length (normal_rows rows))%nat ->
        last_register (normal_rows rows) < first_register (normal_rows rows) ->
        c == Num.py_max 0 (energy (normal_rows rows)))
    /\ ((List.length (normal_rows rows) < 2)%nat ->
        c == Num.py_max 0 (energy rows)).
Proof.
  destruct rows as [ | r0 rest]; [congruence | intros _].
  unfold V12.month_consumption. rewrite v12_normal_rows.
  set (rows := r0 :: rest).
  eexists. split; [reflexivity | ]. split; [apply py_max_0_nonneg | ].
  destruct (normal_rows rows) as [ | n0 [ | n1 ns]] eqn:En.
  - split; [ | split]; cbn [List.length]; intros; try lia; reflexivity.
  - split; [ | split]; cbn [List.length]; intros; try lia; reflexivity.
  - unfold first_register, last_register.
    set (lst := reading_kwh (last (n0 :: n1 :: ns) n0)).
    split; [ | split]; cbn [List.length]; [ | | intros; lia].
    + intros _ Hle.
      assert (E : Num.geb lst (reading_kwh n0) = true) by (apply geb_ge; exact Hle).
      rewrite E.
      destruct (py_max_0_case (lst - reading_kwh n0)) as [[_ ->] | [Hn ->]];
        [reflexivity | lra].
    + intros _ Hlt.
      assert (E : Num.geb lst (reading_kwh n0) = false) by (apply leb_gt; exact Hlt).
      rewrite E. reflexivity.
Qed.

(** C1, as the code has it.  For a month with at least one reading the billed
    consumption is never negative, and
    - in v1.1 it is the month's last register minus its first when the last
      is neither below the first nor below zero, and otherwise the sum of
      the interval consumption of the rows whose interval consumption is
      positive (whatever their flag), clamped at 0;
    - in v1.2 the difference is taken between the first and the last
      Normal row when the month has at least two of them, falling back on the
      sum over the Normal rows when that difference is negative, and on the
      sum over all the rows of the month when fewer than two are Normal. *)
Theorem consumption_reconciliation (rows : list reading) :
  rows <> [] ->
  (exists c, V11.total_consumption rows = Some c /\ 0 <= c
     /\ (first_register rows <= last_register rows -> 0 <= last_register rows ->
         c == last_register rows - first_register rows)
     /\ (last_register rows < first_register rows \/ last_register rows < 0 ->
         c == Num.py_max 0 (energy (positive_rows rows))))
  /\ (exists c, V12.month_consumption rows = Some c /\ 0 <= c
     /\ ((2 <= List.length (normal_rows rows))%nat ->
         first_register (normal_rows rows) <= last_register (normal_rows rows) ->
         c == last_register (normal_rows rows) - first_register (normal_rows rows))
     /\ ((2 <= List.length (normal_rows rows))%nat ->
         last_register (normal_rows rows) < first_register (normal_rows rows) ->
         c == Num.py_max 0 (energy (normal_rows rows)))
     /\ ((List.length (normal_rows rows) < 2)%nat ->
         c == Num.py_max 0 (energy rows))).
Proof.
  intros Hne. split.
  - apply v11_total_consumption_cases, Hne.
  - apply v12_month_consumption_cases, Hne.
Qed.

Lemma consumption_reconciliation_witness :
  backward_month <> []
  /\ (exists c, V11.total_consumption backward_month = Some c /\ 0 <= c)
  /\ (exists c, V12.month_consumption backward_month = Some c /\ 0 <= c).
Proof.
  assert (Hne : backward_month <> []) by discriminate.
  split; [exact Hne | ].
  destruct (consumption_reconciliation backward_month Hne)
    as [[c1 (E1 & P1 & _)] [c2 (E2 & P2 & _)]].
  split; eexists; split; eassumption.
Defined.

(** ** Register monotonicity *)

Lemma run_above_weaken (ok : reading -> bool) (lo lo' : Q) (rows : list reading) :
  lo' <= lo -> run_above ok lo rows -> run_above ok lo' rows.
Proof.
  intros Hlo. induction rows as [ | r rest IH]; cbn; [trivial | ].
  intros H Hok. destruct (H Hok) as [H1 H2]. split; [lra | auto].
Qed.

Lemma run_above_reaches (ok : reading -> bool) (lo : Q) (mid : list reading)
    (b : reading) (post : list reading) :
  run_above ok lo (mid ++ b :: post) ->
  Forall (fun r => ok r = true) mid -> ok b = true ->
  lo <= reading_kwh b.
Proof.
  induction mid as [ | m mid IH]; cbn; intros H Hmid Hb.
  - apply H, Hb.
  - inversion Hmid as [ | ? ? Hm Hrest]; subst.
    destruct (H Hm) as [_ H']. apply IH; assumption.
Qed.

Lemma monotone_runs_pairs (ok : reading -> bool) (rows pre : list reading)
    (a : reading) (mid : list reading) (b : reading) (post : list reading) :
  monotone_runs ok rows ->
  rows = pre ++ a :: mid ++ b :: post ->
  Forall (fun r => ok r = true) mid -> ok b = true ->
  reading_kwh a <= reading_kwh b.
Proof.
  revert rows. induction pre as [ | p pre IH]; intros rows Hmono -> Hmid Hb.
  - cbn in Hmono. destruct Hmono as [Hrun _].
    eapply run_above_reaches; eassumption.
  - cbn in Hmono. destruct Hmono as [_ Hrest].
    eapply IH; [exact Hrest | reflexivity | assumption | assumption].
Qed.

Lemma uniform_range (a b r : Q) : a <= b -> unit_draw r -> a <= uniform a b r <= b.
Proof.
  intros Hab [H0 H1]. unfold uniform.
  assert (0 <= (b - a) * r) by (apply Qmult_le_0_compat; lra).
  assert (0 <= (b - a) * (1 - r)) by (apply Qmult_le_0_compat; lra).
  split; lra.
Qed.

Lemma multiplier_positive (m : Z) (mm : Q) : V11.multiplier_of m = Some mm -> 0 < mm.
Proof.
  unfold V11.multiplier_of.
  destruct (find _ V11.monthly_multiplier) as [e | ] eqn:F; cbn; [ | discriminate].
  intros [= <-]. apply find_some in F. destruct F as [Hin _].
  assert (Hall : Forall (fun e => 0 < snd e) V11.monthly_multiplier)
    by (repeat constructor).
  rewrite Forall_forall in Hall. apply Hall, Hin.
Qed.

Lemma v11_bands_ordered (tariff : string) :
  let '(base_min, base_max, peak_min, peak_max) := V11.bands tariff in
  0 <= base_min <= base_max /\ 0 <= peak_min <= peak_max.
Proof.
  unfold V11.bands.
  destruct (Num.contains "A-1" tariff); [ | destruct (Num.contains "A-2" tariff)];
    repeat split; discriminate.
Qed.

Lemma v11_consumption_nonneg (tariff : string) (ts : timestamp) (d : reading_draws) (c : Q) :
  valid_draws d -> V11.draw_consumption tariff ts d = Some c -> 0 <= c.
Proof.
  intros (Hb & _ & Hj & _). unfold V11.draw_consumption.
  pose proof (v11_bands_ordered tariff) as Hbands.
  destruct (V11.bands tariff) as [[[base_min base_max] peak_min] peak_max].
  destruct Hbands as [[Hb0 Hb1] [Hp0 Hp1]].
  destruct (V11.multiplier_of (month ts)) as [mm | ] eqn:Hm; [ | discriminate].
  intros [= <-]. apply multiplier_positive in Hm.
  pose proof (uniform_range _ _ _ Hb1 Hb) as Hu1.
  pose proof (uniform_range _ _ _ Hp1 Hb) as Hu2.
  assert (Hj' : 0.9 <= uniform 0.9 1.1 (r_jitter d) <= 1.1)
    by (apply uniform_range; [discriminate | exact Hj]).
  repeat apply Qmult_le_0_compat; try lra.
  - destruct (between 6 (hour ts) 10 || between 18 (hour ts) 23); lra.
  - destruct (5 <=? dayofweek ts)%Z; discriminate.
Qed.

Lemma v11_step (meter tariff : string) (st st' : registers) (ts : timestamp)
    (d : reading_draws) (out : option reading) :
  valid_draws d ->
  previous_reading st <= cumulative_reading st ->
  V11.reading_step meter tariff st ts d = Some (st', out) ->
  match out with
  | Some r =>
      previous_reading st <= cumulative_reading st'
      /\ previous_reading st' = cumulative_reading st'
      /\ reading_kwh r = Num.round (cumulative_reading st') 3
  | None =>
      previous_reading st' = previous_reading st
      /\ previous_reading st' <= cumulative_reading st'
  end.
Proof.
  intros Hd Hinv. unfold V11.reading_step.
  destruct (V11.draw_consumption tariff ts d) as [c | ] eqn:Hc; [ | discriminate].
  apply (v11_consumption_nonneg _ _ _ _ Hd) in Hc.
  destruct (Qeq_bool _ 0); [discriminate | ].
  assert (Hspike : 0 <= c * uniform 5 10 (r_issue d)).
  { destruct Hd as (_ & _ & _ & Hi).
    pose proof (uniform_range 5 10 _ ltac:(discriminate) Hi).
    apply Qmult_le_0_compat; lra. }
  cbv zeta.
  repeat (match goal with
          | |- context [if Num.ltb ?a ?b then _ else _] => destruct (Num.ltb a b)
          end);
    intros [= <- <-]; cbn; repeat split; lra.
Qed.

Lemma v11_loop_monotone (meter tariff : string) (grid : list (timestamp * reading_draws)) :
  forall st st' rows,
    Forall valid_draws (map snd grid) ->
    previous_reading st <= cumulative_reading st ->
    V11.timestamp_loop meter tariff st grid = Some (st', rows) ->
    run_above any_row (Num.round (previous_reading st) 3) rows
    /\ monotone_runs any_row rows.
Proof.
  induction grid as [ | [ts d] rest IH]; intros st st' rows Hd Hinv Hloop.
  - cbn in Hloop. injection Hloop as <- <-. cbn. auto.
  - cbn in Hloop, Hd. inversion Hd as [ | ? ? Hd1 Hd2]; subst.
    destruct (V11.reading_step meter tariff st ts d) as [[st1 out] | ] eqn:Hstep;
      [ | discriminate].
    destruct (V11.timestamp_loop meter tariff st1 rest) as [[st2 rows2] | ] eqn:Hrest;
      [ | discriminate].
    injection Hloop as <- <-.
    pose proof (v11_step _ _ _ _ _ _ _ Hd1 Hinv Hstep) as Hs.
    destruct out as [r | ].
    + destruct Hs as (Hup & Heq & Hr).
      destruct (IH st1 st2 rows2 Hd2 ltac:(rewrite Heq; lra) Hrest) as [Hrun Hmono].
      rewrite Heq, <- Hr in Hrun.
      assert (Hlo : Num.round (previous_reading st) 3 <= reading_kwh r)
        by (rewrite Hr; apply round_mono, Hup).
      split.
      * cbn. intros _. split; [exact Hlo | ].
        eapply run_above_weaken; [exact Hlo | exact Hrun].
      * cbn. split; assumption.
    + destruct Hs as (Hprev & Hinv1).
      destruct (IH st1 st2 rows2 Hd2 Hinv1 Hrest) as [Hrun Hmono].
      rewrite Hprev in Hrun. split; assumption.
Qed.

Lemma v12_params_ordered (tariff : string) :
  let '(base_min, base_max, peak_min, peak_max) := V12._get_consumption_params tariff in
  0 <= base_min <= base_max /\ 0 <= peak_min <= peak_max.
Proof.
  unfold V12._get_consumption_params.
  repeat (match goal with
          | |- context [if Num.contains ?a ?b then _ else _] => destruct (Num.contains a b)
          end); repeat split; discriminate.
Qed.

Lemma v12_consumption_nonneg (m : V12.meter) (ts : timestamp) (d : reading_draws) :
  valid_draws d -> 0 <= fst (V12.draw_consumption m ts d).
Proof.
  intros (Hb & Hs & Hj & _). unfold V12.draw_consumption.
  pose proof (v12_params_ordered (V12.m_tariff_category m)) as Hbands.
  destruct (V12._get_consumption_params _) as [[[base_min base_max] peak_min] peak_max].
  destruct Hbands as [[Hb0 Hb1] [Hp0 Hp1]].
  pose proof (uniform_range _ _ _ Hb1 Hb) as Hu1.
  pose proof (uniform_range _ _ _ Hp1 Hb) as Hu2.
  assert (Hj' : 0.9 <= uniform 0.9 1.1 (r_jitter d) <= 1.1)
    by (apply uniform_range; [discriminate | exact Hj]).
  assert (Hs' : 0.3 <= uniform 0.3 0.8 (r_solar d) <= 0.8)
    by (apply uniform_range; [discriminate | exact Hs]).
  cbn [fst].
  set (base := if between 6 (hour ts) 10 || between 18 (hour ts) 23 then _ else _).
  assert (Hbase : 0 <= base)
    by (subst base; destruct (between 6 (hour ts) 10 || between 18 (hour ts) 23); lra).
  set (wk := if (5 <=? dayofweek ts)%Z then _ else _).
  assert (Hwk : 0 <= wk) by (subst wk; destruct (5 <=? dayofweek ts)%Z; discriminate).
  set (season := if existsb _ _ then _ else _).
  assert (Hseason : 0 <= season) by (subst season; destruct (existsb _ _); discriminate).
  assert (H1 : 0 <= base * wk * season) by (repeat apply Qmult_le_0_compat; assumption).
  apply Qmult_le_0_compat; [ | lra].
  destruct (_ && between 8 (hour ts) 17); [apply Qmult_le_0_compat; lra | exact H1].
Qed.

Lemma v12_step (m : V12.meter) (utilization : Q) (failures : list (Z * Z))
    (st st' : registers) (ts : timestamp) (d : reading_draws) (out : option reading) :
  valid_draws d ->
  previous_reading st = cumulative_reading st ->
  V12.reading_step m utilization failures st ts d = (st', out) ->
  previous_reading st' = cumulative_reading st'
  /\ match out with
     | Some r =>
         reading_kwh r = Num.round (cumulative_reading st') 3
         /\ (keeps_register r = true -> cumulative_reading st <= cumulative_reading st')
     | None => st' = st
     end.
Proof.
  intros Hd Hinv. unfold V12.reading_step.
  destruct (V12.skipped m failures ts).
  - intros [= <- <-]. auto.
  - pose proof (v12_consumption_nonneg m ts d Hd) as Hc.
    set (c := fst (V12.draw_consumption m ts d)) in *.
    intros [= <- <-]. cbn [previous_reading cumulative_reading reading_kwh].
    split; [reflexivity | split; [reflexivity | ]].
    unfold keeps_register, lowers_register. cbn [data_quality_flag].
    unfold V12._apply_data_quality_issues. rewrite Hinv.
    destruct (scan_issues V12.issue_probabilities 0 (rand_val d));
      cbn; intros Hk; try discriminate Hk; lra.
Qed.

Lemma v12_loop_monotone (m : V12.meter) (utilization : Q) (failures : list (Z * Z))
    (grid : list (timestamp * reading_draws)) :
  forall st,
    Forall valid_draws (map snd grid) ->
    previous_reading st = cumulative_reading st ->
    run_above keeps_register (Num.round (cumulative_reading st) 3)
      (snd (V12.timestamp_loop m utilization failures st grid))
    /\ monotone_runs keeps_register
         (snd (V12.timestamp_loop m utilization failures st grid)).
Proof.
  induction grid as [ | [ts d] rest IH]; intros st Hd Hinv.
  - cbn. auto.
  - cbn in Hd. inversion Hd as [ | ? ? Hd1 Hd2]; subst. cbn [V12.timestamp_loop].
    destruct (V12.reading_step m utilization failures st ts d) as [st1 out] eqn:Hstep.
    destruct (v12_step _ _ _ _ _ _ _ _ Hd1 Hinv Hstep) as [Hinv1 Hout].
    specialize (IH st1 Hd2 Hinv1).
    destruct (V12.timestamp_loop m utilization failures st1 rest) as [st2 rows2].
    cbn [snd] in *. destruct IH as [Hrun Hmono].
    destruct out as [r | ].
    + destruct Hout as [Hr Hkeep]. rewrite <- Hr in Hrun. split.
      * cbn. intros Hk.
        assert (Hlo : Num.round (cumulative_reading st) 3 <= reading_kwh r)
          by (rewrite Hr; apply round_mono, Hkeep, Hk).
        split; [exact Hlo | ].
        eapply run_above_weaken; [exact Hlo | exact Hrun].
      * cbn. split; assumption.
    + subst st1. split; assumption.
Qed.

(** C3, as stated, fails on v1.2: the negative reading between the two
    Normal rows of [sample_grid] sets the running register to 0.1 - 0.4, and
    the next Normal row continues from there, at -0.2 < 0.1. *)
Lemma normal_monotone_counterexample :
  let rows := V12.generate_readings_dynamic sample_meter 50 [] sample_grid in
  map data_quality_flag rows = [Normal; NegativeReading; Normal]
  /\ Forall2 Qeq (map reading_kwh rows) [0.1; -0.3; -0.2]
  /\ ~ normal_monotone rows.
Proof.
  cbv zeta.
  remember (V12.generate_readings_dynamic sample_meter 50 [] sample_grid) as rows eqn:E.
  vm_compute in E. subst rows.
  split; [reflexivity | split].
  - repeat constructor.
  - intros H.
    specialize (H [] _ [_] _ [] eq_refl eq_refl eq_refl).
    match type of H with
    | ?P -> _ => assert (Hmid : P) by (repeat constructor; discriminate)
    end.
    specialize (H Hmid). vm_compute in H. apply H. reflexivity.
Qed.

(** C3, as the code has it.  With unit draws in range,
    - in v1.1 the register of an emitted reading is never below the register
      of a reading emitted earlier for the meter, whatever the flags;
    - in v1.2 the register of a reading is not below the register of an
      earlier one provided that neither it nor any reading between the two is
      flagged Negative Reading or Reverse Energy; so two successive Normal
      readings are in order when no such reading separates them. *)
Theorem register_monotonicity (grid : list (timestamp * reading_draws))
    (Hdraws : Forall valid_draws (map snd grid)) :
  (forall meter tariff rows pre a mid b post,
     V11.generate_readings meter tariff grid = Some rows ->
     rows = pre ++ a :: mid ++ b :: post ->
     reading_kwh a <= reading_kwh b)
  /\ (forall m utilization failures pre a mid b post,
        V12.generate_readings_dynamic m utilization failures grid
          = pre ++ a :: mid ++ b :: post ->
        Forall (fun r => lowers_register r = false) mid ->
        lowers_register b = false ->
        reading_kwh a <= reading_kwh b).
Proof.
  split.
  - intros meter tariff rows pre a mid b post Hgen Hrows.
    unfold V11.generate_readings in Hgen.
    destruct (V11.timestamp_loop meter tariff (mkRegs 0 0) grid) as [[st' rows'] | ] eqn:Hloop;
      [ | discriminate].
    cbn in Hgen. injection Hgen as ->.
    assert (H0 : previous_reading (mkRegs 0 0) <= cumulative_reading (mkRegs 0 0))
      by (cbn; lra).
    destruct (v11_loop_monotone _ _ _ _ _ _ Hdraws H0 Hloop) as [_ Hmono].
    eapply (monotone_runs_pairs any_row); [exact Hmono | exact Hrows | | reflexivity].
    apply Forall_forall. reflexivity.
  - intros m utilization failures pre a mid b post Hrows Hmid Hb.
    destruct (v12_loop_monotone m utilization failures grid (mkRegs 0 0) Hdraws eq_refl)
      as [_ Hmono].
    eapply (monotone_runs_pairs keeps_register); [exact Hmono | exact Hrows | | ].
    + eapply Forall_impl; [ | exact Hmid]. intros r Hr. unfold keeps_register.
      rewrite Hr. reflexivity.
    + unfold keeps_register. rewrite Hb. reflexivity.
Qed.

(** The v1.1 loop returns its rows whenever every timestamp has a month
    between 1 and 12 and no drawn voltage is exactly zero. *)
Lemma v11_generate_readings_returns (meter tariff : string)
    (grid : list (timestamp * reading_draws)) :
  Forall (fun td => (1 <= month (fst td) <= 12)%Z
                    /\ ~ gauss 230 10 (z_voltage (snd td)) == 0) grid ->
  exists rows, V11.generate_readings meter tariff grid = Some rows.
Proof.
  unfold V11.generate_readings. generalize (mkRegs 0 0).
  induction grid as [ | [ts d] rest IH]; intros st Hok.
  - eexists. reflexivity.
  - inversion Hok as [ | ? ? [Hm Hv] Hrest]; subst. cbn [fst snd] in Hm, Hv.
    cbn [V11.timestamp_loop].
    assert (Hstep : exists st' out, V11.reading_step meter tariff st ts d = Some (st', out)).
    { unfold V11.reading_step, V11.draw_consumption.
      destruct (V11.bands tariff) as [[[base_min base_max] peak_min] peak_max].
      assert (Hmm : exists mm, V11.multiplier_of (month ts) = Some mm).
      { assert (Hcases : In (month ts) [1; 2; 3; 4; 5; 6; 7; 8; 9; 10; 11; 12]%Z)
          by (cbn; lia).
        cbn in Hcases.
        repeat (destruct Hcases as [<- | Hcases]; [eexists; reflexivity | ]).
        destruct Hcases. }
      destruct Hmm as [mm ->].
      destruct (Qeq_bool _ 0) eqn:Ev; [apply Qeq_bool_iff in Ev; contradiction | ].
      cbv zeta.
      repeat (match goal with
              | |- context [if Num.ltb ?a ?b then _ else _] => destruct (Num.ltb a b)
              end); eexists; eexists; reflexivity. }
    destruct Hstep as (st' & out & ->).
    destruct (IH st' Hrest) as [rows Hrows].
    destruct (V11.timestamp_loop meter tariff st' rest) as [[st'' rows'] | ];
      [ | discriminate Hrows].
    eexists. reflexivity.
Qed.

Lemma register_monotonicity_witness :
  Forall valid_draws (map snd sample_grid)
  /\ exists rows,
       V11.generate_readings "10000000001" "A-1a" sample_grid = Some rows
       /\ List.length rows = 3%nat
       /\ forall pre a mid b post,
            rows = pre ++ a :: mid ++ b :: post ->
            reading_kwh a <= reading_kwh b.
Proof.
  assert (H : Forall valid_draws (map snd sample_grid))
    by (repeat constructor; discriminate).
  split; [exact H | ].
  destruct (V11.generate_readings "10000000001" "A-1a" sample_grid) as [rows | ] eqn:Hgen;
    [ | vm_compute in Hgen; discriminate Hgen].
  exists rows. split; [reflexivity | split].
  - vm_compute in Hgen. injection Hgen as <-. reflexivity.
  - intros pre a mid b post Hrows.
    exact (proj1 (register_monotonicity sample_grid H) _ _ _ _ _ _ _ _ Hgen Hrows).
Defined.

(** ** The v1.1 reading step, branch by branch *)

Ltac v11_thresholds H :=
  cbv [V11.prob V11.issue_probabilities find flag_eqb fst snd] in H.

(** The flag is Normal exactly when the draw clears every band. *)
Lemma v11_flag_normal_iff (rv : Q) :
  V11._determine_quality_flag rv = Normal <-> 0.095 <= rv.
Proof.
  unfold V11._determine_quality_flag, V11.issue_probabilities, scan_issues.
  repeat (match goal with
          | |- context [if Num.ltb ?a ?b then _ else _] =>
              let E := fresh "E" in
              destruct (Num.ltb a b) eqn:E;
              [apply ltb_lt in E; split; [discriminate | intros; exfalso; lra]
              | apply ltb_ge in E]
          end).
  split; [intros _; lra | reflexivity].
Qed.

(** A draw in the missing band: the iteration ends at [continue]. *)
Lemma v11_missing_step (meter tariff : string) (st : registers) (ts : timestamp)
    (d : reading_draws) (c : Q) :
  rand_val d < V11.prob MissingReading ->
  V11.draw_consumption tariff ts d = Some c ->
  ~ gauss 230 10 (z_voltage d) == 0 ->
  V11.reading_step meter tariff st ts d
  = Some (mkRegs (cumulative_reading st + c) (previous_reading st), None).
Proof.
  intros Hrv Hc Hv. unfold V11.reading_step. rewrite Hc.
  destruct (Qeq_bool _ 0) eqn:Ev; [apply Qeq_bool_iff in Ev; contradiction | ].
  cbv zeta. apply ltb_lt in Hrv. rewrite Hrv. reflexivity.
Qed.

(** A draw above every band: the [else] branch. *)
Lemma v11_normal_step (meter tariff : string) (st : registers) (ts : timestamp)
    (d : reading_draws) (c : Q) :
  0.095 <= rand_val d ->
  V11.draw_consumption tariff ts d = Some c ->
  ~ gauss 230 10 (z_voltage d) == 0 ->
  exists r,
    V11.reading_step meter tariff st ts d
    = Some (mkRegs (cumulative_reading st + c + c) (cumulative_reading st + c + c), Some r)
    /\ reading_kwh r = Num.round (cumulative_reading st + c + c) 3
    /\ energy_consumed_kwh r = Num.round c 3
    /\ data_quality_flag r = Normal.
Proof.
  intros Hrv Hc Hv. unfold V11.reading_step. rewrite Hc.
  destruct (Qeq_bool _ 0) eqn:Ev; [apply Qeq_bool_iff in Ev; contradiction | ].
  cbv zeta.
  repeat (match goal with
          | |- context [if Num.ltb ?a ?b then _ else _] =>
              let E := fresh "E" in
              destruct (Num.ltb a b) eqn:E;
              [apply ltb_lt in E; v11_thresholds E; exfalso; lra | clear E]
          end).
  eexists. split; [reflexivity | ]. cbn.
  repeat split. apply v11_flag_normal_iff, Hrv.
Qed.

(** An emitted row carries the flag of the draw of its iteration. *)
Lemma v11_step_flag (meter tariff : string) (st st' : registers) (ts : timestamp)
    (d : reading_draws) (r : reading) :
  V11.reading_step meter tariff st ts d = Some (st', Some r) ->
  data_quality_flag r = V11._determine_quality_flag (rand_val d)
  /\ (exists c, V11.draw_consumption tariff ts d = Some c)
  /\ ~ gauss 230 10 (z_voltage d) == 0.
Proof.
  unfold V11.reading_step.
  destruct (V11.draw_consumption tariff ts d) as [c | ]; [ | discriminate].
  destruct (Qeq_bool _ 0) eqn:Ev; [discriminate | ].
  assert (Hv : ~ gauss 230 10 (z_voltage d) == 0).
  { intros H. apply Qeq_bool_iff in H. congruence. }
  cbv zeta.
  repeat (match goal with
          | |- context [if Num.ltb ?a ?b then _ else _] => destruct (Num.ltb a b)
          end);
    intros [= <- <-]; cbn; (split; [reflexivity | split; [eexists; reflexivity | exact Hv]]).
Qed.

(** A draw in the negative-reading band: the register restarts from
    [previous_reading]. *)
Lemma v11_negative_step (meter tariff : string) (st : registers) (ts : timestamp)
    (d : reading_draws) (c : Q) :
  0.02 <= rand_val d -> rand_val d < 0.025 ->
  V11.draw_consumption tariff ts d = Some c ->
  ~ gauss 230 10 (z_voltage d) == 0 ->
  exists r,
    V11.reading_step meter tariff st ts d
    = Some (mkRegs (previous_reading st - - c) (previous_reading st - - c), Some r)
    /\ reading_kwh r = Num.round (previous_reading st - - c) 3
    /\ energy_consumed_kwh r = Num.round (- c) 3.
Proof.
  intros Hlo Hhi Hc Hv. unfold V11.reading_step. rewrite Hc.
  destruct (Qeq_bool _ 0) eqn:Ev; [apply Qeq_bool_iff in Ev; contradiction | ].
  cbv zeta.
  destruct (Num.ltb (rand_val d) (V11.prob MissingReading)) eqn:E1.
  { apply ltb_lt in E1. v11_thresholds E1. exfalso. lra. }
  destruct (Num.ltb (rand_val d) (V11.prob MissingReading + V11.prob NegativeReading)) eqn:E2.
  - eexists. split; [reflexivity | ]. cbn. split; reflexivity.
  - apply ltb_ge in E2. v11_thresholds E2. exfalso. lra.
Qed.

(** ** Missing readings *)

(** C4, as stated, fails on v1.1: with the registers at 0.1 and a draw of
    0.01, inside the missing band, no row is emitted but the running register
    moves to 0.17, because the drawn consumption was added before the
    classification. *)
Lemma missing_reading_counterexample :
  let st := mkRegs 0.1 0.1 in
  let d := sample_draws 0 0.01 in
  rand_val d < V11.prob MissingReading
  /\ exists st',
       V11.reading_step "10000000001" "A-1a" st (mkTs 15 0 1 0) d = Some (st', None)
       /\ cumulative_reading st' == 0.17
       /\ ~ cumulative_reading st' == cumulative_reading st.
Proof.
  cbv zeta. split; [reflexivity | ].
  eexists. split; [vm_compute; reflexivity | ].
  split; [reflexivity | ]. intros H. vm_compute in H. discriminate H.
Qed.

(** In v1.2 a draw in the missing band does not end the iteration: the row
    is appended with the flag "Missing Reading" and the advanced register. *)
Lemma v12_missing_band_row (m : V12.meter) (utilization : Q) (failures : list (Z * Z))
    (st : registers) (ts : timestamp) (d : reading_draws) :
  V12.skipped m failures ts = false ->
  rand_val d < 0.02 ->
  exists r,
    V12.reading_step m utilization failures st ts d
    = (mkRegs (cumulative_reading st + fst (V12.draw_consumption m ts d))
              (cumulative_reading st + fst (V12.draw_consumption m ts d)), Some r)
    /\ data_quality_flag r = MissingReading.
Proof.
  intros Hs Hrv. unfold V12.reading_step. rewrite Hs.
  assert (E : scan_issues V12.issue_probabilities 0 (rand_val d) = MissingReading).
  { unfold V12.issue_probabilities, scan_issues.
    assert (El : Num.ltb (rand_val d) (0 + 0.02) = true) by (apply ltb_lt; lra).
    rewrite El. reflexivity. }
  unfold V12._apply_data_quality_issues. rewrite E. cbn.
  eexists. split; reflexivity.
Qed.

(** C4, as the code has it (v1.1).  When the draw falls in the missing band
    the iteration emits no row and leaves [previous_reading], the register of
    the last emitted row, unchanged, but the running [cumulative_reading] has
    already been advanced by the consumption drawn for the suppressed
    timestamp.  The next emitted row therefore continues from the advanced
    register when it is Normal, and from the unchanged [previous_reading]
    when it falls in the negative-reading band. *)
Theorem missing_reading_suppressed (meter tariff : string) (st : registers)
    (ts : timestamp) (d : reading_draws) (c : Q)
    (Hband : rand_val d < V11.prob MissingReading)
    (Hdraw : V11.draw_consumption tariff ts d = Some c)
    (Hvolt : ~ gauss 230 10 (z_voltage d) == 0) :
  let st' := mkRegs (cumulative_reading st + c) (previous_reading st) in
  V11.reading_step meter tariff st ts d = Some (st', None)
  /\ (forall ts2 d2 c2,
        0.095 <= rand_val d2 ->
        V11.draw_consumption tariff ts2 d2 = Some c2 ->
        ~ gauss 230 10 (z_voltage d2) == 0 ->
        exists st2 r,
          V11.reading_step meter tariff st' ts2 d2 = Some (st2, Some r)
          /\ reading_kwh r = Num.round (cumulative_reading st + c + c2 + c2) 3)
  /\ (forall ts2 d2 c2,
        0.02 <= rand_val d2 -> rand_val d2 < 0.025 ->
        V11.draw_consumption tariff ts2 d2 = Some c2 ->
        ~ gauss 230 10 (z_voltage d2) == 0 ->
        exists st2 r,
          V11.reading_step meter tariff st' ts2 d2 = Some (st2, Some r)
          /\ reading_kwh r = Num.round (previous_reading st - - c2) 3).
Proof.
  cbv zeta. split; [apply v11_missing_step; assumption | split].
  - intros ts2 d2 c2 Hrv Hc2 Hv2.
    destruct (v11_normal_step meter tariff
                (mkRegs (cumulative_reading st + c) (previous_reading st))
                ts2 d2 c2 Hrv Hc2 Hv2) as (r & Hstep & Hreg & _).
    exists (mkRegs (cumulative_reading st + c + c2 + c2) (cumulative_reading st + c + c2 + c2)), r.
    split; assumption.
  - intros ts2 d2 c2 Hlo Hhi Hc2 Hv2.
    destruct (v11_negative_step meter tariff
                (mkRegs (cumulative_reading st + c) (previous_reading st))
                ts2 d2 c2 Hlo Hhi Hc2 Hv2) as (r & Hstep & Hreg & _).
    exists (mkRegs (previous_reading st - - c2) (previous_reading st - - c2)), r.
    split; assumption.
Qed.

Lemma missing_reading_suppressed_witness :
  let st := mkRegs 0.1 0.1 in
  let d := sample_draws 0 0.01 in
  rand_val d < V11.prob MissingReading
  /\ ~ gauss 230 10 (z_voltage d) == 0
  /\ exists c,
       V11.draw_consumption "A-1a" (mkTs 15 0 1 0) d = Some c
       /\ c == 0.07
       /\ V11.reading_step "10000000001" "A-1a" st (mkTs 15 0 1 0) d
          = Some (mkRegs (0.1 + c) 0.1, None).
Proof.
  cbv zeta.
  assert (H1 : rand_val (sample_draws 0 0.01) < V11.prob MissingReading) by reflexivity.
  assert (H3 : ~ gauss 230 10 (z_voltage (sample_draws 0 0.01)) == 0) by discriminate.
  split; [exact H1 | split; [exact H3 | ]].
  destruct (V11.draw_consumption "A-1a" (mkTs 15 0 1 0) (sample_draws 0 0.01))
    as [c | ] eqn:H2; [ | discriminate H2].
  exists c. split; [reflexivity | split].
  - vm_compute in H2. injection H2 as <-. reflexivity.
  - exact (proj1 (missing_reading_suppressed "10000000001" "A-1a" (mkRegs 0.1 0.1)
                    (mkTs 15 0 1 0) (sample_draws 0 0.01) c H1 H2 H3)).
Defined.

(** ** Normal readings in v1.1 *)

Lemma fold_plus_acc (xs : list Q) (a : Q) : fold_left Qplus xs a == a + Num.sum xs.
Proof.
  unfold Num.sum. revert a. induction xs as [ | x xs IH]; intros a; cbn.
  - lra.
  - rewrite (IH (a + x)), (IH (0 + x)). lra.
Qed.

Lemma sum_cons (x : Q) (xs : list Q) : Num.sum (x :: xs) == x + Num.sum xs.
Proof. unfold Num.sum at 1. cbn. rewrite fold_plus_acc. lra. Qed.

Lemma v11_normal_run (meter tariff : string) (grid : list (timestamp * reading_draws)) :
  forall st st' rows,
    Forall (fun td => 0.095 <= rand_val (snd td)) grid ->
    V11.timestamp_loop meter tariff st grid = Some (st', rows) ->
    cumulative_reading st' == cumulative_reading st + 2 * drawn_consumption tariff grid
    /\ List.length rows = List.length grid
    /\ Forall (fun r => data_quality_flag r = Normal) rows.
Proof.
  induction grid as [ | [ts d] rest IH]; intros st st' rows Hn Hloop.
  - cbn in Hloop. injection Hloop as <- <-. unfold drawn_consumption. cbn.
    repeat split; [lra | constructor].
  - inversion Hn as [ | ? ? Hd Hrest]; subst. cbn [snd] in Hd. cbn in Hloop.
    destruct (V11.reading_step meter tariff st ts d) as [[st1 out] | ] eqn:Hstep;
      [ | discriminate].
    destruct (V11.timestamp_loop meter tariff st1 rest) as [[st2 rows2] | ] eqn:Hloop2;
      [ | discriminate].
    injection Hloop as <- <-.
    destruct (IH _ _ _ Hrest Hloop2) as (Hcum & Hlen & Hflags).
    assert (Hc : exists c, V11.draw_consumption tariff ts d = Some c
                           /\ ~ gauss 230 10 (z_voltage d) == 0).
    { unfold V11.reading_step in Hstep.
      destruct (V11.draw_consumption tariff ts d) as [c | ]; [ | discriminate].
      destruct (Qeq_bool _ 0) eqn:Ev; [discriminate | ].
      exists c. split; [reflexivity | ]. intros H. apply Qeq_bool_iff in H. congruence. }
    destruct Hc as (c & Hc & Hv).
    destruct (v11_normal_step meter tariff st ts d c Hd Hc Hv) as (r & Hs & _ & _ & Hf).
    rewrite Hs in Hstep. injection Hstep as <- <-.
    unfold drawn_consumption in *. cbn [map fst snd]. rewrite Hc, sum_cons.
    cbn [cumulative_reading] in Hcum. cbn [List.length].
    repeat split; [lra | congruence | constructor; assumption].
Qed.

(** The loop over two stretches of timestamps is the loop over the first,
    continued over the second from the registers it left. *)
Lemma v11_timestamp_loop_app (meter tariff : string)
    (grid1 grid2 : list (timestamp * reading_draws)) :
  forall st,
    V11.timestamp_loop meter tariff st (grid1 ++ grid2)
    = match V11.timestamp_loop meter tariff st grid1 with
      | None => None
      | Some (st1, rows1) =>
          match V11.timestamp_loop meter tariff st1 grid2 with
          | None => None
          | Some (st2, rows2) => Some (st2, rows1 ++ rows2)
          end
      end.
Proof.
  induction grid1 as [ | [ts d] rest IH]; intros st; cbn [app V11.timestamp_loop].
  - destruct (V11.timestamp_loop meter tariff st grid2) as [[st2 rows2] | ]; reflexivity.
  - destruct (V11.reading_step meter tariff st ts d) as [[st' out] | ]; [ | reflexivity].
    rewrite IH.
    destruct (V11.timestamp_loop meter tariff st' rest) as [[st1 rows1] | ]; [ | reflexivity].
    destruct (V11.timestamp_loop meter tariff st1 grid2) as [[st2 rows2] | ]; [ | reflexivity].
    destruct out; reflexivity.
Qed.

(** Over a stretch of Normal draws the rows report the drawn consumption
    rounded to 3 decimals, each within 0.0005 of what was drawn. *)
Lemma v11_normal_run_reported (meter tariff : string)
    (grid : list (timestamp * reading_draws)) :
  forall st st' rows,
    Forall (fun td => 0.095 <= rand_val (snd td)) grid ->
    V11.timestamp_loop meter tariff st grid = Some (st', rows) ->
    Qabs (Num.sum (map energy_consumed_kwh rows) - drawn_consumption tariff grid)
    <= inject_Z (Z.of_nat (List.length rows)) * (1 # 2000).
Proof.
  induction grid as [ | [ts d] rest IH]; intros st st' rows Hn Hloop.
  - cbn in Hloop. injection Hloop as <- <-. unfold drawn_consumption. cbn. discriminate.
  - inversion Hn as [ | ? ? Hd Hrest]; subst. cbn [snd] in Hd. cbn in Hloop.
    destruct (V11.reading_step meter tariff st ts d) as [[st1 out] | ] eqn:Hstep;
      [ | discriminate].
    destruct (V11.timestamp_loop meter tariff st1 rest) as [[st2 rows2] | ] eqn:Hloop2;
      [ | discriminate].
    injection Hloop as <- <-.
    pose proof (IH _ _ _ Hrest Hloop2) as Hsum.
    assert (Hc : exists c, V11.draw_consumption tariff ts d = Some c
                           /\ ~ gauss 230 10 (z_voltage d) == 0).
    { unfold V11.reading_step in Hstep.
      destruct (V11.draw_consumption tariff ts d) as [c | ]; [ | discriminate].
      destruct (Qeq_bool _ 0) eqn:Ev; [discriminate | ].
      exists c. split; [reflexivity | ]. intros H. apply Qeq_bool_iff in H. congruence. }
    destruct Hc as (c & Hc & Hv).
    destruct (v11_normal_step meter tariff st ts d c Hd Hc Hv) as (r & Hs & _ & Hen & _).
    rewrite Hs in Hstep. injection Hstep as <- <-.
    unfold drawn_consumption in *. cbn [map fst snd]. rewrite Hc, !sum_cons, Hen.
    cbn [List.length]. rewrite Nat2Z.inj_succ, <- Z.add_1_r, inject_Z_plus.
    pose proof (round3_error c) as Hr.
    apply Qabs_Qle_condition in Hsum. apply Qabs_Qle_condition.
    set (n := inject_Z (Z.of_nat (List.length rows2))) in *.
    change (inject_Z 1) with 1.
    split; lra.
Qed.

(** C9, as stated, fails: the row reports the drawn consumption rounded to
    3 decimals, and the register moves by twice what was drawn, not by twice
    what is reported.  With a base draw of 0.001 at 00:00 of a January
    weekday the consumption drawn is 0.07028 kWh: the row is Normal and
    reports 0.07, the register moves from 0 to 0.14056 and is reported as
    0.141, neither of which is twice 0.07. *)
Lemma normal_twice_reported_counterexample :
  exists st' r,
    V11.reading_step "10000000001" "A-1a" (mkRegs 0 0) (mkTs 0 0 1 0) (sample_draws 0.001 0.5)
    = Some (st', Some r)
    /\ data_quality_flag r = Normal
    /\ energy_consumed_kwh r == 0.07
    /\ cumulative_reading st' - cumulative_reading (mkRegs 0 0) == 0.14056
    /\ reading_kwh r == 0.141
    /\ ~ cumulative_reading st' - cumulative_reading (mkRegs 0 0)
         == 2 * energy_consumed_kwh r
    /\ ~ reading_kwh r - 0 == 2 * energy_consumed_kwh r.
Proof.
  eexists. eexists. split; [vm_compute; reflexivity | ].
  cbn [data_quality_flag energy_consumed_kwh cumulative_reading reading_kwh].
  split; [vm_compute; reflexivity | ].
  split; [vm_compute; reflexivity | ].
  split; [vm_compute; reflexivity | ].
  split; [vm_compute; reflexivity | ].
  split; intros H; vm_compute in H; discriminate H.
Qed.

(** C9, as the code has it.  In the v1.1 generator an emitted row flagged
    Normal moves the running register by exactly twice the consumption drawn
    for it: once before the defect classification and once more in the Normal
    branch.  The row reports that consumption rounded to 3 decimals, so the
    advance is within 0.001 of twice the reported [energy_consumed_kwh], and
    equal to it only when the draw has no more than 3 decimals.  This holds
    at every Normal draw of a run, whatever the flags of the other
    timestamps.  Over a stretch of timestamps whose draws are all Normal,
    every timestamp emits a row, the register ends at its initial value plus
    twice the consumption drawn, and that difference is within 0.001 per row
    of twice the sum of the reported [energy_consumed_kwh]. *)
Theorem normal_reading_counts_twice (meter tariff : string) :
  (forall st st' ts d r,
     V11.reading_step meter tariff st ts d = Some (st', Some r) ->
     data_quality_flag r = Normal ->
     exists c,
       V11.draw_consumption tariff ts d = Some c
       /\ cumulative_reading st' = cumulative_reading st + c + c
       /\ energy_consumed_kwh r = Num.round c 3
       /\ reading_kwh r = Num.round (cumulative_reading st + c + c) 3
       /\ Qabs (cumulative_reading st' - cumulative_reading st
                - 2 * energy_consumed_kwh r) <= 1 # 1000)
  /\ (forall grid1 ts d grid2 st st' rows,
        V11.timestamp_loop meter tariff st (grid1 ++ (ts, d) :: grid2) = Some (st', rows) ->
        0.095 <= rand_val d ->
        exists st1 rows1 st2 r rows2 c,
          V11.timestamp_loop meter tariff st grid1 = Some (st1, rows1)
          /\ V11.reading_step meter tariff st1 ts d = Some (st2, Some r)
          /\ V11.timestamp_loop meter tariff st2 grid2 = Some (st', rows2)
          /\ rows = rows1 ++ r :: rows2
          /\ data_quality_flag r = Normal
          /\ V11.draw_consumption tariff ts d = Some c
          /\ energy_consumed_kwh r = Num.round c 3
          /\ cumulative_reading st2 = cumulative_reading st1 + c + c)
  /\ (forall grid st st' rows,
        Forall (fun td => 0.095 <= rand_val (snd td)) grid ->
        V11.timestamp_loop meter tariff st grid = Some (st', rows) ->
        cumulative_reading st' == cumulative_reading st + 2 * drawn_consumption tariff grid
        /\ List.length rows = List.length grid
        /\ Forall (fun r => data_quality_flag r = Normal) rows
        /\ Qabs (cumulative_reading st' - cumulative_reading st
                 - 2 * Num.sum (map energy_consumed_kwh rows))
           <= inject_Z (Z.of_nat (List.length rows)) * (1 # 1000)).
Proof.
  split; [ | split].
  - intros st st' ts d r Hstep Hflag.
    destruct (v11_step_flag _ _ _ _ _ _ _ Hstep) as (Hf & (c & Hc) & Hv).
    rewrite Hf in Hflag. apply v11_flag_normal_iff in Hflag.
    destruct (v11_normal_step meter tariff st ts d c Hflag Hc Hv)
      as (r0 & Hs & Hreg & Hen & _).
    rewrite Hs in Hstep. injection Hstep as <- <-.
    exists c. cbn [cumulative_reading].
    repeat split; try assumption.
    rewrite Hen. pose proof (round3_error c).
    apply Qabs_Qle_condition. split; lra.
  - intros grid1 ts d grid2 st st' rows Hloop Hd.
    rewrite v11_timestamp_loop_app in Hloop.
    destruct (V11.timestamp_loop meter tariff st grid1) as [[st1 rows1] | ] eqn:Hl1;
      [ | discriminate].
    cbn [V11.timestamp_loop] in Hloop.
    destruct (V11.reading_step meter tariff st1 ts d) as [[st2 out] | ] eqn:Hstep;
      [ | discriminate].
    destruct (V11.timestamp_loop meter tariff st2 grid2) as [[st3 rows2] | ] eqn:Hl2;
      [ | discriminate].
    injection Hloop as <- <-.
    assert (Hc : exists c, V11.draw_consumption tariff ts d = Some c
                           /\ ~ gauss 230 10 (z_voltage d) == 0).
    { unfold V11.reading_step in Hstep.
      destruct (V11.draw_consumption tariff ts d) as [c | ]; [ | discriminate].
      destruct (Qeq_bool _ 0) eqn:Ev; [discriminate | ].
      exists c. split; [reflexivity | ]. intros H. apply Qeq_bool_iff in H. congruence. }
    destruct Hc as (c & Hc & Hv).
    destruct (v11_normal_step meter tariff st1 ts d c Hd Hc Hv)
      as (r & Hs & _ & Hen & Hfl).
    rewrite Hs in Hstep. injection Hstep as <- <-.
    exists st1, rows1, (mkRegs (cumulative_reading st1 + c + c)
                               (cumulative_reading st1 + c + c)), r, rows2, c.
    repeat apply conj; try assumption; reflexivity.
  - intros grid st st' rows Hn Hloop.
    destruct (v11_normal_run meter tariff grid st st' rows Hn Hloop) as (Hcum & Hlen & Hfl).
    pose proof (v11_normal_run_reported meter tariff grid st st' rows Hn Hloop) as Hrep.
    repeat apply conj; try assumption.
    apply Qabs_Qle_condition in Hrep. apply Qabs_Qle_condition.
    set (n := inject_Z (Z.of_nat (List.length rows))) in *.
    set (e := Num.sum (map energy_consumed_kwh rows)) in *.
    set (dc := drawn_consumption tariff grid) in *.
    split; lra.
Qed.

Lemma normal_reading_counts_twice_witness :
  exists st' r,
    V11.reading_step "10000000001" "A-1a" (mkRegs 0 0) (mkTs 0 0 1 0) (sample_draws 0 0.5)
    = Some (st', Some r)
    /\ data_quality_flag r = Normal
    /\ cumulative_reading st' == 0.14
    /\ energy_consumed_kwh r == 0.07.
Proof.
  destruct (V11.reading_step "10000000001" "A-1a" (mkRegs 0 0) (mkTs 0 0 1 0)
              (sample_draws 0 0.5)) as [[st' [r | ]] | ] eqn:Hstep;
    try (vm_compute in Hstep; discriminate Hstep).
  assert (Hflag : data_quality_flag r = Normal)
    by (vm_compute in Hstep; injection Hstep as _ <-; reflexivity).
  exists st', r. split; [reflexivity | split; [exact Hflag | ]].
  destruct (proj1 (normal_reading_counts_twice "10000000001" "A-1a")
              _ _ _ _ _ Hstep Hflag) as (c & Hc & Hcum & Hen & _).
  vm_compute in Hc. injection Hc as <-.
  rewrite Hcum, Hen. split; vm_compute; reflexivity.
Defined.

(** ** Transformer upgrades *)

Section Positions.

Context {A : Type} (p : A -> bool).

Lemma positions_from_spec (l : list A) :
  forall s i,
    In i (map fst (filter (fun ix => p (snd ix)) (combine (seq s (List.length l)) l)))
    <-> (s <= i)%nat /\ exists t, nth_error l (i - s) = Some t /\ p t = true.
Proof.
  induction l as [ | x l IH]; intros s i; cbn [List.length seq combine filter map].
  - split; [intros [] | intros [_ (t & H & _)]]. destruct (i - s)%nat; discriminate.
  - cbn [snd]. destruct (p x) eqn:Hx; cbn [map fst In]; rewrite IH; split.
    + intros [<- | [Hle (t & Ht & Hp)]].
      * split; [lia | ]. exists x. rewrite Nat.sub_diag. auto.
      * split; [lia | ]. exists t. replace (i - s)%nat with (S (i - S s)) by lia. auto.
    + intros [Hle (t & Ht & Hp)].
      destruct (Nat.eq_dec s i) as [-> | Hne]; [left; reflexivity | right].
      split; [lia | ]. exists t.
      replace (i - s)%nat with (S (i - S s)) in Ht by lia. auto.
    + intros [Hle (t & Ht & Hp)]. split; [lia | ]. exists t.
      replace (i - s)%nat with (S (i - S s)) by lia. auto.
    + intros [Hle (t & Ht & Hp)].
      destruct (Nat.eq_dec s i) as [-> | Hne].
      * rewrite Nat.sub_diag in Ht. cbn in Ht. congruence.
      * split; [lia | ]. exists t.
        replace (i - s)%nat with (S (i - S s)) in Ht by lia. auto.
Qed.

Lemma positions_from_NoDup (l : list A) :
  forall s, NoDup (map fst (filter (fun ix => p (snd ix)) (combine (seq s (List.length l)) l))).
Proof.
  induction l as [ | x l IH]; intros s; cbn [List.length seq combine filter map].
  - constructor.
  - cbn [snd]. destruct (p x); cbn [map fst]; [ | apply IH].
    constructor; [ | apply IH].
    rewrite positions_from_spec. lia.
Qed.

Lemma positions_spec (l : list A) (i : nat) :
  In i (positions p l) <-> exists t, nth_error l i = Some t /\ p t = true.
Proof.
  unfold positions. rewrite positions_from_spec, Nat.sub_0_r.
  split; [intros [_ H]; exact H | intros H; split; [lia | exact H]].
Qed.

Lemma positions_NoDup (l : list A) : NoDup (positions p l).
Proof. apply positions_from_NoDup. Qed.

End Positions.

Lemma update_at_nth_error {A : Type} (f : A -> A) (l : list A) :
  forall i j,
    nth_error (update_at i f l) j
    = if Nat.eqb j i then option_map f (nth_error l j) else nth_error l j.
Proof.
  induction l as [ | x l IH]; intros i j; cbn.
  - destruct i; cbn; destruct (Nat.eqb j _); destruct j; reflexivity.
  - destruct i as [ | i], j as [ | j]; cbn; try reflexivity. apply IH.
Qed.

Lemma sampled_later_false (ov rest : list nat) (k i : nat) :
  NoDup ov -> ~ In k rest -> nth_error ov k = Some i -> sampled ov rest i = false.
Proof.
  intros Hov Hk Hi. unfold sampled. apply not_true_iff_false. intros H.
  apply existsb_exists in H. destruct H as (k' & Hin & Hk').
  destruct (nth_error ov k') as [i' | ] eqn:Hi'; [ | discriminate].
  apply Nat.eqb_eq in Hk'. subst i'.
  assert (k = k'); [ | congruence].
  rewrite NoDup_nth_error in Hov. apply Hov; [ | congruence].
  apply nth_error_Some. congruence.
Qed.

Lemma upgrade_fold_store (current_date : Z) (ov : list nat) (sample : list nat) :
  NoDup ov -> NoDup sample ->
  forall (store : list transformer) (events : list upgrade_event) (j : nat),
    nth_error
      (fst (fold_left
              (fun (acc : list transformer * list upgrade_event) k =>
                 match nth_error ov k with
                 | None => acc
                 | Some i =>
                     match nth_error (fst acc) i with
                     | None => acc
                     | Some t =>
                         (update_at i (fun t0 => fst (upgrade current_date t0)) (fst acc),
                          snd acc ++ [snd (upgrade current_date t)])
                     end
                 end) sample (store, events))) j
    = if sampled ov sample j
      then option_map (fun t => fst (upgrade current_date t)) (nth_error store j)
      else nth_error store j.
Proof.
  intros Hov. induction sample as [ | k rest IH]; intros Hs store events j.
  - reflexivity.
  - inversion Hs as [ | ? ? Hk Hrest]; subst. cbn [fold_left].
    unfold sampled. cbn [existsb]. fold (sampled ov rest j).
    destruct (nth_error ov k) as [i | ] eqn:Hi; [ | apply IH, Hrest].
    cbn [fst snd].
    destruct (nth_error store i) as [t | ] eqn:Ht.
    + rewrite (IH Hrest). rewrite update_at_nth_error.
      destruct (Nat.eqb i j) eqn:Hij.
      * apply Nat.eqb_eq in Hij. subst j.
        rewrite (sampled_later_false ov rest k i Hov Hk Hi).
        rewrite Nat.eqb_refl. reflexivity.
      * rewrite Nat.eqb_sym, Hij. reflexivity.
    + rewrite (IH Hrest).
      destruct (Nat.eqb i j) eqn:Hij; [ | reflexivity].
      apply Nat.eqb_eq in Hij. subst j. rewrite Ht.
      destruct (sampled ov rest i); reflexivity.
Qed.

Lemma sampled_overloaded (store : list transformer) (sample : list nat) (j : nat) (t : transformer) :
  sampled (positions V12.overloaded store) sample j = true ->
  nth_error store j = Some t ->
  V12.overloaded t = true.
Proof.
  unfold sampled. intros H Ht. apply existsb_exists in H. destruct H as (k & _ & Hk).
  destruct (nth_error (positions V12.overloaded store) k) as [i | ] eqn:Hi; [ | discriminate].
  apply Nat.eqb_eq in Hk. subst i. apply nth_error_In in Hi.
  apply positions_spec in Hi. destruct Hi as (t' & Ht' & Hp). congruence.
Qed.

Lemma find_upgrade_500 (r : Q) : r == 500 -> find_upgrade distribution_types r = 750.
Proof.
  intros H. unfold find_upgrade, distribution_types.
  repeat (match goal with
          | |- context [Qeq_bool ?a r] =>
              let E := fresh "E" in
              destruct (Qeq_bool a r) eqn:E;
              [apply Qeq_bool_iff in E; rewrite H in E; try discriminate E | ]
          end); try reflexivity.
  exfalso. apply Qeq_bool_neq in E2. apply E2. rewrite H. reflexivity.
Qed.

Lemma find_upgrade_default (types : list (Q * Q)) (r : Q) :
  Forall (fun tier => ~ fst tier == r) types -> find_upgrade types r = r * 1.5.
Proof.
  induction types as [ | [rating upgrade_to] rest IH]; intros H; cbn.
  - reflexivity.
  - inversion H as [ | ? ? H1 H2]; subst. cbn in H1.
    destruct (Qeq_bool rating r) eqn:E; [apply Qeq_bool_iff in E; contradiction | ].
    apply IH, H2.
Qed.

Lemma v13_upgrade_loop_nth (current_date : Z) (draws : nat -> Q) (store : list transformer) :
  forall i j,
    nth_error (fst (V13.upgrade_loop current_date draws i store)) j
    = option_map (fun t => if V13.selected t (draws (i + j)%nat)
                           then fst (upgrade current_date t) else t)
        (nth_error store j).
Proof.
  induction store as [ | t rest IH]; intros i j; cbn [V13.upgrade_loop].
  - destruct j; reflexivity.
  - specialize (IH (S i)).
    destruct (V13.upgrade_loop current_date draws (S i) rest) as [rest' events].
    cbn [fst] in IH.
    destruct j as [ | j].
    + rewrite Nat.add_0_r. cbn [nth_error option_map].
      destruct (V13.selected t (draws i)); reflexivity.
    + replace (i + S j)%nat with (S i + j)%nat by lia.
      destruct (V13.selected t (draws i)); cbn [fst nth_error]; apply IH.
Qed.

(** C5.  The upgrade block shared by the v1.2 and v1.3 monthly steps takes a
    500 kVA transformer to 750 kVA, the next tier of the catalog, rescales its
    utilisation by 500/750 and appends one entry (500, 750) to its upgrade
    history; a rating without a catalog tier is multiplied by 1.5.  In the
    v1.2 step the transformers designated by the sample are upgraded once,
    they all had a utilisation above 85, and every other transformer is left
    as it was; in the v1.3 step the same holds for the transformers whose own
    draw selects them. *)
Theorem transformer_upgrade_step (current_date : Z) :
  (forall t,
     rating_kva t == 500 ->
     let t' := fst (upgrade current_date t) in
     rating_kva t' = 750
     /\ capacity_utilization_pct t' == capacity_utilization_pct t * (500 / 750)
     /\ exists e,
          upgrade_history t' = upgrade_history t ++ [e]
          /\ u_date e = current_date /\ old_rating e == 500 /\ new_rating e = 750)
  /\ (forall t,
        Forall (fun tier => ~ fst tier == rating_kva t) distribution_types ->
        rating_kva (fst (upgrade current_date t)) = rating_kva t * 1.5)
  /\ (forall sample k store j t,
        V12.is_sample sample (List.length (positions V12.overloaded store)) k ->
        nth_error store j = Some t ->
        let store' := fst (V12.transformer_upgrades current_date sample store) in
        (sampled (positions V12.overloaded store) sample j = true
         /\ 85 < capacity_utilization_pct t
         /\ nth_error store' j = Some (fst (upgrade current_date t)))
        \/ (sampled (positions V12.overloaded store) sample j = false
            /\ nth_error store' j = Some t))
  /\ (forall draws store j t,
        nth_error store j = Some t ->
        let store' := fst (V13.transformer_upgrades current_date draws store) in
        (V13.selected t (draws j) = true
         /\ 85 < capacity_utilization_pct t
         /\ nth_error store' j = Some (fst (upgrade current_date t)))
        \/ (V13.selected t (draws j) = false /\ nth_error store' j = Some t)).
Proof.
  split; [ | split; [ | split]].
  - intros t H. cbv zeta. unfold upgrade.
    cbn [fst rating_kva capacity_utilization_pct upgrade_history].
    rewrite (find_upgrade_500 _ H). split; [reflexivity | split].
    + rewrite H. reflexivity.
    + eexists. split; [reflexivity | ]. cbn [u_date old_rating new_rating]. auto.
  - intros t H. unfold upgrade. cbn [fst rating_kva]. apply find_upgrade_default, H.
  - intros sample k store j t (Hnd & _ & _) Ht. cbv zeta.
    unfold V12.transformer_upgrades.
    rewrite (upgrade_fold_store current_date _ sample (positions_NoDup _ _) Hnd).
    rewrite Ht. cbn [option_map].
    destruct (sampled (positions V12.overloaded store) sample j) eqn:Hs; [left | right; auto].
    split; [reflexivity | split; [ | reflexivity]].
    pose proof (sampled_overloaded _ _ _ _ Hs Ht) as Ho.
    unfold V12.overloaded in Ho. apply andb_true_iff in Ho. destruct Ho as [Ho _].
    apply gtb_gt, Ho.
  - intros draws store j t Ht. cbv zeta. unfold V13.transformer_upgrades.
    rewrite v13_upgrade_loop_nth, Ht. cbn [option_map plus].
    destruct (V13.selected t (draws j)) eqn:Hs; [left | right; auto].
    split; [reflexivity | split; [ | reflexivity]].
    unfold V13.selected in Hs. apply andb_true_iff in Hs. destruct Hs as [_ Hs].
    apply andb_true_iff in Hs. destruct Hs as [Hs _]. apply gtb_gt, Hs.
Qed.

Lemma transformer_upgrade_step_witness :
  V12.is_sample [0%nat] (List.length (positions V12.overloaded sample_transformers)) 1
  /\ exists t',
       nth_error (fst (V12.transformer_upgrades 0 [0%nat] sample_transformers)) 0 = Some t'
       /\ rating_kva t' = 750
       /\ capacity_utilization_pct t' == 60
       /\ List.length (upgrade_history t') = 1%nat.
Proof.
  assert (Hs : V12.is_sample [0%nat]
                 (List.length (positions V12.overloaded sample_transformers)) 1).
  { repeat split.
    - repeat constructor. intros [].
    - repeat constructor.
  }
  split; [exact Hs | ].
  destruct (proj1 (proj2 (proj2 (transformer_upgrade_step 0)))
              [0%nat] 1%nat sample_transformers 0%nat _ Hs eq_refl)
    as [(_ & _ & H) | (H & _)]; [ | discriminate H].
  eexists. split; [exact H | ]. cbn.
  split; [reflexivity | split; reflexivity].
Defined.

(** ** Payments *)





(** ** Meter numbers *)

Lemma unique_meter_number_fresh (existing : list V12.meter) (draws : list Z) (number : string) :
  V12.unique_meter_number existing draws = Some number ->
  ~ In number (map V12.m_meter_number existing).
Proof.
  induction draws as [ | n rest IH]; cbn; [discriminate | ].
  destruct (existsb _ existing) eqn:E; [exact IH | ].
  intros [= <-] Hin. apply in_map_iff in Hin. destruct Hin as (m & Hm & Hin).
  apply not_true_iff_false in E. apply E. apply existsb_exists.
  exists m. split; [exact Hin | ]. apply String.eqb_eq, Hm.
Qed.

Lemma unique_meter_number_returns (existing : list V12.meter) (draws : list Z) :
  Exists (fun n => ~ In (V12.format_int n) (map V12.m_meter_number existing)) draws ->
  exists number, V12.unique_meter_number existing draws = Some number.
Proof.
  induction 1 as [n rest Hn | n rest _ IH]; cbn.
  - destruct (existsb _ existing) eqn:E; [ | eexists; reflexivity].
    exfalso. apply Hn. apply existsb_exists in E. destruct E as (m & Hin & Hm).
    apply String.eqb_eq in Hm. rewrite <- Hm. apply in_map, Hin.
  - destruct (existsb _ existing); [exact IH | eexists; reflexivity].
Qed.

(** The new-connection path keeps the meter numbers distinct: the number
    returned by the loop of [_generate_new_meter] is carried by no existing
    meter, and the loop returns as soon as a draw is fresh. *)
Lemma new_connection_keeps_numbers_distinct (t : transformer) (current_date : Z)
    (meters_list meters_list' : list V12.meter) (d : V12.new_meter_draws) :
  NoDup (map V12.m_meter_number meters_list) ->
  V12.new_connection t current_date meters_list d = Some meters_list' ->
  NoDup (map V12.m_meter_number meters_list').
Proof.
  intros Hnd. unfold V12.new_connection, V12._generate_new_meter.
  destruct (V12.unique_meter_number meters_list (V12.number_draws d)) as [number | ] eqn:Hu;
    [ | discriminate].
  cbn. intros [= <-]. rewrite map_app. cbn.
  apply unique_meter_number_fresh in Hu.
  apply NoDup_app; [exact Hnd | repeat constructor; intros [] | ].
  intros a Ha [<- | []]. contradiction.
Qed.

(** C8 at the failing input: replacing the first meter of
    [sample_population] with a drawn number equal to the number of the second
    one appends the replacement as drawn.  The population, whose numbers were
    distinct, now holds two active meters numbered 10000000002. *)
Theorem replacement_meter_number_collision :
  let meters_list := V12.meter_replacements 0 [colliding_replacement] sample_population in
  NoDup (map V12.m_meter_number sample_population)
  /\ map V12.m_meter_number meters_list = ["10000000001"; "10000000002"; "10000000002"]%string
  /\ map V12.m_is_active meters_list = [false; true; true]
  /\ ~ NoDup (map V12.m_meter_number meters_list).
Proof.
  cbv zeta. split; [ | split; [ | split]].
  - repeat constructor; cbn; intuition discriminate.
  - vm_compute. reflexivity.
  - vm_compute. reflexivity.
  - intros H.
    replace (map V12.m_meter_number
               (V12.meter_replacements 0 [colliding_replacement] sample_population))
      with ["10000000001"; "10000000002"; "10000000002"]%string in H
      by (vm_compute; reflexivity).
    inversion H as [ | ? ? _ H1]; subst. inversion H1 as [ | ? ? H2 _]; subst.
    apply H2. left. reflexivity.
Qed.


(** ** The parallel pipeline *)

Lemma grid_size_step (f cur e : Z) :
  (0 < f)%Z -> (cur <= e)%Z ->
  V20.grid_size f cur e = S (V20.grid_size f (cur + f) e).
Proof.
  intros Hf Hle. unfold V20.grid_size.
  replace (e - cur)%Z with ((e - (cur + f)) + 1 * f)%Z by lia.
  rewrite Z.div_add by lia.
  assert (H : (-1 <= (e - (cur + f)) / f)%Z).
  { apply Z.div_le_lower_bound; lia. }
  rewrite <- Z2Nat.inj_succ by lia. f_equal; lia.
Qed.

Lemma grid_size_empty (f cur e : Z) :
  (0 < f)%Z -> (e < cur)%Z -> V20.grid_size f cur e = 0%nat.
Proof.
  intros Hf Hlt. unfold V20.grid_size.
  assert (H : ((e - cur) / f < 0)%Z) by (apply Z.div_lt_upper_bound; lia).
  lia.
Qed.

Lemma grid_points_step (f cur e : Z) :
  (0 < f)%Z -> (cur <= e)%Z ->
  grid_points f cur e = cur :: grid_points f (cur + f)%Z e.
Proof.
  intros Hf Hle. unfold grid_points. rewrite (grid_size_step f cur e Hf Hle).
  cbn [seq map]. f_equal; [lia | ].
  rewrite <- seq_shift, map_map. apply map_ext. intros k. lia.
Qed.

Lemma v20_consumption_nonneg (base : V20.base_simulator) (rng : nat -> V20.draws)
    (md : V20.meter_data) (t : Z) (n : nat) :
  consumption_nonneg base rng md -> 0 <= V20.consumption_kw base md t (rng n).
Proof.
  unfold consumption_nonneg, V20.consumption_kw. destruct base as [g | ].
  - intros H. apply H.
  - intros [Hload Hr]. specialize (Hr n).
    pose proof (uniform_range 0.7 0.95 _ ltac:(discriminate) Hr).
    pose proof (uniform_range 0.5 0.7 _ ltac:(discriminate) Hr).
    pose proof (uniform_range 0.2 0.5 _ ltac:(discriminate) Hr).
    destruct (between 18 (V20.hour_of t) 23); [ | destruct (between 6 (V20.hour_of t) 9)];
      apply Qmult_le_0_compat; lra.
Qed.

Lemma v20_single_reading (base : V20.base_simulator) (rng : nat -> V20.draws)
    (md : V20.meter_data) (t : Z) (n : nat) :
  consumption_nonneg base rng md ->
  let '(md', r) := V20._generate_single_reading base md t (rng n) in
  register md <= register md'
  /\ V20.sanctioned_load_kw md' = V20.sanctioned_load_kw md
  /\ V20.timestamp r = t
  /\ V20.status r = "normal"%string
  /\ V20.reading_kwh r = Num.round (register md') 2.
Proof.
  intros H. pose proof (v20_consumption_nonneg base rng md t n H) as Hc.
  unfold V20._generate_single_reading, register. cbv zeta.
  set (c := V20.consumption_kw base md t (rng n)) in *.
  cbn [V20.last_reading V20.sanctioned_load_kw V20.timestamp V20.status
       V20.reading_kwh V20.get].
  split; [ | repeat split].
  assert (0 <= c * (15 / 60)) by (apply Qmult_le_0_compat; [exact Hc | discriminate]).
  lra.
Qed.

Lemma consumption_nonneg_transfer (base : V20.base_simulator) (rng : nat -> V20.draws)
    (md md' : V20.meter_data) :
  V20.sanctioned_load_kw md' = V20.sanctioned_load_kw md ->
  consumption_nonneg base rng md -> consumption_nonneg base rng md'.
Proof.
  unfold consumption_nonneg. intros E. destruct base; [auto | rewrite E; auto].
Qed.

Lemma v20_month_loop (base : V20.base_simulator) (rng : nat -> V20.draws) (f e : Z) :
  (0 < f)%Z ->
  forall fuel md n cur,
    consumption_nonneg base rng md ->
    (V20.grid_size f cur e <= fuel)%nat ->
    exists md' rows,
      V20.month_loop fuel base rng f e md n cur
      = Some (md', (n + V20.grid_size f cur e)%nat, rows)
      /\ run_spec md md' rows (grid_points f cur e).
Proof.
  intros Hf. induction fuel as [ | fuel IH]; intros md n cur Hnn Hfuel.
  - destruct (Z.leb_spec cur e) as [Hle | Hgt].
    + rewrite (grid_size_step f cur e Hf Hle) in Hfuel. lia.
    + exists md, []. cbn. apply Z.leb_gt in Hgt as Hgt'. rewrite Hgt'.
      unfold grid_points. rewrite (grid_size_empty f cur e Hf Hgt), Nat.add_0_r.
      split; [reflexivity | ].
      unfold run_spec. repeat apply conj; try constructor; try reflexivity. lra.
  - cbn [V20.month_loop]. destruct (Z.leb_spec cur e) as [Hle | Hgt].
    + rewrite (grid_size_step f cur e Hf Hle) in Hfuel |- *.
      rewrite (grid_points_step f cur e Hf Hle).
      pose proof (v20_single_reading base rng md cur n Hnn) as Hstep.
      destruct (V20._generate_single_reading base md cur (rng n)) as [md1 r].
      destruct Hstep as (Hreg & Hload & Hts & Hst & Hkwh).
      destruct (IH md1 (S n) (cur + f)%Z
                  (consumption_nonneg_transfer _ _ _ _ Hload Hnn) ltac:(lia))
        as (md2 & rows & Hloop & Hpts & Hnormal & Hreg2 & Hload2 & Hbounds & Hsorted).
      rewrite Hloop. exists md2, (r :: rows).
      split; [f_equal; f_equal; f_equal; lia | ].
      assert (Hr2 : V20.reading_kwh r <= Num.round (register md2) 2)
        by (rewrite Hkwh; apply round_mono, Hreg2).
      assert (Hr1 : Num.round (register md) 2 <= V20.reading_kwh r)
        by (rewrite Hkwh; apply round_mono, Hreg).
      unfold run_spec. repeat apply conj.
      * cbn [map]. rewrite Hts, Hpts. reflexivity.
      * constructor; assumption.
      * eapply Qle_trans; eassumption.
      * congruence.
      * constructor; [split; assumption | ].
        eapply Forall_impl; [ | exact Hbounds]. cbn. intros r' [H1 H2].
        split; [ | exact H2].
        eapply Qle_trans; [ | exact H1]. apply round_mono, Hreg.
      * constructor; [exact Hsorted | ].
        eapply Forall_impl; [ | exact Hbounds]. cbn. intros r' [H1 _].
        unfold register_order. rewrite Hkwh. exact H1.
    + exists md, []. 
      unfold grid_points. rewrite (grid_size_empty f cur e Hf Hgt), Nat.add_0_r.
      split; [reflexivity | ].
      unfold run_spec. repeat apply conj; try constructor; try reflexivity. lra.
Qed.

Lemma strongly_sorted_app {A : Type} (R : A -> A -> Prop) (l1 l2 : list A) :
  StronglySorted R l1 -> StronglySorted R l2 ->
  (forall a b, In a l1 -> In b l2 -> R a b) ->
  StronglySorted R (l1 ++ l2).
Proof.
  induction l1 as [ | x l1 IH]; intros H1 H2 Hcross; cbn; [exact H2 | ].
  inversion H1 as [ | ? ? Hs Hall]; subst. constructor.
  - apply IH; [exact Hs | exact H2 | ]. intros a b Ha Hb. apply Hcross; [right | ]; assumption.
  - apply Forall_app. split; [exact Hall | ].
    apply Forall_forall. intros b Hb. apply Hcross; [left; reflexivity | exact Hb].
Qed.

Lemma run_spec_app (md md1 md2 : V20.meter_data) (rows1 rows2 : list V20.reading)
    (points1 points2 : list Z) :
  run_spec md md1 rows1 points1 -> run_spec md1 md2 rows2 points2 ->
  run_spec md md2 (rows1 ++ rows2) (points1 ++ points2).
Proof.
  intros (Hp1 & Hn1 & Hr1 & Hl1 & Hb1 & Hs1) (Hp2 & Hn2 & Hr2 & Hl2 & Hb2 & Hs2).
  unfold run_spec. repeat apply conj.
  - rewrite map_app, Hp1, Hp2. reflexivity.
  - apply Forall_app. split; assumption.
  - eapply Qle_trans; eassumption.
  - congruence.
  - apply Forall_app. split.
    + eapply Forall_impl; [ | exact Hb1]. cbn. intros r [H1 H2]. split; [exact H1 | ].
      eapply Qle_trans; [exact H2 | ]. apply round_mono, Hr2.
    + eapply Forall_impl; [ | exact Hb2]. cbn. intros r [H1 H2]. split; [ | exact H2].
      eapply Qle_trans; [ | exact H1]. apply round_mono, Hr1.
  - apply strongly_sorted_app; [exact Hs1 | exact Hs2 | ].
    intros a b Ha Hb. rewrite Forall_forall in Hb1, Hb2.
    destruct (Hb1 a Ha) as [_ Hup]. destruct (Hb2 b Hb) as [Hlo _].
    unfold register_order. eapply Qle_trans; eassumption.
Qed.

Lemma v20_month_loop_readings (add_month : Z -> Z) (base : V20.base_simulator)
    (rng : nat -> V20.draws) (f end_dt : Z) :
  (0 < f)%Z ->
  (forall t, (t < add_month t)%Z) ->
  forall fuel md n cur,
    consumption_nonneg base rng md ->
    (Z.to_nat (end_dt - cur + 1) <= fuel)%nat ->
    exists md' rows,
      V20.month_loop_readings fuel add_month base rng f end_dt md n cur = Some (md', rows)
      /\ run_spec md md' rows
           (flat_map (fun w => grid_points f (fst w) (snd w))
              (V20.month_windows fuel add_month end_dt cur)).
Proof.
  intros Hf Hmonth. induction fuel as [ | fuel IH]; intros md n cur Hnn Hfuel.
  - cbn. destruct (Z.leb_spec cur end_dt) as [Hle | Hgt]; [lia | ].
    exists md, []. split; [reflexivity | ].
    unfold run_spec. repeat apply conj; try constructor; try reflexivity.
    apply Qle_refl.
  - cbn [V20.month_loop_readings V20.month_windows].
    destruct (Z.leb_spec cur end_dt) as [Hle | Hgt].
    + cbv zeta.
      set (month_end := if (end_dt <? add_month cur - 1440)%Z then end_dt
                        else (add_month cur - 1440)%Z).
      unfold V20._generate_month_readings.
      destruct (v20_month_loop base rng f month_end Hf
                  (V20.grid_size f cur month_end) md n cur Hnn (le_n _))
        as (md1 & rows1 & Hloop & Hspec1).
      rewrite Hloop.
      assert (Hnn1 : consumption_nonneg base rng md1).
      { destruct Hspec1 as (_ & _ & _ & Hl & _).
        exact (consumption_nonneg_transfer _ _ _ _ Hl Hnn). }
      pose proof (Hmonth cur) as Hnext.
      destruct (IH md1 (n + V20.grid_size f cur month_end)%nat (add_month cur) Hnn1
                  ltac:(lia))
        as (md2 & rows2 & Hrest & Hspec2).
      rewrite Hrest. exists md2, (rows1 ++ rows2).
      split; [reflexivity | ]. cbn [flat_map fst snd].
      eapply run_spec_app; eassumption.
    + exists md, []. split; [reflexivity | ].
      unfold run_spec. repeat apply conj; try constructor; try reflexivity.
      apply Qle_refl.
Qed.

Lemma grid_points_spec (f s e t : Z) :
  (0 < f)%Z ->
  In t (grid_points f s e) <-> (s <= t <= e)%Z /\ ((t - s) mod f = 0)%Z.
Proof.
  intros Hf. unfold grid_points, V20.grid_size. rewrite in_map_iff. split.
  - intros (k & <- & Hk). apply in_seq in Hk.
    assert (Hk' : (Z.of_nat k <= (e - s) / f)%Z) by lia.
    pose proof (Z.mul_div_le (e - s) f Hf) as Hd.
    assert (Hkf : (Z.of_nat k * f <= f * ((e - s) / f))%Z) by nia.
    split; [nia | ].
    replace (s + Z.of_nat k * f - s)%Z with (Z.of_nat k * f)%Z by lia.
    apply Z_mod_mult.
  - intros [[Hlo Hhi] Hmod].
    assert (Hq : (0 <= (t - s) / f)%Z) by (apply Z.div_pos; lia).
    assert (Hle : ((t - s) / f <= (e - s) / f)%Z) by (apply Z.div_le_mono; lia).
    exists (Z.to_nat ((t - s) / f)). split.
    + rewrite Z2Nat.id by exact Hq.
      pose proof (Z.div_mod (t - s) f ltac:(lia)) as Hdm. rewrite Hmod in Hdm. lia.
    + apply in_seq. lia.
Qed.

Lemma grid_points_NoDup (f s e : Z) : (0 < f)%Z -> NoDup (grid_points f s e).
Proof.
  intros Hf. unfold grid_points. apply Injective_map_NoDup; [ | apply seq_NoDup].
  intros x y H. nia.
Qed.

(** What holds of the per-meter pipeline on the month windows it visits.
    Run with a positive reading interval, a calendar in which adding a month
    moves forward, and a consumption model that returns no negative power, it
    terminates and emits, for every window, exactly one row for each of the
    instants [month_start + k * frequency_minutes] up to [month_end], each of
    them once, and nothing else; every row has status "normal".  The register
    kept in [last_reading] never decreases, and the registers reported by the
    rows are in nondecreasing order over the whole timeline of the meter.
    The windows themselves end at 00:00 of the last day of their month, so
    they do not cover the horizon. *)
Theorem parallel_pipeline_readings (add_month : Z -> Z) (base : V20.base_simulator)
    (rng : nat -> V20.draws) (md : V20.meter_data) (start end_dt frequency_minutes : Z)
    (Hfreq : (0 < frequency_minutes)%Z)
    (Hmonth : forall t, (t < add_month t)%Z)
    (Hmodel : consumption_nonneg base rng md) :
  exists md' rows,
    V20.process_single_meter_pipeline add_month base rng md start end_dt frequency_minutes
    = Some (md', rows)
    /\ map V20.timestamp rows
       = flat_map (fun w => grid_points frequency_minutes (fst w) (snd w))
           (V20.month_windows (Z.to_nat (end_dt - start + 1)) add_month end_dt start)
    /\ (forall month_start month_end,
          NoDup (grid_points frequency_minutes month_start month_end)
          /\ forall t, In t (grid_points frequency_minutes month_start month_end)
                       <-> (month_start <= t <= month_end)%Z
                           /\ ((t - month_start) mod frequency_minutes = 0)%Z)
    /\ Forall (fun r => V20.status r = "normal"%string) rows
    /\ register md <= register md'
    /\ StronglySorted register_order rows.
Proof.
  unfold V20.process_single_meter_pipeline.
  destruct (v20_month_loop_readings add_month base rng frequency_minutes end_dt
              Hfreq Hmonth (Z.to_nat (end_dt - start + 1)) md 0%nat start Hmodel (le_n _))
    as (md' & rows & Hrun & Hpts & Hnormal & Hreg & _ & _ & Hsorted).
  exists md', rows. repeat apply conj; try assumption.
  intros month_start month_end. split.
  - apply grid_points_NoDup, Hfreq.
  - intros t. apply grid_points_spec, Hfreq.
Qed.

Lemma parallel_pipeline_readings_witness :
  (0 < 720)%Z
  /\ (forall t, (t < t + 44640)%Z)
  /\ consumption_nonneg None sample_rng sample_meter_data
  /\ exists md' rows,
       V20.process_single_meter_pipeline (fun t => (t + 44640)%Z) None sample_rng
         sample_meter_data 0 1440 720 = Some (md', rows)
       /\ map V20.timestamp rows = [0; 720; 1440]%Z
       /\ Forall (fun r => V20.status r = "normal"%string) rows.
Proof.
  assert (H1 : (0 < 720)%Z) by reflexivity.
  assert (H2 : forall t, (t < t + 44640)%Z) by (intros t; lia).
  assert (H3 : consumption_nonneg None sample_rng sample_meter_data).
  { split; [discriminate | ]. intros n. split; discriminate. }
  split; [exact H1 | split; [exact H2 | split; [exact H3 | ]]].
  destruct (parallel_pipeline_readings (fun t => (t + 44640)%Z) None sample_rng
              sample_meter_data 0 1440 720 H1 H2 H3)
    as (md' & rows & Hrun & Hpts & _ & Hnormal & _).
  exists md', rows. split; [exact Hrun | split; [ | exact Hnormal]].
  rewrite Hpts. vm_compute. reflexivity.
Defined.

(** ** The last day of a month in the parallel pipeline *)

(** C10.  The pipeline run for one meter from 2024-04-01 to 2024-05-01 at
    the 15-minute interval ends, and every row it emits has status "normal",
    but the sampling grid between the horizon start and end is not covered:
    the window of April ends at 00:00 of April 30 (minute 41760), the next
    window starts on May 1 (minute 43200), and the 95 grid instants in
    between, 00:15 to 23:45 of April 30, get no reading.  The rows are those
    of the instants 0, 15, ..., 41760 and 43200: 2786 rows for the 2881
    instants of the grid. *)
Theorem last_day_of_month_has_no_readings :
  exists md' rows,
    V20.process_single_meter_pipeline spring_2024 None sample_rng sample_meter_data
      0 43200 15 = Some (md', rows)
    /\ map V20.timestamp rows = grid_points 15 0 41760 ++ [43200%Z]
    /\ Forall (fun r => V20.status r = "normal"%string) rows
    /\ List.length rows = 2786%nat
    /\ List.length (grid_points 15 0 43200) = 2881%nat
    /\ (forall t, (41760 < t < 43200)%Z -> ~ In t (map V20.timestamp rows))
    /\ ((0 <= 41775 <= 43200)%Z /\ ((41775 - 0) mod 15 = 0)%Z
        /\ In 41775%Z (grid_points 15 0 43200)
        /\ ~ In 41775%Z (map V20.timestamp rows)).
Proof.
  assert (H1 : (0 < 15)%Z) by reflexivity.
  assert (H2 : forall t, (t < spring_2024 t)%Z).
  { intros t. unfold spring_2024. destruct (t <? 43200)%Z; lia. }
  assert (H3 : consumption_nonneg None sample_rng sample_meter_data).
  { split; [discriminate | ]. intros n. split; discriminate. }
  unfold V20.process_single_meter_pipeline.
  destruct (v20_month_loop_readings spring_2024 None sample_rng 15 43200 H1 H2
              (Z.to_nat (43200 - 0 + 1)) sample_meter_data 0%nat 0%Z H3 (le_n _))
    as (md' & rows & Hrun & Hpts & Hnormal & _).
  exists md', rows.
  assert (Hw : V20.month_windows (Z.to_nat (43200 - 0 + 1)) spring_2024 43200 0
               = [(0, 41760); (43200, 43200)]%Z) by (vm_compute; reflexivity).
  rewrite Hw in Hpts. cbn [flat_map fst snd] in Hpts.
  assert (Hlast : grid_points 15 43200 43200 = [43200%Z]) by (vm_compute; reflexivity).
  rewrite Hlast, app_nil_r in Hpts.
  assert (Hgap : forall t, (41760 < t < 43200)%Z -> ~ In t (map V20.timestamp rows)).
  { intros t Ht Hin. rewrite Hpts in Hin. apply in_app_or in Hin.
    destruct Hin as [Hin | [Hin | []]]; [ | lia].
    apply (grid_points_spec 15 0 41760 t H1) in Hin. lia. }
  split; [exact Hrun | split; [exact Hpts | split; [exact Hnormal | ]]].
  split.
  { rewrite <- (length_map V20.timestamp), Hpts, length_app.
    unfold grid_points. rewrite length_map, length_seq. vm_compute. reflexivity. }
  split.
  { unfold grid_points. rewrite length_map, length_seq. vm_compute. reflexivity. }
  split; [exact Hgap | ].
  split; [lia | split; [reflexivity | split]].
  - apply (grid_points_spec 15 0 43200 41775 H1). split; [lia | reflexivity].
  - apply Hgap. lia.
Qed.

(** * Further properties of the generators *)

(** ** Slab charges *)

Lemma slab_loop_nothing_left (slabs : slab_table) (remaining v : Q) :
  remaining <= 0 -> slab_loop slabs remaining v = v.
Proof.
  intros H. destruct slabs as [ | [lim rate] rest]; cbn; [reflexivity | ].
  apply leb_le in H. rewrite H. reflexivity.
Qed.

Lemma min_limit_range (remaining : Q) (lim : limit) :
  0 < remaining ->
  match lim with Units u => 0 < u | Unbounded => True end ->
  0 < min_limit remaining lim <= remaining.
Proof.
  intros Hr Hl. destruct lim as [u | ]; cbn; [ | split; lra].
  unfold Num.py_min. destruct (Num.ltb u remaining) eqn:E.
  - apply ltb_lt in E. split; lra.
  - split; lra.
Qed.

Lemma slab_loop_upper (hi : Q) (slabs : slab_table) :
  forall lo remaining v,
    rates_between lo hi slabs -> 0 <= hi -> 0 <= remaining ->
    slab_loop slabs remaining v <= v + hi * remaining.
Proof.
  induction slabs as [ | [lim rate] rest IH]; intros lo remaining v Hr Hhi Hrem; cbn.
  - assert (0 <= hi * remaining) by (apply Qmult_le_0_compat; assumption). lra.
  - inversion Hr as [ | ? ? [[Hlo Hup] Hpos] Hrest]; subst. cbn in Hlo, Hup, Hpos.
    destruct (Num.leb remaining 0) eqn:E.
    + assert (0 <= hi * remaining) by (apply Qmult_le_0_compat; assumption). lra.
    + apply leb_gt in E.
      destruct (min_limit_range remaining lim E Hpos) as [Hu0 Hu1].
      set (u := min_limit remaining lim) in *.
      pose proof (IH lo (remaining - u) (v + u * rate) Hrest Hhi ltac:(lra)) as H.
      assert (0 <= u * (hi - rate)) by (apply Qmult_le_0_compat; lra).
      lra.
Qed.

Lemma slab_loop_lower (lo : Q) (slabs : slab_table) :
  forall hi remaining v,
    rates_between lo hi slabs -> reaches_unbounded slabs -> 0 <= remaining ->
    v + lo * remaining <= slab_loop slabs remaining v.
Proof.
  induction slabs as [ | [lim rate] rest IH]; intros hi remaining v Hr Hc Hrem; cbn.
  - destruct Hc.
  - inversion Hr as [ | ? ? [[Hlo Hup] Hpos] Hrest]; subst. cbn in Hlo, Hup, Hpos.
    destruct (Num.leb remaining 0) eqn:E.
    + apply leb_le in E. assert (Hz : remaining == 0) by lra. rewrite Hz. lra.
    + apply leb_gt in E.
      destruct (min_limit_range remaining lim E Hpos) as [Hu0 Hu1].
      destruct lim as [u | ].
      * cbn in Hc. set (w := min_limit remaining (Units u)) in *.
        pose proof (IH hi (remaining - w) (v + w * rate) Hrest Hc ltac:(lra)) as H.
        assert (0 <= w * (rate - lo)) by (apply Qmult_le_0_compat; lra).
        lra.
      * cbn [min_limit] in *.
        rewrite slab_loop_nothing_left by lra.
        assert (0 <= remaining * (rate - lo)) by (apply Qmult_le_0_compat; lra).
        lra.
Qed.

Lemma tariff_tables_closed (tariff : string) (load : Q) :
  (rates_between 5.79 21 (fst (V11.tariff_rates tariff load))
   /\ reaches_unbounded (fst (V11.tariff_rates tariff load)))
  /\ (rates_between 5.79 21 (fst (V12.tariff_rates tariff load))
      /\ reaches_unbounded (fst (V12.tariff_rates tariff load))).
Proof.
  unfold V11.tariff_rates, V12.tariff_rates.
  repeat (match goal with
          | |- context [if Num.contains ?a ?b then _ else _] => destruct (Num.contains a b)
          end);
    cbn [fst]; repeat apply conj;
    try exact I; repeat constructor; try discriminate; try reflexivity.
Qed.

(** X1.  Whatever the tariff, [calculate_bill] (v1.1) and [_calculate_bill]
    (v1.2) charge every unit of a non-negative consumption at a rate between
    5.79 and 21.00, so the variable charge lies between 5.79 and 21 times the
    consumption; a consumption that is zero or negative is charged nothing. *)
Theorem variable_charge_bounds (c : Q) (tariff : string) (load : Q) :
  (c <= 0 -> V11.variable_of c tariff load = 0 /\ V12.variable_of c tariff load = 0)
  /\ (0 <= c ->
      5.79 * c <= V11.variable_of c tariff load <= 21 * c
      /\ 5.79 * c <= V12.variable_of c tariff load <= 21 * c).
Proof.
  destruct (tariff_tables_closed tariff load) as [[R1 C1] [R2 C2]].
  unfold V11.variable_of, V12.variable_of. split.
  - intros H. split; apply slab_loop_nothing_left, H.
  - intros H.
    pose proof (slab_loop_upper 21 _ _ c 0 R1 ltac:(discriminate) H).
    pose proof (slab_loop_lower 5.79 _ _ c 0 R1 C1 H).
    pose proof (slab_loop_upper 21 _ _ c 0 R2 ltac:(discriminate) H).
    pose proof (slab_loop_lower 5.79 _ _ c 0 R2 C2 H).
    repeat apply conj; lra.
Qed.

Lemma variable_charge_bounds_witness :
  0 <= 250
  /\ 5.79 * 250 <= V11.variable_of 250 "A-1" 3 <= 21 * 250.
Proof.
  assert (H : 0 <= 250) by discriminate.
  split; [exact H | ].
  exact (proj1 (proj2 (variable_charge_bounds 250 "A-1" 3) H)).
Defined.

(** ** Bill amounts *)

Lemma round_zero (n : nat) : Num.round 0 n == 0.
Proof. apply round_of_decimal. exists 0%Z. pose proof (scale_pos n). field. lra. Qed.

Lemma round_nonneg (x : Q) (n : nat) : 0 <= x -> 0 <= Num.round x n.
Proof. intros H. rewrite <- (round_zero n). apply round_mono, H. Qed.

Lemma variable_nonneg (c : Q) (tariff : string) (load : Q) :
  0 <= V11.variable_of c tariff load /\ 0 <= V12.variable_of c tariff load.
Proof.
  destruct (tariff_tables_closed tariff load) as [[R1 C1] [R2 C2]].
  unfold V11.variable_of, V12.variable_of.
  destruct (Qlt_le_dec c 0) as [Hneg | Hpos].
  - rewrite !slab_loop_nothing_left by lra. split; lra.
  - pose proof (slab_loop_lower 5.79 _ _ c 0 R1 C1 Hpos).
    pose proof (slab_loop_lower 5.79 _ _ c 0 R2 C2 Hpos).
    split; lra.
Qed.

Lemma fixed_nonneg (tariff : string) (load : Q) :
  0 <= load -> 0 <= V11.fixed_of tariff load /\ 0 <= V12.fixed_of tariff load.
Proof.
  intros H. unfold V11.fixed_of, V12.fixed_of, V11.tariff_rates, V12.tariff_rates.
  repeat (match goal with
          | |- context [if Num.contains ?a ?b then _ else _] => destruct (Num.contains a b)
          end);
    cbn [snd]; destruct (Num.ltb load 5); split; lra.
Qed.

(** X2.  For a connected load that is not negative, every amount stored on a
    v1.1 or v1.2 bill is non-negative, the total is at least the variable
    charge, the amount within the due date is the total and the amount after
    the due date is not below it.  The v1.1 bill is due 14 days after its
    issue date; the v1.2 bill, issued 5 days before the 25th, 19 days after. *)
Theorem bill_amounts_nonnegative (c : Q) (tariff : string) (load : Q) (month : string)
    (day : Z) (d : bill_draws) (Hload : 0 <= load) :
  Forall (fun b =>
            0 <= variable_charges b /\ 0 <= fixed_charges b /\ 0 <= gst b
            /\ 0 <= electricity_duty b /\ 0 <= tv_fee b /\ 0 <= late_payment_surcharge b
            /\ variable_charges b <= total_amount b
            /\ amount_within_due_date b = total_amount b
            /\ total_amount b <= amount_after_due_date b)
         [V11.calculate_bill c tariff load month day d;
          V12._calculate_bill c tariff load month day d]
  /\ due_date (V11.calculate_bill c tariff load month day d)
     = (issue_date (V11.calculate_bill c tariff load month day d) + 14)%Z
  /\ due_date (V12._calculate_bill c tariff load month day d)
     = (issue_date (V12._calculate_bill c tariff load month day d) + 19)%Z.
Proof.
  destruct (variable_nonneg c tariff load) as [Hv1 Hv2].
  destruct (fixed_nonneg tariff load Hload) as [Hf1 Hf2].
  assert (Htv : 0 <= V11.tv_fee_of d)
    by (unfold V11.tv_fee_of; destruct (Num.gtb (tv_draw d) 0.7); discriminate).
  split; [ | split; [reflexivity | cbn; lia]].
  constructor; [ | constructor; [ | constructor]].
  - unfold V11.calculate_bill.
    cbn [variable_charges fixed_charges gst electricity_duty tv_fee
         late_payment_surcharge total_amount amount_within_due_date amount_after_due_date].
    set (v := V11.variable_of c tariff load) in *.
    set (f := V11.fixed_of tariff load) in *.
    assert (Hl : 0 <= V11.late_of d v f)
      by (unfold V11.late_of; destruct (Num.gtb (late_draw d) 0.9); lra).
    assert (Hg : 0 <= V11.gst_of v f) by (unfold V11.gst_of; lra).
    assert (Hd : 0 <= V11.duty_of v) by (unfold V11.duty_of; lra).
    repeat apply conj; try (apply round_nonneg; assumption); try reflexivity;
      apply round_mono; lra.
  - unfold V12._calculate_bill.
    cbn [variable_charges fixed_charges gst electricity_duty tv_fee
         late_payment_surcharge total_amount amount_within_due_date amount_after_due_date].
    set (v := V12.variable_of c tariff load) in *.
    set (f := V12.fixed_of tariff load) in *.
    assert (Hl : 0 <= V12.late_of d v f)
      by (unfold V12.late_of; destruct (Num.gtb (late_draw d) 0.1); lra).
    repeat apply conj; try (apply round_nonneg; lra); try reflexivity;
      apply round_mono; lra.
Qed.

Lemma bill_amounts_nonnegative_witness :
  0 <= 3
  /\ 0 <= total_amount (V11.calculate_bill 250 "A-1" 3 "JAN 24" 24 (mkBillDraws 0 0))
  /\ total_amount (V11.calculate_bill 250 "A-1" 3 "JAN 24" 24 (mkBillDraws 0 0))
     <= amount_after_due_date (V11.calculate_bill 250 "A-1" 3 "JAN 24" 24 (mkBillDraws 0 0)).
Proof.
  assert (H : 0 <= 3) by discriminate.
  split; [exact H | ].
  pose proof (proj1 (bill_amounts_nonnegative 250 "A-1" 3 "JAN 24" 24 (mkBillDraws 0 0) H))
    as Hall.
  inversion Hall as [ | b l (Hv & _ & _ & _ & _ & _ & Hvt & _ & Hta) _]; subst.
  split; [eapply Qle_trans; eassumption | exact Hta].
Defined.

(** ** Data-quality flags *)

Ltac flag_band_side H :=
  match type of H with
  | _ /\ _ => destruct H; first [reflexivity | exfalso; lra]
  | @eq quality_flag _ _ =>
      first [ discriminate H
            | match goal with
              | |- _ /\ _ => split; lra
              | |- _ => lra
              end ]
  | _ => first [reflexivity | exfalso; lra]
  end.

Ltac flag_band_leaf :=
  repeat apply conj; intros H; flag_band_side H.

Lemma v11_flag_bands_aux (rv : Q) :
  (V11._determine_quality_flag rv = MissingReading <-> rv < 0.02)
  /\ (V11._determine_quality_flag rv = NegativeReading <-> 0.02 <= rv /\ rv < 0.025)
  /\ (V11._determine_quality_flag rv = ZeroReading <-> 0.025 <= rv /\ rv < 0.035)
  /\ (V11._determine_quality_flag rv = AbnormalSpike <-> 0.035 <= rv /\ rv < 0.045)
  /\ (V11._determine_quality_flag rv = VoltageSag <-> 0.045 <= rv /\ rv < 0.06)
  /\ (V11._determine_quality_flag rv = FrequencyVariation <-> 0.06 <= rv /\ rv < 0.07)
  /\ (V11._determine_quality_flag rv = SignalDrop <-> 0.07 <= rv /\ rv < 0.09)
  /\ (V11._determine_quality_flag rv = BatteryFault <-> 0.09 <= rv /\ rv < 0.095)
  /\ (V11._determine_quality_flag rv = Normal <-> 0.095 <= rv).
Proof.
  unfold V11._determine_quality_flag, V11.issue_probabilities, scan_issues.
  repeat (match goal with
          | |- context [if Num.ltb ?a ?b then _ else _] =>
              let E := fresh "E" in
              destruct (Num.ltb a b) eqn:E;
              [apply ltb_lt in E | apply ltb_ge in E]
          end); flag_band_leaf.
Qed.

Lemma v12_flag_bands_aux (rv : Q) :
  let flag := scan_issues V12.issue_probabilities 0 rv in
  (flag = MissingReading <-> rv < 0.02)
  /\ (flag = NegativeReading <-> 0.02 <= rv /\ rv < 0.025)
  /\ (flag = ZeroReading <-> 0.025 <= rv /\ rv < 0.035)
  /\ (flag = AbnormalSpike <-> 0.035 <= rv /\ rv < 0.045)
  /\ (flag = VoltageSag <-> 0.045 <= rv /\ rv < 0.06)
  /\ (flag = FrequencyVariation <-> 0.06 <= rv /\ rv < 0.07)
  /\ (flag = SignalDrop <-> 0.07 <= rv /\ rv < 0.09)
  /\ (flag = BatteryFault <-> 0.09 <= rv /\ rv < 0.095)
  /\ (flag = MeterTamper <-> 0.095 <= rv /\ rv < 0.098)
  /\ (flag = ReverseEnergy <-> 0.098 <= rv /\ rv < 0.1)
  /\ (flag = Normal <-> 0.1 <= rv).
Proof.
  cbv zeta. unfold V12.issue_probabilities, scan_issues.
  repeat (match goal with
          | |- context [if Num.ltb ?a ?b then _ else _] =>
              let E := fresh "E" in
              destruct (Num.ltb a b) eqn:E;
              [apply ltb_lt in E | apply ltb_ge in E]
          end); flag_band_leaf.
Qed.

Lemma v12_apply_flag (rv c cum prev v f s b : Q) :
  V12.a_flag (V12._apply_data_quality_issues rv c cum prev v f s b)
  = scan_issues V12.issue_probabilities 0 rv.
Proof.
  unfold V12._apply_data_quality_issues.
  destruct (scan_issues V12.issue_probabilities 0 rv); reflexivity.
Qed.

(** X4.  The defect draw is classified into exactly one flag, by consecutive
    bands: in v1.1, Missing Reading below 0.02, Negative Reading up to
    0.025, Zero Reading up to 0.035, Abnormal Spike up to 0.045, Voltage Sag up
    to 0.06, Frequency Variation up to 0.07, Signal Drop up to 0.09, Battery
    Fault up to 0.095 and Normal from 0.095 on, and never Meter Tamper or
    Reverse Energy; v1.2 has the same bands followed by Meter Tamper up to
    0.098 and Reverse Energy up to 0.1, and Normal from 0.1 on. *)
Theorem quality_flag_bands (rv : Q) :
  ((V11._determine_quality_flag rv = MissingReading <-> rv < 0.02)
   /\ (V11._determine_quality_flag rv = NegativeReading <-> 0.02 <= rv /\ rv < 0.025)
   /\ (V11._determine_quality_flag rv = ZeroReading <-> 0.025 <= rv /\ rv < 0.035)
   /\ (V11._determine_quality_flag rv = AbnormalSpike <-> 0.035 <= rv /\ rv < 0.045)
   /\ (V11._determine_quality_flag rv = VoltageSag <-> 0.045 <= rv /\ rv < 0.06)
   /\ (V11._determine_quality_flag rv = FrequencyVariation <-> 0.06 <= rv /\ rv < 0.07)
   /\ (V11._determine_quality_flag rv = SignalDrop <-> 0.07 <= rv /\ rv < 0.09)
   /\ (V11._determine_quality_flag rv = BatteryFault <-> 0.09 <= rv /\ rv < 0.095)
   /\ (V11._determine_quality_flag rv = Normal <-> 0.095 <= rv)
   /\ V11._determine_quality_flag rv <> MeterTamper
   /\ V11._determine_quality_flag rv <> ReverseEnergy)
  /\ (forall c cum prev v f s b,
        let flag := V12.a_flag (V12._apply_data_quality_issues rv c cum prev v f s b) in
        (flag = MissingReading <-> rv < 0.02)
        /\ (flag = NegativeReading <-> 0.02 <= rv /\ rv < 0.025)
        /\ (flag = ZeroReading <-> 0.025 <= rv /\ rv < 0.035)
        /\ (flag = AbnormalSpike <-> 0.035 <= rv /\ rv < 0.045)
        /\ (flag = VoltageSag <-> 0.045 <= rv /\ rv < 0.06)
        /\ (flag = FrequencyVariation <-> 0.06 <= rv /\ rv < 0.07)
        /\ (flag = SignalDrop <-> 0.07 <= rv /\ rv < 0.09)
        /\ (flag = BatteryFault <-> 0.09 <= rv /\ rv < 0.095)
        /\ (flag = MeterTamper <-> 0.095 <= rv /\ rv < 0.098)
        /\ (flag = ReverseEnergy <-> 0.098 <= rv /\ rv < 0.1)
        /\ (flag = Normal <-> 0.1 <= rv)).
Proof.
  split.
  - destruct (v11_flag_bands_aux rv) as (H1 & H2 & H3 & H4 & H5 & H6 & H7 & H8 & H9).
    do 9 (split; [assumption | ]).
    unfold V11._determine_quality_flag, V11.issue_probabilities, scan_issues.
    repeat (match goal with
            | |- context [if Num.ltb ?a ?b then _ else _] => destruct (Num.ltb a b)
            end); split; discriminate.
  - intros c cum prev v f s b. cbv zeta. rewrite v12_apply_flag.
    apply v12_flag_bands_aux.
Qed.

Lemma round_between (a b x : Q) (n : nat) :
  decimal n a -> decimal n b -> a <= x <= b -> a <= Num.round x n <= b.
Proof.
  intros Ha Hb [H1 H2]. split.
  - rewrite <- (round_of_decimal a n Ha). apply round_mono, H1.
  - rewrite <- (round_of_decimal b n Hb). apply round_mono, H2.
Qed.

Lemma decimal_of_Z (n : nat) (z : Z) : decimal n (inject_Z z).
Proof.
  exists (z * 10 ^ Z.of_nat n)%Z. unfold Num.scale. pose proof (scale_pos n) as H.
  unfold Num.scale in H. rewrite inject_Z_mult. field. lra.
Qed.

(** ** Rows of the v1.1 reading generator *)

(** The band of the draw, read back from the flag it produced. *)
Ltac flag_to_band Hx B :=
  destruct B as (B1 & B2 & B3 & B4 & B5 & B6 & B7 & B8 & B9);
  first [ apply B1 in Hx | apply B2 in Hx | apply B3 in Hx | apply B4 in Hx
        | apply B5 in Hx | apply B6 in Hx | apply B7 in Hx | apply B8 in Hx
        | apply B9 in Hx ];
  match type of Hx with
  | _ /\ _ => destruct Hx
  | _ => idtac
  end.

(** X5.  In the v1.1 generator the fields of an emitted row agree with its
    flag (unit draws in range): no row is flagged Missing Reading; a Zero
    Reading row reports an interval consumption of 0; a Negative Reading row
    reports a consumption that is not positive and every other row one that
    is not negative; the voltage of a Voltage Sag row lies in [160, 200], the
    frequency of a Frequency Variation row in [47, 53], the signal strength of
    a Signal Drop row in [-110, -90] and the battery voltage of a Battery
    Fault row in [2.5, 3.0]. *)
Theorem v11_row_agrees_with_flag (meter tariff : string) (st st' : registers)
    (ts : timestamp) (d : reading_draws) (r : reading)
    (Hdraws : valid_draws d)
    (Hstep : V11.reading_step meter tariff st ts d = Some (st', Some r)) :
  data_quality_flag r <> MissingReading
  /\ (data_quality_flag r = ZeroReading -> energy_consumed_kwh r == 0)
  /\ (data_quality_flag r = NegativeReading -> energy_consumed_kwh r <= 0)
  /\ (data_quality_flag r <> NegativeReading -> 0 <= energy_consumed_kwh r)
  /\ (data_quality_flag r = VoltageSag -> 160 <= voltage_v r <= 200)
  /\ (data_quality_flag r = FrequencyVariation -> 47 <= frequency_hz r <= 53)
  /\ (data_quality_flag r = SignalDrop -> -110 <= signal_strength_dbm r <= -90)
  /\ (data_quality_flag r = BatteryFault -> 2.5 <= battery_voltage_v r <= 3.0).
Proof.
  pose proof (v11_flag_bands_aux (rand_val d)) as B.
  unfold V11.reading_step in Hstep.
  destruct (V11.draw_consumption tariff ts d) as [c | ] eqn:Hc; [ | discriminate].
  apply (v11_consumption_nonneg _ _ _ _ Hdraws) in Hc.
  destruct (Qeq_bool _ 0); [discriminate | ].
  destruct Hdraws as (_ & _ & _ & Hi).
  pose proof (uniform_range 5 10 _ ltac:(discriminate) Hi) as U1.
  pose proof (uniform_range 160 200 _ ltac:(discriminate) Hi) as U2.
  pose proof (uniform_range 47 53 _ ltac:(discriminate) Hi) as U3.
  pose proof (uniform_range (-110) (-90) _ ltac:(discriminate) Hi) as U4.
  pose proof (uniform_range 2.5 3.0 _ ltac:(discriminate) Hi) as U5.
  assert (Hspike : 0 <= c * uniform 5 10 (r_issue d))
    by (apply Qmult_le_0_compat; lra).
  assert (D1 : forall z : Z, decimal 1 (inject_Z z)) by (intros; apply decimal_of_Z).
  assert (D25 : decimal 2 2.5) by (exists 250%Z; reflexivity).
  assert (D30 : decimal 2 3.0) by (exists 300%Z; reflexivity).
  assert (D2 : forall z : Z, decimal 2 (inject_Z z)) by (intros; apply decimal_of_Z).
  cbv zeta in Hstep.
  repeat (match type of Hstep with
          | context [if Num.ltb ?a ?b then _ else _] =>
              let E := fresh "E" in
              destruct (Num.ltb a b) eqn:E;
              [apply ltb_lt in E | apply ltb_ge in E]; v11_thresholds E
          end);
    try discriminate Hstep;
    injection Hstep as <- <-;
    cbn [data_quality_flag energy_consumed_kwh voltage_v frequency_hz
         signal_strength_dbm battery_voltage_v];
    (split; [intros Hx; flag_to_band Hx B; lra | ]);
    (split; [intros Hx; first [apply round_zero | flag_to_band Hx B; exfalso; lra] | ]);
    (split; [intros Hx;
             first [ rewrite <- (round_zero 3); apply round_mono; lra
                   | flag_to_band Hx B; exfalso; lra ] | ]);
    (split; [intros Hx;
             first [ apply round_nonneg; first [assumption | lra]
                   | exfalso; apply Hx;
                     destruct B as (_ & B2 & _); apply B2; split; lra ] | ]);
    (split; [intros Hx;
             first [ apply round_between; [apply (D1 160%Z) | apply (D1 200%Z) | exact U2]
                   | flag_to_band Hx B; exfalso; lra ] | ]);
    (split; [intros Hx;
             first [ apply round_between; [apply (D2 47%Z) | apply (D2 53%Z) | exact U3]
                   | flag_to_band Hx B; exfalso; lra ] | ]);
    (split; [intros Hx;
             first [ apply round_between;
                     [apply (D1 (-110)%Z) | apply (D1 (-90)%Z) | exact U4]
                   | flag_to_band Hx B; exfalso; lra ] | ]);
    (intros Hx;
     first [ apply round_between; [exact D25 | exact D30 | exact U5]
           | flag_to_band Hx B; exfalso; lra ]).
Qed.

Lemma v11_row_agrees_with_flag_witness :
  valid_draws (sample_draws 0 0.5)
  /\ exists st' r,
       V11.reading_step "10000000001" "A-1a" (mkRegs 0 0) (mkTs 0 0 1 0) (sample_draws 0 0.5)
       = Some (st', Some r)
       /\ data_quality_flag r <> MissingReading.
Proof.
  assert (Hd : valid_draws (sample_draws 0 0.5)) by (repeat split; discriminate).
  split; [exact Hd | ].
  destruct (V11.reading_step "10000000001" "A-1a" (mkRegs 0 0) (mkTs 0 0 1 0)
              (sample_draws 0 0.5)) as [[st' [r | ]] | ] eqn:Hstep;
    try (vm_compute in Hstep; discriminate Hstep).
  exists st', r. split; [reflexivity | ].
  exact (proj1 (v11_row_agrees_with_flag _ _ _ _ _ _ _ Hd Hstep)).
Defined.

Lemma v11_step_outcome (meter tariff : string) (st st' : registers) (ts : timestamp)
    (d : reading_draws) (out : option reading) :
  V11.reading_step meter tariff st ts d = Some (st', out) ->
  match out with
  | None => Num.ltb (rand_val d) 0.02 = true
  | Some r => Num.ltb (rand_val d) 0.02 = false /\ r_timestamp r = ts /\ meter_number r = meter
  end.
Proof.
  unfold V11.reading_step.
  destruct (V11.draw_consumption tariff ts d) as [c | ]; [ | discriminate].
  destruct (Qeq_bool _ 0); [discriminate | ].
  cbv zeta. change (V11.prob MissingReading) with 0.02.
  destruct (Num.ltb (rand_val d) 0.02).
  - intros [= <- <-]. reflexivity.
  - repeat (match goal with
            | |- context [if Num.ltb ?a ?b then _ else _] => destruct (Num.ltb a b)
            end); intros [= <- <-]; cbn; auto.
Qed.

(** X6.  The v1.1 generator, when it returns, has emitted one row for each
    timestamp of the grid whose defect draw is not in the missing band (not
    below 0.02), in grid order, and no other row; every row carries the
    number of the meter. *)
Theorem v11_rows_are_the_unsuppressed_timestamps (meter tariff : string)
    (grid : list (timestamp * reading_draws)) (rows : list reading)
    (Hrun : V11.generate_readings meter tariff grid = Some rows) :
  map r_timestamp rows
  = map fst (filter (fun td => negb (Num.ltb (rand_val (snd td)) 0.02)) grid)
  /\ Forall (fun r => meter_number r = meter) rows.
Proof.
  unfold V11.generate_readings in Hrun. revert rows Hrun. generalize (mkRegs 0 0).
  induction grid as [ | [ts d] rest IH]; intros st rows Hrun.
  - cbn in Hrun. injection Hrun as <-. split; [reflexivity | constructor].
  - cbn [V11.timestamp_loop] in Hrun.
    destruct (V11.reading_step meter tariff st ts d) as [[st1 out] | ] eqn:Hstep;
      [ | discriminate].
    pose proof (v11_step_outcome _ _ _ _ _ _ _ Hstep) as Hout.
    destruct (V11.timestamp_loop meter tariff st1 rest) as [[st2 rows2] | ] eqn:Hrest;
      [ | discriminate].
    cbn in Hrun. injection Hrun as <-.
    destruct (IH st1 rows2) as [IH1 IH2]; [rewrite Hrest; reflexivity | ].
    cbn [filter snd]. destruct out as [r | ].
    + destruct Hout as (E & Ht & Hm). rewrite E. cbn. rewrite Ht, IH1.
      split; [reflexivity | constructor; assumption].
    + rewrite Hout. cbn. split; assumption.
Qed.

Lemma v11_rows_are_the_unsuppressed_timestamps_witness :
  exists rows,
    V11.generate_readings "10000000001" "A-1a" sample_grid = Some rows
    /\ map (fun r => time (r_timestamp r)) rows = [0; 15; 30]%Z.
Proof.
  destruct (V11.generate_readings "10000000001" "A-1a" sample_grid) as [rows | ] eqn:Hrun;
    [ | vm_compute in Hrun; discriminate Hrun].
  exists rows. split; [reflexivity | ].
  rewrite <- (map_map r_timestamp time).
  rewrite (proj1 (v11_rows_are_the_unsuppressed_timestamps _ _ _ _ Hrun)).
  reflexivity.
Defined.

Lemma multiplier_of_none (m : Z) :
  V11.multiplier_of m = None <-> ~ (1 <= m <= 12)%Z.
Proof.
  unfold V11.multiplier_of, V11.monthly_multiplier. cbn [find fst].
  repeat (match goal with
          | |- context [Z.eqb ?a m] => destruct (Z.eqb_spec a m)
          end); cbn; split; intros H; first [discriminate | lia | reflexivity].
Qed.

Lemma v11_step_raises (meter tariff : string) (st : registers) (ts : timestamp)
    (d : reading_draws) :
  V11.reading_step meter tariff st ts d = None
  <-> ~ (1 <= month ts <= 12)%Z \/ gauss 230 10 (z_voltage d) == 0.
Proof.
  unfold V11.reading_step, V11.draw_consumption.
  destruct (V11.bands tariff) as [[[base_min base_max] peak_min] peak_max].
  destruct (V11.multiplier_of (month ts)) as [mm | ] eqn:Hm.
  - assert (Hmonth : (1 <= month ts <= 12)%Z).
    { destruct (Z_le_dec 1 (month ts)); [destruct (Z_le_dec (month ts) 12); [lia | ] | ];
        exfalso; assert (Hn : V11.multiplier_of (month ts) = None)
          by (apply multiplier_of_none; lia); congruence. }
    destruct (Qeq_bool _ 0) eqn:Ev.
    + apply Qeq_bool_iff in Ev. split; [right; exact Ev | reflexivity].
    + assert (Hv : ~ gauss 230 10 (z_voltage d) == 0)
        by (intros H; apply Qeq_bool_iff in H; congruence).
      cbv zeta.
      repeat (match goal with
              | |- context [if Num.ltb ?a ?b then _ else _] => destruct (Num.ltb a b)
              end); (split; [discriminate | intros [H | H]; contradiction]).
  - apply multiplier_of_none in Hm. split; [left; exact Hm | reflexivity].
Qed.

(** X7.  The v1.1 timestamp loop raises exactly when some timestamp of the
    grid has a month that is not a key of the seasonal table (a month
    outside 1..12) or a drawn voltage equal to zero, by which the current is
    divided; with months in range and non-zero voltages it returns its rows. *)
Theorem v11_generate_readings_raises_iff (meter tariff : string)
    (grid : list (timestamp * reading_draws)) :
  V11.generate_readings meter tariff grid = None
  <-> Exists (fun td => ~ (1 <= month (fst td) <= 12)%Z
                        \/ gauss 230 10 (z_voltage (snd td)) == 0) grid.
Proof.
  unfold V11.generate_readings. generalize (mkRegs 0 0).
  induction grid as [ | [ts d] rest IH]; intros st.
  - cbn. split; [discriminate | intros H; inversion H].
  - cbn [V11.timestamp_loop].
    destruct (V11.reading_step meter tariff st ts d) as [[st1 out] | ] eqn:Hstep.
    + assert (Hok : ~ (~ (1 <= month ts <= 12)%Z \/ gauss 230 10 (z_voltage d) == 0)).
      { intros H. apply v11_step_raises with (meter := meter) (tariff := tariff) (st := st) in H.
        congruence. }
      specialize (IH st1).
      destruct (V11.timestamp_loop meter tariff st1 rest) as [[st2 rows2] | ].
      * cbn in *. split; [discriminate | ].
        intros H. inversion H as [? ? Hbad | ? ? Hlater]; subst;
          [contradiction | apply IH in Hlater; discriminate].
      * cbn in *. split; [intros _; apply Exists_cons_tl, IH; reflexivity | reflexivity].
    + cbn. split; [intros _ | reflexivity].
      apply Exists_cons_hd. cbn [fst snd]. apply (v11_step_raises meter tariff st), Hstep.
Qed.

(** ** The upgrade block *)

Lemma find_upgrade_ratio (old : Q) :
  0 < old ->
  let new := find_upgrade distribution_types old in
  old < new /\ new <= 2 * old /\ 1 # 2 <= old / new /\ old / new <= 3 # 4.
Proof.
  intros Hold. cbv zeta. unfold find_upgrade, distribution_types.
  repeat (match goal with
          | |- context [Qeq_bool ?a old] =>
              let E := fresh "E" in
              destruct (Qeq_bool a old) eqn:E; [apply Qeq_bool_iff in E | clear E]
          end).
  all: try (rewrite <- E; repeat apply conj; reflexivity || discriminate).
  assert (R : old / (old * 1.5) == 2 # 3) by (field; lra).
  rewrite R. repeat apply conj; try lra; discriminate.
Qed.

(** X8.  The upgrade block shared by the v1.2 and v1.3 monthly steps, applied
    to a transformer of positive rating, strictly raises the rating and at
    most doubles it, and rescales the utilisation to between one half and
    three quarters of what it was.  A transformer whose utilisation was at
    most 100 is therefore no longer overloaded (above 85) afterwards, and is
    selected by neither version again; its identifier, type, phase and
    consumer count are unchanged and its upgrade history grows by one entry. *)
Theorem upgrade_relieves_overload (current_date : Z) (t : transformer)
    (Hrating : 0 < rating_kva t)
    (Hutil : 0 <= capacity_utilization_pct t <= 100) :
  let t' := fst (upgrade current_date t) in
  rating_kva t < rating_kva t' <= 2 * rating_kva t
  /\ (1 # 2) * capacity_utilization_pct t <= capacity_utilization_pct t'
     <= (3 # 4) * capacity_utilization_pct t
  /\ V12.overloaded t' = false
  /\ (forall draw, V13.selected t' draw = false)
  /\ transformer_id t' = transformer_id t
  /\ transformer_type t' = transformer_type t
  /\ phase_type t' = phase_type t
  /\ consumers_connected t' = consumers_connected t
  /\ upgrade_date t' = Some current_date
  /\ List.length (upgrade_history t') = S (List.length (upgrade_history t)).
Proof.
  cbv zeta. destruct (find_upgrade_ratio _ Hrating) as (H1 & H2 & H3 & H4).
  destruct Hutil as [Hu0 Hu1].
  unfold upgrade, V12.overloaded, V13.selected.
  cbn [fst rating_kva capacity_utilization_pct transformer_id transformer_type
       phase_type consumers_connected upgrade_date upgrade_history].
  set (new := find_upgrade distribution_types (rating_kva t)) in *.
  set (ratio := rating_kva t / new) in *.
  set (u := capacity_utilization_pct t) in *.
  assert (Hlo : (1 # 2) * u <= u * ratio).
  { rewrite (Qmult_comm u ratio). apply Qmult_le_compat_r; assumption. }
  assert (Hhi : u * ratio <= (3 # 4) * u).
  { rewrite (Qmult_comm u ratio). apply Qmult_le_compat_r; assumption. }
  assert (Hg : Num.gtb (u * ratio) 85 = false) by (apply gtb_le; lra).
  rewrite Hg.
  repeat apply conj; try assumption; try reflexivity.
  - intros draw. destruct (String.eqb _ _); reflexivity.
  - rewrite length_app. cbn. lia.
Qed.

Lemma upgrade_relieves_overload_witness :
  0 < 500 /\ 0 <= 90 <= 100
  /\ capacity_utilization_pct
       (fst (upgrade 0 (mkTransformer "DT-1" "distribution" 500 90 None [] 40 "3-phase")))
     <= (3 # 4) * 90.
Proof.
  assert (Hr : 0 < 500) by reflexivity.
  assert (Hu : 0 <= 90 <= 100) by (split; discriminate).
  split; [exact Hr | split; [exact Hu | ]].
  exact (proj2 (proj1 (proj2
    (upgrade_relieves_overload 0 (mkTransformer "DT-1" "distribution" 500 90 None [] 40 "3-phase")
       Hr Hu)))).
Defined.

(** ** The log of upgrade events *)

Lemma upgrade_fold_events (current_date : Z) (ov : list nat) (orig : list transformer) :
  NoDup ov ->
  forall sample, NoDup sample ->
  forall (cur : list transformer) (events : list upgrade_event),
    (forall k i, In k sample -> nth_error ov k = Some i -> nth_error cur i = nth_error orig i) ->
    Forall (fun k => exists i t, nth_error ov k = Some i /\ nth_error orig i = Some t) sample ->
    exists new,
      snd (fold_left
             (fun (acc : list transformer * list upgrade_event) k =>
                match nth_error ov k with
                | None => acc
                | Some i =>
                    match nth_error (fst acc) i with
                    | None => acc
                    | Some t =>
                        (update_at i (fun t0 => fst (upgrade current_date t0)) (fst acc),
                         snd acc ++ [snd (upgrade current_date t)])
                    end
                end) sample (cur, events)) = events ++ new
      /\ Forall2 (fun k e => exists i t,
                    nth_error ov k = Some i /\ nth_error orig i = Some t
                    /\ e = snd (upgrade current_date t)) sample new.
Proof.
  intros Hov. induction sample as [ | k rest IH]; intros Hs cur events Hcur Hall.
  - exists []. cbn. rewrite app_nil_r. split; [reflexivity | constructor].
  - inversion Hs as [ | ? ? Hk Hrest]; subst.
    inversion Hall as [ | ? ? (i & t & Hi & Ht) Hall']; subst.
    cbn [fold_left fst snd]. rewrite Hi.
    rewrite (Hcur k i (or_introl eq_refl) Hi), Ht.
    destruct (IH Hrest (update_at i (fun t0 => fst (upgrade current_date t0)) cur)
                (events ++ [snd (upgrade current_date t)])) as (new & Hnew & Hrel).
    + intros k' i' Hk' Hi'. rewrite update_at_nth_error.
      destruct (Nat.eqb i' i) eqn:E; [ | apply (Hcur k' i'); [right; assumption | assumption]].
      apply Nat.eqb_eq in E. subst i'. exfalso. apply Hk.
      rewrite NoDup_nth_error in Hov.
      rewrite (Hov k k'); [assumption | apply nth_error_Some; congruence | congruence].
    + assumption.
    + exists (snd (upgrade current_date t) :: new). split.
      * rewrite Hnew, <- app_assoc. reflexivity.
      * constructor; [exists i, t; auto | assumption].
Qed.

Lemma positions_bound {A : Type} (p : A -> bool) (l : list A) (i : nat) :
  In i (positions p l) -> exists x, nth_error l i = Some x /\ p x = true.
Proof. intros H. apply positions_spec in H. exact H. Qed.

(** X9.  Section 4 of the v1.2 monthly step, given a sample of [k] distinct
    overloaded transformers, logs exactly [k] upgrade events; each event
    carries the date of the step and the identifier, the rating before and the
    rating after of a distribution transformer of the list whose utilisation
    was above 85.  The transformers list keeps its length and the identifiers
    in their places. *)
Theorem v12_upgrade_events_log (current_date : Z) (sample : list nat) (k : nat)
    (store : list transformer)
    (Hsample : V12.is_sample sample (List.length (positions V12.overloaded store)) k) :
  let out := V12.transformer_upgrades current_date sample store in
  map transformer_id (fst out) = map transformer_id store
  /\ List.length (snd out) = k
  /\ Forall (fun e =>
               e_date e = current_date
               /\ exists t,
                    In t store
                    /\ 85 < capacity_utilization_pct t
                    /\ transformer_type t = "distribution"%string
                    /\ e_transformer_id e = transformer_id t
                    /\ old_rating_kva e = rating_kva t
                    /\ new_rating_kva e = find_upgrade distribution_types (rating_kva t))
            (snd out).
Proof.
  destruct Hsample as (Hnd & Hin & Hlen). cbv zeta. split; [ | ].
  - apply nth_error_ext. intros j. rewrite !nth_error_map.
    unfold V12.transformer_upgrades.
    rewrite (upgrade_fold_store current_date _ sample (positions_NoDup _ _) Hnd).
    destruct (sampled _ sample j); [ | reflexivity].
    destruct (nth_error store j); reflexivity.
  - unfold V12.transformer_upgrades.
    destruct (upgrade_fold_events current_date (positions V12.overloaded store) store
                (positions_NoDup _ _) sample Hnd store []) as (new & Hnew & Hrel).
    + reflexivity.
    + rewrite Forall_forall in Hin |- *. intros x Hx.
      destruct (nth_error (positions V12.overloaded store) x) as [i | ] eqn:Hi.
      * destruct (positions_bound _ _ _ (nth_error_In _ _ Hi)) as (t & Ht & _).
        exists i, t. auto.
      * apply nth_error_None in Hi. specialize (Hin x Hx). lia.
    + rewrite Hnew. cbn [app]. split.
      * rewrite <- (Forall2_length Hrel). exact Hlen.
      * clear Hnew Hnd Hin Hlen. induction Hrel as [ | x e l l' (i & t & Hi & Ht & He) _ IH];
          [constructor | ].
        constructor; [ | apply IH].
        destruct (positions_bound _ _ _ (nth_error_In _ _ Hi)) as (t' & Ht' & Hp).
        assert (t' = t) by congruence. subst t' e.
        unfold V12.overloaded in Hp. apply andb_true_iff in Hp. destruct Hp as [Hp1 Hp2].
        split; [reflexivity | ]. exists t.
        split; [apply (nth_error_In _ _ Ht) | ].
        split; [apply gtb_gt, Hp1 | ].
        split; [apply String.eqb_eq, Hp2 | ].
        repeat split.
Qed.

Lemma v12_upgrade_events_log_witness :
  V12.is_sample [0%nat] (List.length (positions V12.overloaded sample_transformers)) 1
  /\ List.length (snd (V12.transformer_upgrades 0 [0%nat] sample_transformers)) = 1%nat.
Proof.
  assert (Hs : V12.is_sample [0%nat]
                 (List.length (positions V12.overloaded sample_transformers)) 1).
  { repeat split.
    - repeat constructor. intros [].
    - repeat constructor.
  }
  split; [exact Hs | ].
  exact (proj1 (proj2 (v12_upgrade_events_log 0 [0%nat] 1 sample_transformers Hs))).
Defined.

Lemma v13_upgrade_loop_events (current_date : Z) (draws : nat -> Q) (store : list transformer) :
  forall i,
    snd (V13.upgrade_loop current_date draws i store)
    = map (fun ix => snd (upgrade current_date (snd ix)))
        (filter (fun ix => V13.selected (snd ix) (draws (fst ix)))
           (combine (seq i (List.length store)) store))
    /\ map transformer_id (fst (V13.upgrade_loop current_date draws i store))
       = map transformer_id store.
Proof.
  induction store as [ | t rest IH]; intros i; cbn [V13.upgrade_loop].
  - split; reflexivity.
  - destruct (IH (S i)) as [IH1 IH2].
    destruct (V13.upgrade_loop current_date draws (S i) rest) as [rest' events].
    cbn [fst snd] in IH1, IH2.
    cbn [List.length seq combine filter fst snd].
    destruct (V13.selected t (draws i)); cbn [fst snd map]; rewrite IH1, IH2;
      split; reflexivity.
Qed.

(** X10.  Section 3 of the v1.3 monthly step logs one upgrade event for each
    transformer that is of type distribution, has a utilisation above 85 and
    whose own draw is below 0.02, in list order, and no other; the event
    carries the step's date, the transformer's identifier and its rating
    before and after.  The transformers list keeps its identifiers in their
    places. *)
Theorem v13_upgrade_events_log (current_date : Z) (draws : nat -> Q)
    (store : list transformer) :
  let out := V13.transformer_upgrades current_date draws store in
  let chosen :=
    filter (fun ix => String.eqb (transformer_type (snd ix)) "distribution"
                      && (Num.gtb (capacity_utilization_pct (snd ix)) 85
                          && Num.ltb (draws (fst ix)) 0.02))
      (combine (seq 0 (List.length store)) store) in
  map transformer_id (fst out) = map transformer_id store
  /\ map e_transformer_id (snd out) = map (fun ix => transformer_id (snd ix)) chosen
  /\ map old_rating_kva (snd out) = map (fun ix => rating_kva (snd ix)) chosen
  /\ map new_rating_kva (snd out)
     = map (fun ix => find_upgrade distribution_types (rating_kva (snd ix))) chosen
  /\ Forall (fun e => e_date e = current_date) (snd out).
Proof.
  cbv zeta. unfold V13.transformer_upgrades.
  destruct (v13_upgrade_loop_events current_date draws store 0) as [H1 H2].
  rewrite H1. split; [exact H2 | ].
  rewrite !map_map. repeat apply conj; try reflexivity.
  apply Forall_forall. intros e He. apply in_map_iff in He.
  destruct He as (ix & <- & _). reflexivity.
Qed.

(** ** Rows of the v1.2 reading generator *)

Lemma v12_skipped_false (m : V12.meter) (failures : list (Z * Z)) (ts : timestamp) :
  V12.skipped m failures ts = false
  <-> (V12.m_installation_date m <= time ts)%Z
      /\ (forall dd, V12.m_deactivation_date m = Some dd -> (time ts <= dd)%Z)
      /\ (forall w, In w failures -> ~ (fst w <= time ts <= snd w)%Z).
Proof.
  unfold V12.skipped. rewrite !orb_false_iff, Z.ltb_ge. split.
  - intros [[H1 H2] H3]. split; [exact H1 | split].
    + intros dd Hdd. rewrite Hdd in H2. apply Z.ltb_ge, H2.
    + intros w Hw Hin.
      assert (E : existsb (fun w => ((fst w <=? time ts) && (time ts <=? snd w))%Z) failures
                  = true).
      { apply existsb_exists. exists w. split; [exact Hw | ].
        apply andb_true_iff. split; apply Z.leb_le; lia. }
      congruence.
  - intros (H1 & H2 & H3). split; [split; [exact H1 | ] | ].
    + destruct (V12.m_deactivation_date m) as [dd | ]; [ | reflexivity].
      apply Z.ltb_ge, H2. reflexivity.
    + apply not_true_iff_false. intros E. apply existsb_exists in E.
      destruct E as (w & Hw & E). apply andb_true_iff in E. destruct E as [E1 E2].
      apply Z.leb_le in E1, E2. apply (H3 w Hw). lia.
Qed.

(** X11.  [generate_readings_dynamic] emits, for one meter, exactly one row
    for each timestamp of the grid that is not before the installation date,
    not after the deactivation date (when the meter has one) and inside no
    failure window of the meter (both ends included), in grid order; no other
    timestamp gets a row, whatever the defect draw, and every row carries the
    meter's number. *)
Theorem v12_rows_are_the_active_timestamps (m : V12.meter) (utilization : Q)
    (failures : list (Z * Z)) (grid : list (timestamp * reading_draws)) :
  let rows := V12.generate_readings_dynamic m utilization failures grid in
  let active (ts : timestamp) :=
    (V12.m_installation_date m <= time ts)%Z
    /\ (forall dd, V12.m_deactivation_date m = Some dd -> (time ts <= dd)%Z)
    /\ (forall w, In w failures -> ~ (fst w <= time ts <= snd w)%Z) in
  map r_timestamp rows
  = map fst (filter (fun td => negb (V12.skipped m failures (fst td))) grid)
  /\ (forall ts, In ts (map r_timestamp rows) <-> In ts (map fst grid) /\ active ts)
  /\ Forall (fun r => meter_number r = V12.m_meter_number m) rows.
Proof.
  cbv zeta. unfold V12.generate_readings_dynamic.
  assert (H : forall st,
             map r_timestamp (snd (V12.timestamp_loop m utilization failures st grid))
             = map fst (filter (fun td => negb (V12.skipped m failures (fst td))) grid)
             /\ Forall (fun r => meter_number r = V12.m_meter_number m)
                  (snd (V12.timestamp_loop m utilization failures st grid))).
  { induction grid as [ | [ts d] rest IH]; intros st.
    - cbn. split; [reflexivity | constructor].
    - cbn [V12.timestamp_loop filter fst].
      unfold V12.reading_step.
      destruct (V12.skipped m failures ts); cbn [negb].
      + specialize (IH st).
        destruct (V12.timestamp_loop m utilization failures st rest) as [st2 rows2].
        exact IH.
      + match goal with
        | |- context [V12.timestamp_loop m utilization failures ?s rest] =>
            specialize (IH s);
            destruct (V12.timestamp_loop m utilization failures s rest) as [st2 rows2]
        end.
        cbn [snd] in IH |- *. destruct IH as [IH1 IH2]. cbn [map r_timestamp fst].
        rewrite IH1. split; [reflexivity | constructor; [reflexivity | exact IH2]]. }
  destruct (H (mkRegs 0 0)) as [H1 H2]. split; [exact H1 | split; [ | exact H2]].
  intros ts. rewrite H1, !in_map_iff. split.
  - intros ([ts' d] & <- & Hin). apply filter_In in Hin. destruct Hin as [Hin Hs].
    split; [exists (ts', d); auto | ].
    apply v12_skipped_false. cbn [fst] in *. destruct (V12.skipped m failures ts'); 
      [discriminate | reflexivity].
  - intros [([ts' d] & <- & Hin) Hact]. exists (ts', d). split; [reflexivity | ].
    apply filter_In. split; [exact Hin | ]. cbn [fst] in *.
    apply v12_skipped_false in Hact. rewrite Hact. reflexivity.
Qed.

Lemma py_clamp_range (lo hi x : Q) :
  lo <= hi -> lo <= Num.py_max lo (Num.py_min hi x) <= hi.
Proof.
  intros H. unfold Num.py_max, Num.py_min.
  destruct (Num.ltb x hi) eqn:E1; [apply ltb_lt in E1 | apply ltb_ge in E1].
  - destruct (Num.gtb x lo) eqn:E2; [apply gtb_gt in E2 | apply gtb_le in E2]; lra.
  - destruct (Num.gtb hi lo) eqn:E2; [apply gtb_gt in E2 | apply gtb_le in E2]; lra.
Qed.

(** X12.  A row emitted by [generate_readings_dynamic] (unit draws in range)
    has a power factor between 0.8 and 0.99 and a current that is not
    negative, and its fields agree with its flag: a Zero Reading row reports
    consumption 0 and the previous register; a Negative Reading or Reverse
    Energy row reports a consumption that is not positive, every other row
    one that is not negative; a Frequency Variation row reports 47.5 Hz, a
    Signal Drop row -105 dBm and a Battery Fault row 2.8 V; a Normal or
    Missing Reading row reports the register advanced by the drawn
    consumption.  The register stored for the next timestamp is the one the
    row reports before rounding. *)
Theorem v12_row_agrees_with_flag (m : V12.meter) (utilization : Q)
    (failures : list (Z * Z)) (st st' : registers) (ts : timestamp)
    (d : reading_draws) (r : reading)
    (Hdraws : valid_draws d)
    (Hstep : V12.reading_step m utilization failures st ts d = (st', Some r)) :
  0.8 <= power_factor r <= 0.99
  /\ 0 <= current_a r
  /\ reading_kwh r = Num.round (cumulative_reading st') 3
  /\ previous_reading st' = cumulative_reading st'
  /\ (data_quality_flag r = ZeroReading ->
      energy_consumed_kwh r == 0 /\ cumulative_reading st' = previous_reading st)
  /\ (data_quality_flag r = NegativeReading \/ data_quality_flag r = ReverseEnergy ->
      energy_consumed_kwh r <= 0)
  /\ (data_quality_flag r <> NegativeReading -> data_quality_flag r <> ReverseEnergy ->
      0 <= energy_consumed_kwh r)
  /\ (data_quality_flag r = FrequencyVariation -> frequency_hz r == 47.5)
  /\ (data_quality_flag r = SignalDrop -> signal_strength_dbm r == -105)
  /\ (data_quality_flag r = BatteryFault -> battery_voltage_v r == 2.8)
  /\ (data_quality_flag r = Normal \/ data_quality_flag r = MissingReading ->
      cumulative_reading st' = cumulative_reading st + fst (V12.draw_consumption m ts d)).
Proof.
  unfold V12.reading_step in Hstep.
  destruct (V12.skipped m failures ts); [discriminate | ].
  pose proof (v12_consumption_nonneg m ts d Hdraws) as Hc.
  set (c := fst (V12.draw_consumption m ts d)) in *.
  injection Hstep as <- <-.
  cbn [power_factor current_a reading_kwh energy_consumed_kwh frequency_hz
       signal_strength_dbm battery_voltage_v data_quality_flag
       cumulative_reading previous_reading].
  split; [ | split; [ | split; [reflexivity | split; [reflexivity | ]]]].
  - apply round_between.
    + exists 800%Z. reflexivity.
    + exists 990%Z. reflexivity.
    + apply py_clamp_range. discriminate.
  - apply round_nonneg.
    destruct (Num.gtb (V12._generate_voltage ts (utilization / 100) (z_voltage d)) 0) eqn:E;
      [ | apply Qle_refl].
    apply gtb_gt in E. unfold Qdiv. apply Qmult_le_0_compat;
      [apply Qmult_le_0_compat; [exact Hc | discriminate] | ].
    apply Qinv_le_0_compat, Qlt_le_weak, E.
  - unfold V12._apply_data_quality_issues.
    destruct (scan_issues V12.issue_probabilities 0 (rand_val d));
      cbn [V12.a_consumption V12.a_cumulative V12.a_frequency V12.a_signal V12.a_battery
           V12.a_flag];
      repeat apply conj; intros;
        repeat (match goal with
                | H : _ \/ _ |- _ => destruct H
                end);
        try discriminate; try congruence; try reflexivity;
        try (split; [apply round_zero | reflexivity]);
        try (apply round_nonneg; first [assumption | lra]);
        try (rewrite <- (round_zero 3); apply round_mono; lra).
Qed.

Lemma v12_row_agrees_with_flag_witness :
  valid_draws (sample_draws 0 0.5)
  /\ exists st' r,
       V12.reading_step sample_meter 50 [] (mkRegs 0 0) (mkTs 0 0 1 0) (sample_draws 0 0.5)
       = (st', Some r)
       /\ 0.8 <= power_factor r <= 0.99.
Proof.
  assert (Hd : valid_draws (sample_draws 0 0.5)) by (repeat split; discriminate).
  split; [exact Hd | ].
  destruct (V12.reading_step sample_meter 50 [] (mkRegs 0 0) (mkTs 0 0 1 0)
              (sample_draws 0 0.5)) as [st' [r | ]] eqn:Hstep;
    [ | vm_compute in Hstep; discriminate Hstep].
  exists st', r. split; [reflexivity | ].
  exact (proj1 (v12_row_agrees_with_flag _ _ _ _ _ _ _ _ Hd Hstep)).
Defined.

(** ** Meter replacements *)

Lemma skipn_nth_error {A : Type} (l : list A) (n : nat) (x : A) :
  nth_error l n = Some x -> skipn n l = x :: skipn (S n) l.
Proof.
  revert n. induction l as [ | y l IH]; intros [ | n] H; cbn in *; try discriminate.
  - injection H as ->. reflexivity.
  - apply IH, H.
Qed.

Lemma replacement_fold (current_date : Z) (active : list nat) (bound : nat) :
  Forall (fun i => (i < bound)%nat) active ->
  forall (draws : list V12.replacement_draws) (cur : list V12.meter),
    (bound <= List.length cur)%nat ->
    let out :=
      fold_left
        (fun ms d =>
           match nth_error active (V12.choice d) with
           | None => ms
           | Some i =>
               match nth_error ms i with
               | None => ms
               | Some meter_to_replace =>
                   update_at i (V12.deactivate_replaced current_date)
                     (ms ++ [V12._replace_meter meter_to_replace current_date d])
               end
           end) draws cur in
    List.length out = (List.length cur + List.length (effective active draws))%nat
    /\ (forall j, (j < List.length cur)%nat ->
          nth_error out j
          = option_map (fun m => if replaced active draws j
                                 then V12.deactivate_replaced current_date m else m)
              (nth_error cur j))
    /\ Forall2 (fun d m' => exists i old,
                  nth_error active (V12.choice d) = Some i
                  /\ nth_error cur i = Some old
                  /\ m' = V12._replace_meter old current_date d)
         (effective active draws) (skipn (List.length cur) out).
Proof.
  intros Hactive. induction draws as [ | d rest IH]; intros cur Hbound; cbv zeta.
  - cbn. split; [lia | split].
    + intros j _. destruct (nth_error cur j); reflexivity.
    + rewrite skipn_all. constructor.
  - cbn [fold_left]. unfold effective, replaced. cbn [filter existsb].
    fold (effective active rest). fold (replaced active rest).
    destruct (nth_error active (V12.choice d)) as [i | ] eqn:Hi.
    + assert (Hlt : (V12.choice d <? List.length active)%nat = true)
        by (apply Nat.ltb_lt, nth_error_Some; congruence).
      rewrite Hlt.
      assert (Hib : (i < bound)%nat)
        by (rewrite Forall_forall in Hactive; apply Hactive, (nth_error_In _ _ Hi)).
      destruct (nth_error cur i) as [old | ] eqn:Hold;
        [ | apply nth_error_None in Hold; lia].
      set (new := V12._replace_meter old current_date d).
      set (cur1 := update_at i (V12.deactivate_replaced current_date) (cur ++ [new])).
      assert (Hlen1 : List.length cur1 = S (List.length cur)).
      { assert (L : forall (A : Type) (f : A -> A) (l : list A) k,
                   List.length (update_at k f l) = List.length l).
        { intros A f l. induction l as [ | x l IHl]; intros [ | k]; cbn; auto. }
        unfold cur1. rewrite L, length_app. cbn. lia. }
      assert (Hcur1 : forall j,
                 nth_error cur1 j
                 = if Nat.eqb j i
                   then option_map (V12.deactivate_replaced current_date) (nth_error cur j)
                   else if Nat.eqb j (List.length cur) then Some new else nth_error cur j).
      { intros j. unfold cur1. rewrite update_at_nth_error.
        destruct (Nat.eqb j i) eqn:E.
        - apply Nat.eqb_eq in E. subst j. rewrite nth_error_app1 by lia. reflexivity.
        - destruct (Nat.eqb j (List.length cur)) eqn:E2.
          + apply Nat.eqb_eq in E2. subst j. rewrite nth_error_app2 by lia.
            rewrite Nat.sub_diag. reflexivity.
          + apply Nat.eqb_neq in E2.
            destruct (Nat.lt_ge_cases j (List.length cur)) as [Hj | Hj].
            * rewrite nth_error_app1 by lia. reflexivity.
            * rewrite (proj2 (nth_error_None cur j)) by lia.
              apply nth_error_None. rewrite length_app. cbn. lia. }
      destruct (IH cur1 ltac:(lia)) as (IH1 & IH2 & IH3). cbv zeta in *.
      split; [cbn [List.length]; lia | split].
      * intros j Hj. rewrite (IH2 j ltac:(lia)), Hcur1.
        rewrite (Nat.eqb_sym i j).
        destruct (Nat.eqb j i) eqn:E; cbn [orb].
        -- destruct (nth_error cur j) as [m | ]; [ | reflexivity]. cbn [option_map].
           destruct (replaced active rest j); reflexivity.
        -- assert (E2 : Nat.eqb j (List.length cur) = false) by (apply Nat.eqb_neq; lia).
           rewrite E2. reflexivity.
      * assert (Hnew : nth_error
                         (fold_left
                            (fun ms d0 =>
                               match nth_error active (V12.choice d0) with
                               | None => ms
                               | Some i0 =>
                                   match nth_error ms i0 with
                                   | None => ms
                                   | Some meter_to_replace =>
                                       update_at i0 (V12.deactivate_replaced current_date)
                                         (ms ++ [V12._replace_meter meter_to_replace
                                                   current_date d0])
                                   end
                               end) rest cur1) (List.length cur) = Some new).
        { rewrite (IH2 (List.length cur) ltac:(lia)), Hcur1.
          assert (E : Nat.eqb (List.length cur) i = false) by (apply Nat.eqb_neq; lia).
          rewrite E, Nat.eqb_refl. cbn [option_map].
          assert (R : replaced active rest (List.length cur) = false).
          { apply not_true_iff_false. intros R. apply existsb_exists in R.
            destruct R as (d' & _ & R).
            destruct (nth_error active (V12.choice d')) as [i' | ] eqn:Hi'; [ | discriminate].
            apply Nat.eqb_eq in R. subst i'.
            rewrite Forall_forall in Hactive.
            specialize (Hactive _ (nth_error_In _ _ Hi')). lia. }
          rewrite R. reflexivity. }
        rewrite (skipn_nth_error _ _ _ Hnew). constructor.
        -- exists i, old. auto.
        -- rewrite <- Hlen1. eapply Forall2_impl; [ | exact IH3].
           intros d' m' (i' & old' & Hi' & Hold' & ->).
           rewrite Hcur1 in Hold'.
           assert (Hi'b : (i' < bound)%nat)
             by (rewrite Forall_forall in Hactive; apply Hactive, (nth_error_In _ _ Hi')).
           assert (E2 : Nat.eqb i' (List.length cur) = false) by (apply Nat.eqb_neq; lia).
           rewrite E2 in Hold'.
           destruct (Nat.eqb i' i).
           ++ destruct (nth_error cur i') as [m | ] eqn:Hm; [ | discriminate].
              injection Hold' as <-. exists i', m. auto.
           ++ exists i', old'. auto.
    + assert (Hlt : (V12.choice d <? List.length active)%nat = false)
        by (apply Nat.ltb_ge, nth_error_None, Hi).
      rewrite Hlt. cbn [orb]. apply (IH cur Hbound).
Qed.

(** X13.  Section 2 of the v1.2 monthly step only ever appends to the
    meters list: each draw that designates an active meter appends one
    replacement, so the list grows by the number of such draws.  A record
    that was in the list stays at its position, unchanged unless a draw picked
    it, in which case it is deactivated with status Replaced and keeps its
    meter number.  Each appended record is the replacement built from a meter
    that was active at the start of the step; a meter picked by two draws is
    replaced twice. *)
Theorem v12_replacements_extend_the_list (current_date : Z)
    (draws : list V12.replacement_draws) (meters_list : list V12.meter) :
  let active := positions V12.m_is_active meters_list in
  let out := V12.meter_replacements current_date draws meters_list in
  List.length out
  = (List.length meters_list + List.length (effective active draws))%nat
  /\ (forall j m,
        nth_error meters_list j = Some m ->
        nth_error out j
        = Some (if replaced active draws j
                then V12.deactivate_replaced current_date m else m))
  /\ Forall2 (fun d m' => exists i old,
                nth_error active (V12.choice d) = Some i
                /\ nth_error meters_list i = Some old
                /\ V12.m_is_active old = true
                /\ m' = V12._replace_meter old current_date d)
       (effective active draws) (skipn (List.length meters_list) out).
Proof.
  cbv zeta. unfold V12.meter_replacements.
  assert (Hactive : Forall (fun i => (i < List.length meters_list)%nat)
                      (positions V12.m_is_active meters_list)).
  { apply Forall_forall. intros i Hi. apply positions_spec in Hi.
    destruct Hi as (m & Hm & _). apply nth_error_Some. congruence. }
  destruct (replacement_fold current_date _ _ Hactive draws meters_list (le_n _))
    as (H1 & H2 & H3).
  split; [exact H1 | split].
  - intros j m Hm. rewrite H2 by (apply nth_error_Some; congruence).
    rewrite Hm. reflexivity.
  - eapply Forall2_impl; [ | exact H3].
    intros d m' (i & old & Hi & Hold & ->). exists i, old.
    repeat split; try assumption.
    apply nth_error_In, positions_spec in Hi. destruct Hi as (m & Hm & Hp). congruence.
Qed.

(** ** New connections *)

Lemma load_in_range (lo hi : Z) (r : Q) :
  (lo <= hi)%Z -> unit_draw r ->
  inject_Z lo <= Num.round (uniform (inject_Z lo) (inject_Z hi) r) 2 <= inject_Z hi.
Proof.
  intros H Hr. apply round_between; try apply decimal_of_Z.
  apply uniform_range; [ | exact Hr]. rewrite <- Zle_Qle. exact H.
Qed.

(** X14.  [_generate_new_meter] returns as soon as one of the drawn numbers
    is carried by no existing meter, and the meter it returns carries such a
    number.  The new meter is active, of generation 1, without predecessor,
    installed on the connection date, attached to the given transformer and of
    type Smart.  On a 1-phase transformer its tariff is A-1a or A-2a and its
    connected load lies in [1, 5]; on any other transformer the tariff is
    A-1b, A-2b, B-1 or C-1 and the load lies in [5, 50]; in both cases the
    load lies within the load range of the tariff. *)
Theorem v12_new_meter_well_formed (t : transformer) (connection_date : Z)
    (existing_meters : list V12.meter) (d : V12.new_meter_draws)
    (Hpick : (V12.tariff_pick d
              < if String.eqb (phase_type t) "1-phase" then 2 else 4)%nat)
    (Hload : unit_draw (V12.load_draw d))
    (Hfresh : Exists (fun n => ~ In (V12.format_int n)
                                  (map V12.m_meter_number existing_meters))
                (V12.number_draws d)) :
  exists m,
    V12._generate_new_meter t connection_date existing_meters d = Some m
    /\ ~ In (V12.m_meter_number m) (map V12.m_meter_number existing_meters)
    /\ V12.m_is_active m = true
    /\ V12.m_status m = "Active"%string
    /\ V12.m_meter_generation m = 1%Z
    /\ V12.m_previous_meter_number m = None
    /\ V12.m_installation_date m = connection_date
    /\ V12.m_deactivation_date m = None
    /\ V12.m_distribution_transformer_id m = transformer_id t
    /\ V12.m_meter_type m = "Smart"%string
    /\ (if String.eqb (phase_type t) "1-phase"
        then In (V12.m_tariff_category m) ["A-1a"; "A-2a"]%string
             /\ 1 <= V12.m_connected_load_kw m <= 5
        else In (V12.m_tariff_category m) ["A-1b"; "A-2b"; "B-1"; "C-1"]%string
             /\ 5 <= V12.m_connected_load_kw m <= 50)
    /\ fst (V12.load_range (V12.m_tariff_category m)) <= V12.m_connected_load_kw m
       <= snd (V12.load_range (V12.m_tariff_category m)).
Proof.
  destruct (unique_meter_number_returns _ _ Hfresh) as (number & Hnumber).
  unfold V12._generate_new_meter. rewrite Hnumber.
  eexists. split; [reflexivity | ].
  cbn [V12.m_meter_number V12.m_is_active V12.m_status V12.m_meter_generation
       V12.m_previous_meter_number V12.m_installation_date V12.m_deactivation_date
       V12.m_distribution_transformer_id V12.m_meter_type V12.m_tariff_category
       V12.m_connected_load_kw].
  split; [apply (unique_meter_number_fresh _ _ _ Hnumber) | ].
  do 8 (split; [reflexivity | ]).
  pose proof (load_in_range 1 5 _ ltac:(lia) Hload) as L1.
  pose proof (load_in_range 5 30 _ ltac:(lia) Hload) as L2.
  pose proof (load_in_range 5 50 _ ltac:(lia) Hload) as L3.
  pose proof (load_in_range 5 25 _ ltac:(lia) Hload) as L4.
  destruct (String.eqb (phase_type t) "1-phase").
  - destruct (V12.tariff_pick d) as [ | [ | n]]; [ | | lia]; cbn [nth].
    + change (V12.load_range "A-1a") with (inject_Z 1, inject_Z 5). cbn [fst snd In].
      repeat apply conj; auto; apply L1.
    + change (V12.load_range "A-2a") with (inject_Z 1, inject_Z 5). cbn [fst snd In].
      repeat apply conj; auto; apply L1.
  - destruct (V12.tariff_pick d) as [ | [ | [ | [ | n]]]]; [ | | | | lia]; cbn [nth].
    + change (V12.load_range "A-1b") with (inject_Z 5, inject_Z 30). cbn [fst snd In].
      repeat apply conj; auto; try apply L2.
      eapply Qle_trans; [apply L2 | discriminate].
    + change (V12.load_range "A-2b") with (inject_Z 5, inject_Z 50). cbn [fst snd In].
      repeat apply conj; auto; apply L3.
    + change (V12.load_range "B-1") with (inject_Z 5, inject_Z 25). cbn [fst snd In].
      repeat apply conj; auto; try apply L4.
      eapply Qle_trans; [apply L4 | discriminate].
    + change (V12.load_range "C-1") with (inject_Z 5, inject_Z 50). cbn [fst snd In].
      repeat apply conj; auto; apply L3.
Qed.

Lemma v12_new_meter_well_formed_witness :
  let t := mkTransformer "DT000001" "distribution" 500 90 None [] 120 "3-phase" in
  let d := V12.mkNewMeterDraws 0 1000001 [10000000003%Z] 0.5 0 0 in
  (V12.tariff_pick d < if String.eqb (phase_type t) "1-phase" then 2 else 4)%nat
  /\ unit_draw (V12.load_draw d)
  /\ Exists (fun n => ~ In (V12.format_int n) (map V12.m_meter_number sample_population))
       (V12.number_draws d)
  /\ exists m,
       V12._generate_new_meter t 0 sample_population d = Some m
       /\ V12.m_tariff_category m = "A-1b"%string
       /\ 5 <= V12.m_connected_load_kw m <= 50.
Proof.
  cbv zeta.
  set (t := mkTransformer "DT000001" "distribution" 500 90 None [] 120 "3-phase").
  set (d := V12.mkNewMeterDraws 0 1000001 [10000000003%Z] 0.5 0 0).
  assert (Hp : (V12.tariff_pick d < if String.eqb (phase_type t) "1-phase" then 2 else 4)%nat)
    by (cbn; lia).
  assert (Hl : unit_draw (V12.load_draw d)) by (split; discriminate).
  assert (Hf : Exists (fun n => ~ In (V12.format_int n)
                                   (map V12.m_meter_number sample_population))
                 (V12.number_draws d)).
  { apply Exists_cons_hd. vm_compute. intros [H | [H | []]]; discriminate H. }
  split; [exact Hp | split; [exact Hl | split; [exact Hf | ]]].
  destruct (v12_new_meter_well_formed t 0 sample_population d Hp Hl Hf)
    as (m & Hm & _ & _ & _ & _ & _ & _ & _ & _ & _ & Hphase & _).
  exists m. split; [exact Hm | ].
  change (String.eqb (phase_type t) "1-phase") with false in Hphase.
  destruct Hphase as [_ Hrange]. split; [ | exact Hrange].
  unfold V12._generate_new_meter in Hm.
  destruct (V12.unique_meter_number sample_population (V12.number_draws d));
    [ | discriminate Hm].
  injection Hm as <-. reflexivity.
Defined.

(** ** The v1.3 reading loop *)

Lemma region_flag_battery (rv : Q) :
  scan_issues Region.issue_probabilities 0 rv = BatteryFault <-> battery_band rv.
Proof.
  pose proof (v12_flag_bands_aux rv) as B. cbv zeta in B.
  destruct B as (_ & _ & _ & _ & _ & _ & _ & B & _). exact B.
Qed.

Lemma region_step_cases (m : Region.meter) (failures : list (Z * Z)) (st : registers)
    (ts : timestamp) (d : reading_draws) :
  Region.skipped m failures ts = false ->
  match Region.reading_step m failures st ts d with
  | Raised KeyError => Region.base_temps (Region.m_district m) = None
  | Raised ValueError =>
      Region.base_temps (Region.m_district m) <> None /\ battery_band (rand_val d)
  | Returned (_, None) => False
  | Returned (_, Some r) =>
      Region.base_temps (Region.m_district m) <> None /\ ~ battery_band (rand_val d)
      /\ r_timestamp r = ts /\ meter_number r = Region.m_meter_number m
      /\ data_quality_flag r <> BatteryFault
  end.
Proof.
  intros Hs. unfold Region.reading_step, Region._generate_temperature_region. rewrite Hs.
  destruct (Region.base_temps (Region.m_district m)) as [[[summer winter] spring] | ];
    [ | reflexivity].
  unfold Region._apply_data_quality_issues.
  pose proof (region_flag_battery (rand_val d)) as B.
  destruct (scan_issues Region.issue_probabilities 0 (rand_val d)) eqn:E;
    cbn [data_quality_flag r_timestamp meter_number V12.a_flag];
    try (split; [discriminate | split; [ | split; [reflexivity | split;
           [reflexivity | discriminate]]]];
         intros Hb; apply B in Hb; discriminate Hb).
  split; [discriminate | apply B; reflexivity].
Qed.

(** X15.  In the v1.3 reading loop the battery-fault branch of
    [_apply_data_quality_issues] returns eight values where the caller
    unpacks seven.  So [generate_region_readings] returns for a meter exactly
    when, at every timestamp it does not skip, the district is one of the five
    keys of the temperature table and the defect draw is outside the
    battery-fault band [0.09, 0.095); otherwise it raises, KeyError for an
    unknown district and ValueError for a draw in the band.  When it returns,
    its rows are the timestamps not skipped, in order, and none of them is
    flagged Battery Fault. *)
Theorem region_readings_return_iff (m : Region.meter) (failures : list (Z * Z))
    (grid : list (timestamp * reading_draws)) :
  ((exists rows, Region.generate_region_readings m failures grid = Returned rows)
   <-> Forall (fun td => visited m failures td ->
                         Region.base_temps (Region.m_district m) <> None
                         /\ ~ battery_band (rand_val (snd td))) grid)
  /\ (Region.generate_region_readings m failures grid = Raised KeyError ->
      Exists (visited m failures) grid
      /\ Region.base_temps (Region.m_district m) = None)
  /\ (Region.generate_region_readings m failures grid = Raised ValueError ->
      Exists (fun td => visited m failures td /\ battery_band (rand_val (snd td))) grid)
  /\ (forall rows,
        Region.generate_region_readings m failures grid = Returned rows ->
        map r_timestamp rows
        = map fst (filter (fun td => negb (Region.skipped m failures (fst td))) grid)
        /\ Forall (fun r => meter_number r = Region.m_meter_number m
                            /\ data_quality_flag r <> BatteryFault) rows).
Proof.
  unfold Region.generate_region_readings. generalize (mkRegs 0 0).
  induction grid as [ | [ts d] rest IH]; intros st.
  - cbn. repeat apply conj; try discriminate.
    + intros _. constructor.
    + intros _. eexists. reflexivity.
    + intros rows [= <-]. split; constructor.
  - cbn [Region.timestamp_loop].
    destruct (Region.skipped m failures ts) eqn:Hs.
    + unfold Region.reading_step. rewrite Hs.
      destruct (IH st) as (IH1 & IH2 & IH3 & IH4).
      destruct (Region.timestamp_loop m failures st rest) as [[st2 rows2] | e].
      * repeat apply conj; try discriminate.
        -- intros _. constructor; [ | apply IH1; eexists; reflexivity].
           unfold visited. cbn [fst]. intros H. congruence.
        -- intros _. eexists. reflexivity.
        -- intros rows [= <-]. cbn [filter fst]. rewrite Hs. cbn [negb].
           apply IH4. reflexivity.
      * repeat apply conj; try discriminate.
        -- intros (rows & H). discriminate H.
        -- intros H. inversion H as [ | ? ? _ H']; subst.
           apply IH1 in H'. destruct H' as (rows & H'). discriminate H'.
        -- intros [= ->]. destruct (IH2 eq_refl) as [H1 H2].
           split; [apply Exists_cons_tl, H1 | exact H2].
        -- intros [= ->]. apply Exists_cons_tl, IH3. reflexivity.
    + pose proof (region_step_cases m failures st ts d Hs) as Hstep.
      destruct (Region.reading_step m failures st ts d) as [[st1 [r | ]] | [ | ]];
        [ | contradiction | | ].
      * destruct Hstep as (Hk & Hb & Ht & Hm & Hf).
        destruct (IH st1) as (IH1 & IH2 & IH3 & IH4).
        destruct (Region.timestamp_loop m failures st1 rest) as [[st2 rows2] | e].
        -- repeat apply conj; try discriminate.
           ++ intros _. constructor; [ | apply IH1; eexists; reflexivity].
              intros _. cbn [snd]. auto.
           ++ intros _. eexists. reflexivity.
           ++ intros rows [= <-]. cbn [filter fst]. rewrite Hs. cbn [negb map fst].
              destruct (IH4 rows2 eq_refl) as [H1 H2]. rewrite H1, Ht.
              split; [reflexivity | constructor; [split; assumption | exact H2]].
        -- repeat apply conj; try discriminate.
           ++ intros (rows & H). discriminate H.
           ++ intros H. inversion H as [ | ? ? _ H']; subst.
              apply IH1 in H'. destruct H' as (rows & H'). discriminate H'.
           ++ intros [= ->]. destruct (IH2 eq_refl) as [H1 H2].
              split; [apply Exists_cons_tl, H1 | exact H2].
           ++ intros [= ->]. apply Exists_cons_tl, IH3. reflexivity.
      * repeat apply conj; try discriminate.
        -- intros (rows & H). discriminate H.
        -- intros H. inversion H as [ | ? ? H' _]; subst.
           destruct (H' Hs) as [H1 _]. contradiction.
        -- intros _. split; [apply Exists_cons_hd, Hs | exact Hstep].
      * destruct Hstep as [Hk Hb]. repeat apply conj; try discriminate.
        -- intros (rows & H). discriminate H.
        -- intros H. inversion H as [ | ? ? H' _]; subst.
           destruct (H' Hs) as [_ H2]. contradiction.
        -- intros _. apply Exists_cons_hd. split; [exact Hs | exact Hb].
Qed.

(** ** Bills and payments of the parallel pipeline *)

(** X16.  [_simple_billing] is continuous and increasing: between two
    consumptions the bill rises by at least 2.0 and at most 15.0 per unit,
    whatever the consumer types passed.  In particular a consumption that is
    not negative is billed between 2 and 15 times its amount. *)
Theorem simple_billing_marginal_rates (c1 c2 : Q) (type1 type2 : option string)
    (Horder : c1 <= c2) :
  2 * (c2 - c1)
  <= Pipeline._simple_billing c2 type2 - Pipeline._simple_billing c1 type1
  <= 15 * (c2 - c1).
Proof.
  unfold Pipeline._simple_billing.
  repeat (match goal with
          | |- context [if Num.leb ?a ?b then _ else _] =>
              let E := fresh "E" in
              destruct (Num.leb a b) eqn:E; [apply leb_le in E | apply leb_gt in E]
          end); split; lra.
Qed.

Lemma simple_billing_marginal_rates_witness :
  0 <= 120
  /\ 2 * 120 <= Pipeline._simple_billing 120 None <= 15 * 120.
Proof.
  assert (H : 0 <= 120) by discriminate.
  split; [exact H | ].
  pose proof (simple_billing_marginal_rates 0 120 None None H) as B.
  change (Pipeline._simple_billing 0 None) with (0 * 2.0) in B.
  destruct B as [B1 B2]. split; lra.
Defined.

Lemma simple_billing_nonneg (c : Q) (type : option string) :
  0 <= c -> 2 * c <= Pipeline._simple_billing c type <= 15 * c.
Proof.
  intros H. unfold Pipeline._simple_billing.
  repeat (match goal with
          | |- context [if Num.leb ?a ?b then _ else _] =>
              let E := fresh "E" in
              destruct (Num.leb a b) eqn:E; [apply leb_le in E | apply leb_gt in E]
          end); split; lra.
Qed.

Lemma last_nth_error {A : Type} (l : list A) (d : A) :
  l <> [] -> nth_error l (List.length l - 1) = Some (last l d).
Proof.
  induction l as [ | x l IH]; intros H; [contradiction | ].
  destruct l as [ | y l]; [reflexivity | ].
  change (last (x :: y :: l) d) with (last (y :: l) d).
  rewrite <- IH by discriminate. cbn [List.length].
  rewrite !Nat.sub_succ, !Nat.sub_0_r. reflexivity.
Qed.

Lemma sum_nonneg (xs : list Q) : Forall (fun x => 0 <= x) xs -> 0 <= Num.sum xs.
Proof.
  induction 1 as [ | x xs Hx _ IH].
  - discriminate.
  - rewrite sum_cons. lra.
Qed.

(** X17.  [_calculate_month_bill] returns no bill exactly for an empty month.
    Otherwise the bill carries the meter's id and the month, is issued 5 days
    and due 15 days after the start of the next month, and reports the
    register of the first and of the last reading of the month and the
    rounded sum of the rows' consumption.  With the fallback billing and
    rows whose consumption is not negative, the amount is not negative and
    lies within half a cent of between 2 and 15 times the summed consumption. *)
Theorem month_bill_of_readings (add_month : Z -> Z) (billing : Pipeline.base_billing)
    (tariff_category : option string) (md : V20.meter_data)
    (month_readings : list V20.reading) (billing_month : Z) :
  (Pipeline._calculate_month_bill add_month billing tariff_category md month_readings
     billing_month = None <-> month_readings = [])
  /\ (forall b,
        Pipeline._calculate_month_bill add_month billing tariff_category md month_readings
          billing_month = Some b ->
        let total := Num.sum (map V20.consumption_kwh month_readings) in
        Pipeline.b_meter_id b = V20.meter_id md
        /\ Pipeline.b_billing_month b = billing_month
        /\ Pipeline.b_issue_date b = (add_month billing_month + 5 * 1440)%Z
        /\ Pipeline.b_due_date b = (Pipeline.b_issue_date b + 10 * 1440)%Z
        /\ Some (Pipeline.b_previous_reading b)
           = option_map V20.reading_kwh (hd_error month_readings)
        /\ Some (Pipeline.b_current_reading b)
           = option_map V20.reading_kwh (nth_error month_readings
                                           (List.length month_readings - 1))
        /\ Pipeline.b_consumption_kwh b = Num.round total 2
        /\ (billing = None ->
            Forall (fun r => 0 <= V20.consumption_kwh r) month_readings ->
            0 <= Pipeline.b_bill_amount b
            /\ 2 * total - (1 # 200) <= Pipeline.b_bill_amount b
               <= 15 * total + (1 # 200))).
Proof.
  unfold Pipeline._calculate_month_bill.
  destruct month_readings as [ | first rest].
  - split; [split; reflexivity | discriminate].
  - split; [split; discriminate | ].
    intros b [= <-]. cbv zeta.
    cbn [Pipeline.b_meter_id Pipeline.b_billing_month Pipeline.b_issue_date
         Pipeline.b_due_date Pipeline.b_previous_reading Pipeline.b_current_reading
         Pipeline.b_consumption_kwh Pipeline.b_bill_amount hd_error option_map].
    repeat apply conj; try reflexivity.
    + lia.
    + rewrite (last_nth_error (first :: rest) first) by discriminate. reflexivity.
    + intros -> Hrows.
      assert (Htotal : 0 <= Num.sum (map V20.consumption_kwh (first :: rest))).
      { apply sum_nonneg. apply Forall_map. exact Hrows. }
      pose proof (simple_billing_nonneg _ (V20.consumer_type md) Htotal) as [B1 B2].
      pose proof (round2_error
                    (Pipeline._simple_billing
                       (Num.sum (map V20.consumption_kwh (first :: rest)))
                       (V20.consumer_type md))) as [R1 R2].
      change (V20.consumption_kwh first :: map V20.consumption_kwh rest)
        with (map V20.consumption_kwh (first :: rest)).
      split; [apply round_nonneg; lra | split; lra].
Qed.

Lemma payment_prob_range (consumer_type : string) (bill_amount : Q) :
  0.75 <= Pipeline.payment_prob consumer_type bill_amount <= 0.98.
Proof.
  unfold Pipeline.payment_prob.
  destruct (Num.contains "GOVT" consumer_type || Num.contains "PROTECTED" consumer_type);
    [split; discriminate | ].
  destruct (Num.gtb bill_amount 10000); [split; discriminate | ].
  destruct (Num.gtb bill_amount 5000); split; discriminate.
Qed.

Ltac payment_case :=
  try reflexivity;
  try (intros; discriminate);
  try (intros; contradiction);
  try apply Qle_refl;
  try assumption;
  try (intros t [= <-]; lia);
  try (apply round_nonneg; lra);
  try (intros; exfalso; lra);
  try (intros; lra);
  try (left; reflexivity);
  try (right; left; reflexivity);
  try (right; right; reflexivity).

(** X18.  For a bill whose amount is a non-negative number of cents,
    [_generate_payment] returns a payment that repeats the bill's meter and
    amount and pays between nothing and the bill amount.  Its status is
    unpaid, paid or partial: unpaid exactly when it has no payment date and
    no payment method, and then nothing is paid; paid means the whole amount;
    partial means, within half a cent, between 50% and 90% of it.  A payment
    date lies between the issue date and 20 days after it.  A draw below 0.75
    is always a payment and a draw of 0.98 or more never is, whatever the
    consumer type and the amount. *)
Theorem payment_of_bill (md : V20.meter_data) (b : Pipeline.bill)
    (d : Pipeline.payment_draws)
    (Hamount : 0 <= Pipeline.b_bill_amount b)
    (Hcents : decimal 2 (Pipeline.b_bill_amount b))
    (Hdelay : (0 <= Pipeline.payment_delay d <= 20)%Z)
    (Hpartial : unit_draw (Pipeline.partial_draw d))
    (Hpick : (Pipeline.method_pick d < 4)%nat) :
  exists p,
    Pipeline._generate_payment md (Some b) d = Some p
    /\ Pipeline.p_meter_id p = Pipeline.b_meter_id b
    /\ Pipeline.p_bill_amount p = Pipeline.b_bill_amount b
    /\ 0 <= Pipeline.p_amount_paid p <= Pipeline.p_bill_amount p
    /\ (Pipeline.p_status p = "unpaid"%string \/ Pipeline.p_status p = "paid"%string
        \/ Pipeline.p_status p = "partial"%string)
    /\ (Pipeline.p_status p = "unpaid"%string <-> Pipeline.p_payment_date p = None)
    /\ (Pipeline.p_status p = "unpaid"%string <-> Pipeline.p_payment_method p = None)
    /\ (Pipeline.p_status p = "unpaid"%string -> Pipeline.p_amount_paid p = 0)
    /\ (Pipeline.p_status p = "paid"%string ->
        Pipeline.p_amount_paid p = Pipeline.p_bill_amount p)
    /\ (Pipeline.p_status p = "partial"%string ->
        0.5 * Pipeline.p_bill_amount p - (1 # 200) <= Pipeline.p_amount_paid p
        <= 0.9 * Pipeline.p_bill_amount p + (1 # 200))
    /\ (forall t, Pipeline.p_payment_date p = Some t ->
          (Pipeline.b_issue_date b <= t <= Pipeline.b_issue_date b + 20 * 1440)%Z)
    /\ (Pipeline.paid_draw d < 0.75 -> Pipeline.p_status p <> "unpaid"%string)
    /\ (0.98 <= Pipeline.paid_draw d -> Pipeline.p_status p = "unpaid"%string).
Proof.
  unfold Pipeline._generate_payment. cbv zeta.
  set (ct := V20.get (V20.consumer_type md) "RESIDENTIAL_GENERAL"%string).
  pose proof (payment_prob_range ct (Pipeline.b_bill_amount b)) as [P1 P2].
  set (amount := Pipeline.b_bill_amount b) in *.
  pose proof (uniform_range 0.5 0.9 _ ltac:(discriminate) Hpartial) as [U1 U2].
  set (u := uniform 0.5 0.9 (Pipeline.partial_draw d)) in *.
  assert (Hlo : 0.5 * amount <= amount * u).
  { rewrite (Qmult_comm amount u). apply Qmult_le_compat_r; assumption. }
  assert (Hhi : amount * u <= 0.9 * amount).
  { rewrite (Qmult_comm amount u). apply Qmult_le_compat_r; assumption. }
  pose proof (round2_error (amount * u)) as [R1 R2].
  assert (Hround : Num.round (amount * u) 2 <= amount).
  { rewrite <- (round_of_decimal amount 2 Hcents) at 2. apply round_mono. lra. }
  assert (Hmethod : nth_error Pipeline.payment_methods (Pipeline.method_pick d) <> None).
  { apply nth_error_Some. exact Hpick. }
  destruct (Num.ltb (Pipeline.paid_draw d) (Pipeline.payment_prob ct amount)) eqn:Epaid;
    [apply ltb_lt in Epaid | apply ltb_ge in Epaid].
  - destruct (Num.ltb (Pipeline.full_draw d) 0.95); eexists; (split; [reflexivity | ]);
      cbn [Pipeline.p_meter_id Pipeline.p_bill_amount Pipeline.p_amount_paid
           Pipeline.p_payment_date Pipeline.p_payment_method Pipeline.p_status];
      repeat apply conj; payment_case.
  - eexists. split; [reflexivity | ].
    cbn [Pipeline.p_meter_id Pipeline.p_bill_amount Pipeline.p_amount_paid
         Pipeline.p_payment_date Pipeline.p_payment_method Pipeline.p_status].
    repeat apply conj; payment_case.
Qed.

Lemma payment_of_bill_witness :
  let b := Pipeline.mkBill "M-1" 0 7200 21600 10 130 120 550 "issued" in
  let d := Pipeline.mkPaymentDraws 0.5 3 0.97 0.5 0 in
  0 <= Pipeline.b_bill_amount b
  /\ decimal 2 (Pipeline.b_bill_amount b)
  /\ (0 <= Pipeline.payment_delay d <= 20)%Z
  /\ unit_draw (Pipeline.partial_draw d)
  /\ (Pipeline.method_pick d < 4)%nat
  /\ exists p,
       Pipeline._generate_payment (V20.mkMeterData "M-1" None None None) (Some b) d = Some p
       /\ 0 <= Pipeline.p_amount_paid p <= Pipeline.p_bill_amount p.
Proof.
  cbv zeta.
  set (b := Pipeline.mkBill "M-1" 0 7200 21600 10 130 120 550 "issued").
  set (d := Pipeline.mkPaymentDraws 0.5 3 0.97 0.5 0).
  assert (H1 : 0 <= Pipeline.b_bill_amount b) by discriminate.
  assert (H2 : decimal 2 (Pipeline.b_bill_amount b)) by (exists 55000%Z; reflexivity).
  assert (H3 : (0 <= Pipeline.payment_delay d <= 20)%Z) by (cbn; lia).
  assert (H4 : unit_draw (Pipeline.partial_draw d)) by (split; discriminate).
  assert (H5 : (Pipeline.method_pick d < 4)%nat) by (cbn; lia).
  repeat (split; [assumption | ]).
  destruct (payment_of_bill (V20.mkMeterData "M-1" None None None) b d H1 H2 H3 H4 H5)
    as (p & Hp & _ & _ & Hrange & _).
  exists p. split; [exact Hp | exact Hrange].
Defined.

(** ** The three steps of the parallel pipeline *)

Lemma v20_month_loop_returns (base : V20.base_simulator) (rng : nat -> V20.draws) (f e : Z) :
  (0 < f)%Z ->
  forall fuel md n cur,
    (V20.grid_size f cur e <= fuel)%nat ->
    exists md' rows,
      V20.month_loop fuel base rng f e md n cur
      = Some (md', (n + V20.grid_size f cur e)%nat, rows)
      /\ List.length rows = V20.grid_size f cur e
      /\ V20.meter_id md' = V20.meter_id md
      /\ V20.consumer_type md' = V20.consumer_type md.
Proof.
  intros Hf. induction fuel as [ | fuel IH]; intros md n cur Hfuel.
  - destruct (Z.leb_spec cur e) as [Hle | Hgt].
    + rewrite (grid_size_step f cur e Hf Hle) in Hfuel. lia.
    + exists md, []. cbn. apply Z.leb_gt in Hgt as Hgt'. rewrite Hgt'.
      rewrite (grid_size_empty f cur e Hf Hgt), Nat.add_0_r. auto.
  - cbn [V20.month_loop]. destruct (Z.leb_spec cur e) as [Hle | Hgt].
    + rewrite (grid_size_step f cur e Hf Hle) in Hfuel |- *.
      unfold V20._generate_single_reading.
      match goal with
      | |- context [V20.month_loop fuel base rng f e ?m (S n) (cur + f)%Z] =>
          destruct (IH m (S n) (cur + f)%Z ltac:(lia)) as (md2 & rows2 & H1 & H2 & H3 & H4);
          rewrite H1
      end.
      eexists. eexists. split; [ | split; [ | split; [exact H3 | exact H4]]].
      * f_equal. f_equal. f_equal. lia.
      * cbn [List.length]. lia.
    + exists md, []. rewrite (grid_size_empty f cur e Hf Hgt), Nat.add_0_r. auto.
Qed.

Lemma window_nonempty (f cur e : Z) :
  (0 < f)%Z -> (cur <= e)%Z -> (0 < V20.grid_size f cur e)%nat.
Proof. intros Hf Hle. rewrite (grid_size_step f cur e Hf Hle). lia. Qed.

Lemma pipeline_month_loop (add_month : Z -> Z) (base : V20.base_simulator)
    (billing : Pipeline.base_billing) (tariff_category : option string)
    (rng : nat -> V20.draws) (prng : nat -> Pipeline.payment_draws) (f end_dt : Z) :
  (0 < f)%Z ->
  (forall t, (t + 1440 <= add_month t)%Z) ->
  forall fuel md n k cur,
    (Z.to_nat (end_dt - cur + 1) <= fuel)%nat ->
    exists md' res,
      Pipeline.month_loop fuel add_month base billing tariff_category rng prng f end_dt
        md n k cur = Some (md', res)
      /\ V20.month_loop_readings fuel add_month base rng f end_dt md n cur
         = Some (md', Pipeline.readings res)
      /\ Forall2 (fun w ob => exists b,
                    ob = Some b
                    /\ Pipeline.b_meter_id b = V20.meter_id md
                    /\ Pipeline.b_billing_month b = fst w
                    /\ Pipeline.b_issue_date b = (add_month (fst w) + 5 * 1440)%Z
                    /\ Pipeline.b_due_date b = (add_month (fst w) + 15 * 1440)%Z)
           (V20.month_windows fuel add_month end_dt cur) (Pipeline.bills res)
      /\ Forall2 (fun ob op => exists b p,
                    ob = Some b /\ op = Some p
                    /\ Pipeline.p_meter_id p = Pipeline.b_meter_id b
                    /\ Pipeline.p_bill_amount p = Pipeline.b_bill_amount b)
           (Pipeline.bills res) (Pipeline.payments res).
Proof.
  intros Hf Hmonth. induction fuel as [ | fuel IH]; intros md n k cur Hfuel.
  - cbn. destruct (Z.leb_spec cur end_dt) as [Hle | Hgt]; [lia | ].
    exists md, (Pipeline.mkResults [] [] []). cbn. repeat split; constructor.
  - cbn [Pipeline.month_loop V20.month_loop_readings V20.month_windows].
    destruct (Z.leb_spec cur end_dt) as [Hle | Hgt].
    + cbv zeta.
      set (month_end := if (end_dt <? add_month cur - 1440)%Z then end_dt
                        else (add_month cur - 1440)%Z).
      assert (Hwin : (cur <= month_end)%Z).
      { unfold month_end. pose proof (Hmonth cur).
        destruct (end_dt <? add_month cur - 1440)%Z; lia. }
      unfold V20._generate_month_readings.
      destruct (v20_month_loop_returns base rng f month_end Hf
                  (V20.grid_size f cur month_end) md n cur (le_n _))
        as (md1 & rows1 & Hloop & Hlen & Hid & Hct).
      rewrite Hloop.
      pose proof (window_nonempty f cur month_end Hf Hwin) as Hpos.
      destruct rows1 as [ | r1 rows1]; [cbn in Hlen; lia | ].
      pose proof (Hmonth cur) as Hnext.
      destruct (IH md1 (n + V20.grid_size f cur month_end)%nat (S k) (add_month cur)
                  ltac:(lia))
        as (md2 & res2 & H1 & H2 & H3 & H4).
      rewrite H1, H2.
      eexists. eexists. split; [reflexivity | ].
      cbn [Pipeline.readings Pipeline.bills Pipeline.payments].
      split; [reflexivity | split].
      * constructor.
        -- eexists. split; [reflexivity | ].
           cbn [Pipeline.b_meter_id Pipeline.b_billing_month Pipeline.b_issue_date
                Pipeline.b_due_date fst].
           repeat split. exact Hid.
        -- eapply Forall2_impl; [ | exact H3].
           intros w ob (b & Hb & Hb1 & Hb2). exists b. rewrite <- Hid. auto.
      * constructor; [ | exact H4].
        unfold Pipeline._calculate_month_bill, Pipeline._generate_payment.
        eexists. destruct (Num.ltb _ _); eexists;
          (split; [reflexivity | split; [reflexivity | split; reflexivity]]).
    + exists md, (Pipeline.mkResults [] [] []). cbn. repeat split; constructor.
Qed.

(** X19.  The per-meter pipeline of the parallel variant, run with a positive
    reading interval and a calendar in which a month lasts at least a day,
    terminates; its readings are those of the readings loop alone, and it
    appends exactly one bill and one payment for every month window it
    visits, in order.  The bill of a window carries the meter's id, the start
    of the window as billing month, and is issued 5 days and due 15 days
    after the start of the next month; the payment at the same position
    repeats the meter id and the amount of that bill. *)
Theorem pipeline_bills_every_month (add_month : Z -> Z) (base : V20.base_simulator)
    (billing : Pipeline.base_billing) (tariff_category : option string)
    (rng : nat -> V20.draws) (prng : nat -> Pipeline.payment_draws)
    (md : V20.meter_data) (start end_dt frequency_minutes : Z)
    (Hfreq : (0 < frequency_minutes)%Z)
    (Hmonth : forall t, (t + 1440 <= add_month t)%Z) :
  exists md' res,
    Pipeline.process_single_meter_pipeline add_month base billing tariff_category rng prng
      md start end_dt frequency_minutes = Some (md', res)
    /\ V20.process_single_meter_pipeline add_month base rng md start end_dt frequency_minutes
       = Some (md', Pipeline.readings res)
    /\ Forall2 (fun w ob => exists b,
                  ob = Some b
                  /\ Pipeline.b_meter_id b = V20.meter_id md
                  /\ Pipeline.b_billing_month b = fst w
                  /\ Pipeline.b_issue_date b = (add_month (fst w) + 5 * 1440)%Z
                  /\ Pipeline.b_due_date b = (add_month (fst w) + 15 * 1440)%Z)
         (V20.month_windows (Z.to_nat (end_dt - start + 1)) add_month end_dt start)
         (Pipeline.bills res)
    /\ Forall2 (fun ob op => exists b p,
                  ob = Some b /\ op = Some p
                  /\ Pipeline.p_meter_id p = Pipeline.b_meter_id b
                  /\ Pipeline.p_bill_amount p = Pipeline.b_bill_amount b)
         (Pipeline.bills res) (Pipeline.payments res).
Proof.
  unfold Pipeline.process_single_meter_pipeline, V20.process_single_meter_pipeline.
  apply pipeline_month_loop; [exact Hfreq | exact Hmonth | apply le_n].
Qed.

Lemma pipeline_bills_every_month_witness :
  let add_month := fun t : Z => (t + 43200)%Z in
  let prng := fun _ : nat => Pipeline.mkPaymentDraws 0.5 3 0.5 0.5 0 in
  (0 < 15)%Z
  /\ (forall t, (t + 1440 <= add_month t)%Z)
  /\ exists md' res,
       Pipeline.process_single_meter_pipeline add_month None None None sample_rng prng
         sample_meter_data 0 1440 15 = Some (md', res)
       /\ Forall2 (fun ob op => exists b p,
                     ob = Some b /\ op = Some p
                     /\ Pipeline.p_meter_id p = Pipeline.b_meter_id b
                     /\ Pipeline.p_bill_amount p = Pipeline.b_bill_amount b)
            (Pipeline.bills res) (Pipeline.payments res).
Proof.
  cbv zeta.
  assert (Hf : (0 < 15)%Z) by lia.
  assert (Hm : forall t, (t + 1440 <= t + 43200)%Z) by (intros; lia).
  split; [exact Hf | split; [exact Hm | ]].
  destruct (pipeline_bills_every_month (fun t => (t + 43200)%Z) None None None sample_rng
              (fun _ => Pipeline.mkPaymentDraws 0.5 3 0.5 0.5 0) sample_meter_data
              0 1440 15 Hf Hm) as (md' & res & H1 & _ & _ & H4).
  exists md', res. split; [exact H1 | exact H4].
Defined.

(** ** Payment dates and transaction ids of v1.1 *)

Lemma transaction_prefix_by_method (method : string) :
  In method V11.payment_methods ->
  (In method ["EasyPaisa"; "JazzCash"; "1Bill"]%string
   /\ V11.transaction_prefix method = "EP"%string)
  \/ (In method ["Bank Branch"; "Bank ATM"; "Bank Mobile App"; "Online Banking"]%string
      /\ V11.transaction_prefix method = "BNK"%string)
  \/ (In method ["IESCO Office"; "Franchise"]%string
      /\ V11.transaction_prefix method = "CSH"%string).
Proof.
  unfold V11.payment_methods. cbn [In].
  intros [<- | [<- | [<- | [<- | [<- | [<- | [<- | [<- | [<- | []]]]]]]]]];
    vm_compute; tauto.
Qed.



(** ** The utilisation of a transformer over its life *)

Lemma apply_keeps_range (t : transformer) (e : Events.event) :
  event_in_range e ->
  0 < rating_kva t ->
  10 <= capacity_utilization_pct t <= 95 ->
  (0 <= consumers_connected t)%Z ->
  let t' := Events.apply t e in
  0 < rating_kva t'
  /\ rating_kva t <= rating_kva t'
  /\ 10 <= capacity_utilization_pct t' <= 95
  /\ (0 <= consumers_connected t')%Z
  /\ transformer_id t' = transformer_id t
  /\ transformer_type t' = transformer_type t
  /\ phase_type t' = phase_type t.
Proof.
  intros He Hr [Hu1 Hu2] Hc. cbv zeta. destruct e as [r | current_date | r]; cbn [Events.apply].
  - cbn in He. pose proof (uniform_range 0.5 2 r ltac:(discriminate) He) as [U1 U2].
    unfold Events.connect.
    cbn [rating_kva capacity_utilization_pct consumers_connected transformer_id
         transformer_type phase_type].
    repeat apply conj; try reflexivity; try assumption; try apply Qle_refl; try lia.
    + unfold Num.py_min.
      destruct (Num.ltb _ 95) eqn:E; [apply ltb_lt in E | apply ltb_ge in E]; lra.
    + unfold Num.py_min.
      destruct (Num.ltb _ 95) eqn:E; [apply ltb_lt in E | apply ltb_ge in E]; lra.
  - destruct (V12.overloaded t) eqn:Ho.
    + unfold V12.overloaded in Ho. apply andb_true_iff in Ho. destruct Ho as [Ho _].
      apply gtb_gt in Ho.
      destruct (find_upgrade_ratio _ Hr) as (H1 & H2 & H3 & H4).
      unfold upgrade.
      cbn [fst rating_kva capacity_utilization_pct consumers_connected transformer_id
           transformer_type phase_type].
      set (new := find_upgrade distribution_types (rating_kva t)) in *.
      set (ratio := rating_kva t / new) in *.
      set (u := capacity_utilization_pct t) in *.
      assert (Hlo : (1 # 2) * u <= u * ratio).
      { rewrite (Qmult_comm u ratio). apply Qmult_le_compat_r; lra. }
      assert (Hhi : u * ratio <= (3 # 4) * u).
      { rewrite (Qmult_comm u ratio). apply Qmult_le_compat_r; lra. }
      repeat apply conj; try reflexivity; try assumption; try lra.
    + repeat apply conj; try reflexivity; try assumption; apply Qle_refl.
  - cbn in He. pose proof (uniform_range 1 3 r ltac:(discriminate) He) as [U1 U2].
    unfold Events.disconnect.
    cbn [rating_kva capacity_utilization_pct consumers_connected transformer_id
         transformer_type phase_type].
    repeat apply conj; try reflexivity; try assumption; try apply Qle_refl; try lia.
    + unfold Num.py_max.
      destruct (Num.gtb _ 10) eqn:E; [apply gtb_gt in E | apply gtb_le in E]; lra.
    + unfold Num.py_max.
      destruct (Num.gtb _ 10) eqn:E; [apply gtb_gt in E | apply gtb_le in E]; lra.
Qed.

Lemma history_keeps_range (events : list Events.event) :
  Forall event_in_range events ->
  forall t,
    0 < rating_kva t ->
    10 <= capacity_utilization_pct t <= 95 ->
    (0 <= consumers_connected t)%Z ->
    let t' := Events.history t events in
    rating_kva t <= rating_kva t'
    /\ 10 <= capacity_utilization_pct t' <= 95
    /\ (0 <= consumers_connected t')%Z
    /\ transformer_id t' = transformer_id t
    /\ transformer_type t' = transformer_type t
    /\ phase_type t' = phase_type t.
Proof.
  unfold Events.history.
  induction 1 as [ | e events He _ IH]; intros t Hr Hu Hc; cbv zeta; cbn [fold_left].
  - repeat apply conj; try reflexivity; try apply Hu; try assumption. apply Qle_refl.
  - destruct (apply_keeps_range t e He Hr Hu Hc) as (A1 & A2 & A3 & A4 & A5 & A6 & A7).
    destruct (IH (Events.apply t e) A1 A3 A4) as (B1 & B2 & B3 & B4 & B5 & B6).
    repeat apply conj; try apply B2; try assumption; try congruence.
    eapply Qle_trans; eassumption.
Qed.

(** X21.  A distribution transformer as [generate_initial_transformers]
    builds it has a utilisation between 30 and 85 and is not overloaded.
    Through any sequence of new connections, upgrades (applied when the
    utilisation is above 85) and disconnections, with the draws in range, its
    utilisation stays between 10 and 95, its rating never decreases, its
    consumer count never goes below zero, and its identifier, type and phase
    do not change. *)
Theorem utilisation_stays_in_range (id : string) (tier : nat) (r : Q)
    (events : list Events.event) (t0 : transformer)
    (Hdraw : unit_draw r)
    (Hevents : Forall event_in_range events)
    (Hinitial : Events.initial id tier r = Some t0) :
  30 <= capacity_utilization_pct t0 <= 85
  /\ V12.overloaded t0 = false
  /\ let t := Events.history t0 events in
     10 <= capacity_utilization_pct t <= 95
     /\ rating_kva t0 <= rating_kva t
     /\ (0 <= consumers_connected t)%Z
     /\ transformer_id t = id
     /\ transformer_type t = "distribution"%string
     /\ phase_type t = phase_type t0.
Proof.
  unfold Events.initial in Hinitial.
  pose proof (uniform_range 30 85 r ltac:(discriminate) Hdraw) as [U1 U2].
  assert (Hr : 0 < rating_kva t0 /\ capacity_utilization_pct t0 = uniform 30 85 r
               /\ consumers_connected t0 = 0%Z /\ transformer_id t0 = id
               /\ transformer_type t0 = "distribution"%string).
  { unfold Events.distribution_phases in Hinitial.
    destruct tier as [ | [ | [ | [ | [ | [ | tier]]]]]]; cbn in Hinitial;
      try (injection Hinitial as <-; cbn; repeat split; reflexivity).
    destruct tier; discriminate Hinitial. }
  destruct Hr as (Hr & Hu & Hc & Hid & Hty).
  split; [rewrite Hu; split; assumption | split].
  - unfold V12.overloaded. rewrite Hu.
    assert (E : Num.gtb (uniform 30 85 r) 85 = false) by (apply gtb_le; exact U2).
    rewrite E. reflexivity.
  - cbv zeta.
    destruct (history_keeps_range events Hevents t0 Hr) as (B1 & B2 & B3 & B4 & B5 & B6).
    + rewrite Hu. split; lra.
    + rewrite Hc. lia.
    + repeat apply conj; try apply B2; try assumption; congruence.
Qed.

Lemma utilisation_stays_in_range_witness :
  let events := [Events.NewConnection 1; Events.NewConnection 1;
                 Events.TransformerUpgrade 0; Events.ConsumerChurn 0.5] in
  unit_draw 1
  /\ Forall event_in_range events
  /\ exists t0,
       Events.initial "DT000001" 3 1 = Some t0
       /\ 10 <= capacity_utilization_pct (Events.history t0 events) <= 95.
Proof.
  cbv zeta.
  assert (Hd : unit_draw 1) by (split; discriminate).
  assert (He : Forall event_in_range
                 [Events.NewConnection 1; Events.NewConnection 1;
                  Events.TransformerUpgrade 0; Events.ConsumerChurn 0.5]).
  { repeat constructor; discriminate. }
  split; [exact Hd | split; [exact He | ]].
  eexists. split; [reflexivity | ].
  exact (proj1 (proj2 (proj2 (utilisation_stays_in_range "DT000001" 3 1 _ _ Hd He eq_refl)))).
Defined.

(** ** Replacements by age in v1.3 *)



(** ** Replacements and failures seen by the v1.2 reading loop *)

Lemma v12_loop_timestamps (m : V12.meter) (utilization : Q) (failures : list (Z * Z))
    (grid : list (timestamp * reading_draws)) :
  forall st,
    map r_timestamp (snd (V12.timestamp_loop m utilization failures st grid))
    = map fst (filter (fun td => negb (V12.skipped m failures (fst td))) grid).
Proof.
  induction grid as [ | [ts d] rest IH]; intros st; [reflexivity | ].
  cbn [V12.timestamp_loop filter fst]. unfold V12.reading_step.
  destruct (V12.skipped m failures ts); cbn [negb].
  - specialize (IH st).
    destruct (V12.timestamp_loop m utilization failures st rest) as [st2 rows2]. exact IH.
  - match goal with
    | |- context [V12.timestamp_loop m utilization failures ?s rest] =>
        specialize (IH s);
        destruct (V12.timestamp_loop m utilization failures s rest) as [st2 rows2]
    end.
    cbn [snd map r_timestamp fst] in *. rewrite IH. reflexivity.
Qed.

Lemma v12_row_timestamps (m : V12.meter) (utilization : Q) (failures : list (Z * Z))
    (grid : list (timestamp * reading_draws)) (ts : timestamp) :
  In ts (map r_timestamp (V12.generate_readings_dynamic m utilization failures grid))
  <-> In ts (map fst grid) /\ V12.skipped m failures ts = false.
Proof.
  unfold V12.generate_readings_dynamic. rewrite v12_loop_timestamps, !in_map_iff. split.
  - intros ([ts' d] & <- & Hin). apply filter_In in Hin. destruct Hin as [Hin Hs].
    cbn [fst] in *. split; [exists (ts', d); auto | ].
    destruct (V12.skipped m failures ts'); [discriminate | reflexivity].
  - intros [([ts' d] & <- & Hin) Hs]. exists (ts', d). split; [reflexivity | ].
    apply filter_In. cbn [fst] in *. rewrite Hs. auto.
Qed.

(** X24.  After a replacement on [current_date], the reading loop makes the
    replaced meter report up to and including that instant and its
    replacement from that instant on, for the same consumer.  At the instant
    of the replacement itself, when it is on the grid, the old meter was
    installed by then and no failure window covers it, both meters report. *)
Theorem replacement_handover (m : V12.meter) (current_date : Z)
    (d : V12.replacement_draws) (utilization utilization' : Q)
    (failures failures' : list (Z * Z)) (grid : list (timestamp * reading_draws)) :
  let old_meter := V12.deactivate_replaced current_date m in
  let new_meter := V12._replace_meter m current_date d in
  let old_rows := V12.generate_readings_dynamic old_meter utilization failures grid in
  let new_rows := V12.generate_readings_dynamic new_meter utilization' failures' grid in
  V12.m_consumer_id new_meter = V12.m_consumer_id old_meter
  /\ Forall (fun r => (time (r_timestamp r) <= current_date)%Z) old_rows
  /\ Forall (fun r => (current_date <= time (r_timestamp r))%Z) new_rows
  /\ (forall ts,
        In ts (map fst grid) -> time ts = current_date ->
        (V12.m_installation_date m <= current_date)%Z ->
        (forall w, In w (failures ++ failures') ->
                   ~ (fst w <= current_date <= snd w)%Z) ->
        In ts (map r_timestamp old_rows) /\ In ts (map r_timestamp new_rows)).
Proof.
  cbv zeta. split; [reflexivity | split; [ | split]].
  - apply Forall_forall. intros r Hr.
    assert (Hin : In (r_timestamp r)
                    (map r_timestamp
                       (V12.generate_readings_dynamic
                          (V12.deactivate_replaced current_date m) utilization failures grid)))
      by (apply in_map, Hr).
    apply v12_row_timestamps in Hin. destruct Hin as [_ Hs].
    apply v12_skipped_false in Hs. destruct Hs as (_ & Hd & _).
    apply (Hd current_date). reflexivity.
  - apply Forall_forall. intros r Hr.
    assert (Hin : In (r_timestamp r)
                    (map r_timestamp
                       (V12.generate_readings_dynamic
                          (V12._replace_meter m current_date d) utilization' failures' grid)))
      by (apply in_map, Hr).
    apply v12_row_timestamps in Hin. destruct Hin as [_ Hs].
    apply v12_skipped_false in Hs. destruct Hs as (Hi & _). exact Hi.
  - intros ts Hin Ht Hinst Hw.
    split; apply v12_row_timestamps; (split; [exact Hin | ]); apply v12_skipped_false;
      cbn [V12.deactivate_replaced V12._replace_meter V12.m_installation_date
           V12.m_deactivation_date].
    + split; [lia | split].
      * intros dd [= <-]. lia.
      * intros w Hin'. rewrite Ht. apply Hw, in_or_app. left. exact Hin'.
    + split; [lia | split].
      * intros dd Hdd. discriminate Hdd.
      * intros w Hin'. rewrite Ht. apply Hw, in_or_app. right. exact Hin'.
Qed.

(** X25.  The reading loop of v1.2 leaves out every timestamp that lies in
    the window of a [meter_failure] entry of the events log for that meter,
    from the date of the entry to its recovery date (or, without one, the
    date plus the failure duration, one day by default), both ends included.
    For an entry logged by section 3 of the monthly step with a duration of
    [n] days, no row of the meter is dated from the date of the step to [n]
    days later. *)
Theorem failure_windows_have_no_rows (m : V12.meter) (utilization : Q)
    (events_log : list Log.event) (grid : list (timestamp * reading_draws)) :
  let rows := Log.generate_readings_dynamic m utilization events_log grid in
  (forall e r,
     In e events_log -> Log.event_type e = "meter_failure"%string ->
     Log.meter_number e = V12.m_meter_number m ->
     In r rows ->
     ~ (fst (Log.window e) <= time (r_timestamp r) <= snd (Log.window e))%Z)
  /\ (forall current_date n r,
        In (Log.meter_failure current_date m n) events_log ->
        In r rows ->
        ~ (current_date <= time (r_timestamp r) <= current_date + n * 1440)%Z)
  /\ (forall ts,
        In ts (map fst grid) ->
        (V12.m_installation_date m <= time ts)%Z ->
        V12.m_deactivation_date m = None ->
        (forall e, In e events_log -> Log.event_type e = "meter_failure"%string ->
                   Log.meter_number e = V12.m_meter_number m ->
                   ~ (fst (Log.window e) <= time ts <= snd (Log.window e))%Z) ->
        In ts (map r_timestamp rows)).
Proof.
  cbv zeta. unfold Log.generate_readings_dynamic.
  assert (Hwin : forall e,
             In e events_log -> Log.event_type e = "meter_failure"%string ->
             Log.meter_number e = V12.m_meter_number m ->
             In (Log.window e) (Log.failures_by_meter events_log (V12.m_meter_number m))).
  { intros e He Ht Hn. unfold Log.failures_by_meter. apply in_map, filter_In.
    split; [exact He | ]. rewrite Ht, Hn, !String.eqb_refl. reflexivity. }
  assert (Hrows : forall e r,
             In e events_log -> Log.event_type e = "meter_failure"%string ->
             Log.meter_number e = V12.m_meter_number m ->
             In r (V12.generate_readings_dynamic m utilization
                     (Log.failures_by_meter events_log (V12.m_meter_number m)) grid) ->
             ~ (fst (Log.window e) <= time (r_timestamp r) <= snd (Log.window e))%Z).
  { intros e r He Ht Hn Hr.
    assert (Hin : In (r_timestamp r)
                    (map r_timestamp
                       (V12.generate_readings_dynamic m utilization
                          (Log.failures_by_meter events_log (V12.m_meter_number m)) grid)))
      by (apply in_map, Hr).
    apply v12_row_timestamps in Hin. destruct Hin as [_ Hs].
    apply v12_skipped_false in Hs. destruct Hs as (_ & _ & Hf).
    apply Hf, Hwin; assumption. }
  split; [exact Hrows | split].
  - intros current_date n r He Hr.
    exact (Hrows (Log.meter_failure current_date m n) r He eq_refl eq_refl Hr).
  - intros ts Hin Hinst Hdeact Hfree. apply v12_row_timestamps.
    split; [exact Hin | ]. apply v12_skipped_false.
    split; [exact Hinst | split].
    + intros dd Hdd. congruence.
    + intros w Hw. unfold Log.failures_by_meter in Hw. apply in_map_iff in Hw.
      destruct Hw as (e & <- & He). apply filter_In in He. destruct He as [He Hb].
      apply andb_true_iff in Hb. destruct Hb as [Hb1 Hb2].
      apply String.eqb_eq in Hb1, Hb2. apply Hfree; assumption.
Qed.

(** ** Lifecycle lists *)

(** X26.  In v1.2 the replacement of a meter that has a [lifecycle_events]
    list shares that list with the replaced meter: after [_replace_meter]
    both dictionaries designate one list, to which the replacement entry has
    been appended, so the replaced meter's own history names it as replaced;
    every other list is unchanged.  In v1.3 [_replace_meter_region] builds a
    new list for the replacement, and the list of the replaced meter is left
    as it was. *)
Theorem lifecycle_list_is_shared (h : Lifecycle.store) (old_meter : Lifecycle.meter)
    (replacement_date : Z) (number : string) (i : nat) (l : list Lifecycle.entry)
    (Hkey : Lifecycle.lifecycle_events old_meter = Some i)
    (Hlist : nth_error h i = Some l) :
  let e := Lifecycle.mkEntry replacement_date "meter_replacement"
             (Lifecycle.meter_number old_meter) in
  let h2 := fst (Lifecycle._replace_meter h old_meter replacement_date number) in
  let new2 := snd (Lifecycle._replace_meter h old_meter replacement_date number) in
  let h3 := fst (Lifecycle._replace_meter_region h old_meter replacement_date number) in
  let new3 := snd (Lifecycle._replace_meter_region h old_meter replacement_date number) in
  (Lifecycle.lifecycle_events new2 = Lifecycle.lifecycle_events old_meter
   /\ Lifecycle.events_of h2 new2 = Some (l ++ [e])
   /\ Lifecycle.events_of h2 old_meter = Some (l ++ [e])
   /\ forall j, j <> i -> nth_error h2 j = nth_error h j)
  /\ (Lifecycle.lifecycle_events new3 <> Lifecycle.lifecycle_events old_meter
      /\ Lifecycle.events_of h3 new3 = Some (l ++ [e])
      /\ Lifecycle.events_of h3 old_meter = Some l
      /\ forall j, (j < List.length h)%nat -> nth_error h3 j = nth_error h j).
Proof.
  cbv zeta. assert (Hi : (i < List.length h)%nat) by (apply nth_error_Some; congruence).
  unfold Lifecycle._replace_meter, Lifecycle._replace_meter_region, Lifecycle.events_of.
  rewrite Hkey, Hlist. cbn [fst snd Lifecycle.lifecycle_events].
  split; repeat apply conj.
  - reflexivity.
  - rewrite update_at_nth_error, Nat.eqb_refl, Hlist. reflexivity.
  - rewrite update_at_nth_error, Nat.eqb_refl, Hlist. reflexivity.
  - intros j Hj. rewrite update_at_nth_error.
    destruct (Nat.eqb j i) eqn:E; [apply Nat.eqb_eq in E; contradiction | reflexivity].
  - intros [= H]. lia.
  - rewrite nth_error_app2 by lia. rewrite Nat.sub_diag. reflexivity.
  - rewrite nth_error_app1 by lia. exact Hlist.
  - intros j Hj. apply nth_error_app1. exact Hj.
Qed.

Lemma lifecycle_list_is_shared_witness :
  let h := [[Lifecycle.mkEntry 0 "installation" ""]] in
  let old_meter := Lifecycle.mkMeter "10000000001" (Some 0%nat) in
  Lifecycle.lifecycle_events old_meter = Some 0%nat
  /\ nth_error h 0 = Some [Lifecycle.mkEntry 0 "installation" ""]
  /\ Lifecycle.events_of
       (fst (Lifecycle._replace_meter h old_meter 43200 "10000000002")) old_meter
     = Some [Lifecycle.mkEntry 0 "installation" "";
             Lifecycle.mkEntry 43200 "meter_replacement" "10000000001"].
Proof.
  cbv zeta. split; [reflexivity | split; [reflexivity | ]].
  exact (proj1 (proj2 (proj2 (proj1
           (lifecycle_list_is_shared [[Lifecycle.mkEntry 0 "installation" ""]]
              (Lifecycle.mkMeter "10000000001" (Some 0%nat)) 43200 "10000000002" 0
              [Lifecycle.mkEntry 0 "installation" ""] eq_refl eq_refl))))).
Defined.

(** ** Bills of v1.2 are made per meter number *)

Lemma insert_In (k x : string) (keys : list string) :
  In x (Bills.insert k keys) <-> x = k \/ In x keys.
Proof.
  induction keys as [ | k' rest IH]; cbn.
  - intuition.
  - destruct (String.leb k k'); cbn; rewrite ?IH; intuition.
Qed.

Lemma sort_In (x : string) (keys : list string) : In x (Bills.sort keys) <-> In x keys.
Proof.
  induction keys as [ | k rest IH]; cbn; [reflexivity | ].
  rewrite insert_In, IH. intuition.
Qed.

Lemma groupby_keys_In (readings_df : list reading) (k : string) :
  In k (Bills.groupby_keys readings_df) <-> In k (map meter_number readings_df).
Proof. unfold Bills.groupby_keys. rewrite sort_In, nodup_In. reflexivity. Qed.

Lemma indexed_nth_error {A : Type} (l : list A) :
  forall s n,
    nth_error (combine (seq s (List.length l)) l) n
    = option_map (fun x => ((s + n)%nat, x)) (nth_error l n).
Proof.
  induction l as [ | x l IH]; intros s [ | n]; cbn; try reflexivity.
  - rewrite Nat.add_0_r. reflexivity.
  - rewrite IH. destruct (nth_error l n); cbn; [ | reflexivity].
    f_equal. f_equal. lia.
Qed.

Lemma indexed_In {A : Type} (l : list A) (j : nat) (x : A) :
  In (j, x) (V11.indexed l) <-> nth_error l j = Some x.
Proof.
  unfold V11.indexed. split.
  - intros H. apply In_nth_error in H. destruct H as (n & Hn).
    rewrite indexed_nth_error in Hn. destruct (nth_error l n) as [y | ] eqn:E;
      [ | discriminate]. cbn in Hn. injection Hn as <- <-. exact E.
  - intros H. apply (nth_error_In _ j). rewrite indexed_nth_error, H. reflexivity.
Qed.

Lemma bills_of_group_spec (info : V12.meter) (number : string) (rows : list reading)
    (billing_months : list V11.billing_period) (draws : nat -> bill_draws)
    (b : V11.bill_row) :
  In b (Bills.bills_of_group info number rows billing_months draws)
  <-> exists j bp consumption,
        nth_error billing_months j = Some bp
        /\ V12.month_consumption (V11.month_readings rows bp) = Some consumption
        /\ b = {| V11.row_bill :=
                    V12._calculate_bill consumption (V12.m_tariff_category info)
                      (V12.m_connected_load_kw info) (V11.month_str bp) (V11.day25 bp)
                      (draws j);
                  V11.row_meter_number := number;
                  V11.row_consumer_id := V12.m_consumer_id info |}.
Proof.
  unfold Bills.bills_of_group. rewrite in_flat_map. split.
  - intros ([j bp] & Hin & Hb). cbn [fst snd] in Hb.
    destruct (V12.month_consumption _) as [c | ] eqn:Hc; [ | contradiction].
    destruct Hb as [<- | []]. exists j, bp, c.
    split; [apply indexed_In, Hin | split; [exact Hc | reflexivity]].
  - intros (j & bp & c & Hj & Hc & ->). exists (j, bp). cbn [fst snd]. rewrite Hc.
    split; [apply indexed_In, Hj | left; reflexivity].
Qed.

Lemma insert_NoDup (k : string) (keys : list string) :
  ~ In k keys -> NoDup keys -> NoDup (Bills.insert k keys).
Proof.
  induction keys as [ | k' rest IH]; intros Hk Hnd; cbn.
  - constructor; [intros [] | constructor].
  - destruct (String.leb k k'); [constructor; assumption | ].
    inversion Hnd as [ | ? ? Hk' Hrest]; subst. constructor.
    + rewrite insert_In. intros [-> | H]; [apply Hk; left; reflexivity | contradiction].
    + apply IH; [intros H; apply Hk; right; exact H | exact Hrest].
Qed.

Lemma groupby_keys_NoDup (readings_df : list reading) :
  NoDup (Bills.groupby_keys readings_df).
Proof.
  unfold Bills.groupby_keys.
  pose proof (NoDup_nodup string_dec (map meter_number readings_df)) as H.
  induction H as [ | k l Hk _ IH]; cbn; [constructor | ].
  apply insert_NoDup; [rewrite sort_In; exact Hk | exact IH].
Qed.

Lemma groups_loop_spec (meters_df : list V12.meter) (readings_df : list reading)
    (billing_months : list V11.billing_period) (draws : nat -> nat -> bill_draws)
    (keys : list string) :
  forall i,
    match Bills.groups_loop meters_df readings_df billing_months draws i keys with
    | None => exists k, In k keys /\ Bills.meter_info meters_df k = None
    | Some bills =>
        Forall (fun k => Bills.meter_info meters_df k <> None) keys
        /\ forall b,
             In b bills
             <-> exists n k info,
                   nth_error keys n = Some k
                   /\ Bills.meter_info meters_df k = Some info
                   /\ In b (Bills.bills_of_group info k
                              (V11.meter_readings readings_df k) billing_months
                              (draws (i + n)%nat))
    end.
Proof.
  induction keys as [ | k rest IH]; intros i; cbn [Bills.groups_loop].
  - split; [constructor | ]. intros b. split; [intros [] | ].
    intros ([ | n] & k & info & H & _); discriminate H.
  - destruct (Bills.meter_info meters_df k) as [info | ] eqn:Hinfo.
    + specialize (IH (S i)).
      destruct (Bills.groups_loop meters_df readings_df billing_months draws (S i) rest)
        as [bills | ].
      * destruct IH as [IH1 IH2]. split; [constructor; [congruence | exact IH1] | ].
        intros b. rewrite in_app_iff, IH2. split.
        -- intros [H | (n & k' & info' & H1 & H2 & H3)].
           ++ exists 0%nat, k, info. rewrite Nat.add_0_r. auto.
           ++ exists (S n), k', info'. replace (i + S n)%nat with (S i + n)%nat by lia. auto.
        -- intros ([ | n] & k' & info' & H1 & H2 & H3).
           ++ cbn in H1. injection H1 as <-. rewrite Nat.add_0_r in H3.
              left. congruence.
           ++ right. exists n, k', info'.
              replace (S i + n)%nat with (i + S n)%nat by lia. auto.
      * destruct IH as (k' & Hk' & Hnone). exists k'. split; [right; exact Hk' | exact Hnone].
    + exists k. split; [left; reflexivity | exact Hinfo].
Qed.

Lemma group_keys (info : V12.meter) (number : string) (rows : list reading)
    (draws : nat -> bill_draws) (indexed_months : list (nat * V11.billing_period)) :
  map (fun b => (V11.row_meter_number b, billing_month (V11.row_bill b)))
    (flat_map (fun jbp =>
       match V12.month_consumption (V11.month_readings rows (snd jbp)) with
       | None => []
       | Some consumption =>
           [ {| V11.row_bill :=
                  V12._calculate_bill consumption (V12.m_tariff_category info)
                    (V12.m_connected_load_kw info) (V11.month_str (snd jbp))
                    (V11.day25 (snd jbp)) (draws (fst jbp));
                V11.row_meter_number := number;
                V11.row_consumer_id := V12.m_consumer_id info |} ]
       end) indexed_months)
  = map (fun bp => (number, V11.month_str bp))
      (filter (fun bp => match V11.month_readings rows bp with [] => false | _ => true end)
         (map snd indexed_months)).
Proof.
  induction indexed_months as [ | [j bp] l IH]; [reflexivity | ].
  cbn [flat_map map filter fst snd]. rewrite map_app, IH.
  unfold V12.month_consumption. destruct (V11.month_readings rows bp); reflexivity.
Qed.

Lemma groups_loop_keys (meters_df : list V12.meter) (readings_df : list reading)
    (billing_months : list V11.billing_period) (draws : nat -> nat -> bill_draws)
    (keys : list string) :
  forall i bills,
    Bills.groups_loop meters_df readings_df billing_months draws i keys = Some bills ->
    map (fun b => (V11.row_meter_number b, billing_month (V11.row_bill b))) bills
    = flat_map (fun k =>
        map (fun bp => (k, V11.month_str bp))
          (filter (fun bp => match V11.month_readings (V11.meter_readings readings_df k) bp
                             with [] => false | _ => true end) billing_months)) keys.
Proof.
  induction keys as [ | k rest IH]; intros i bills; cbn [Bills.groups_loop flat_map].
  - intros [= <-]. reflexivity.
  - destruct (Bills.meter_info meters_df k) as [info | ]; [ | discriminate].
    destruct (Bills.groups_loop meters_df readings_df billing_months draws (S i) rest)
      as [bills' | ] eqn:Hrest; [ | discriminate].
    intros [= <-]. rewrite map_app, (IH (S i) bills' Hrest). f_equal.
    unfold Bills.bills_of_group. rewrite group_keys. f_equal. f_equal.
    unfold V11.indexed. clear. generalize 0%nat.
    induction billing_months as [ | bp l IHl]; intros s; [reflexivity | ].
    cbn. rewrite IHl. reflexivity.
Qed.

Lemma group_labels_NoDup (has_rows : string -> V11.billing_period -> bool)
    (billing_months : list V11.billing_period) (keys : list string) :
  NoDup (map V11.month_str billing_months) ->
  NoDup keys ->
  NoDup (flat_map (fun k => map (fun bp => (k, V11.month_str bp))
                              (filter (has_rows k) billing_months)) keys).
Proof.
  intros Hmonths Hnd. induction Hnd as [ | k keys Hk _ IH]; [constructor | ].
  cbn [flat_map]. apply NoDup_app.
  - apply Injective_map_NoDup_in.
    + intros bp1 bp2 H1 H2 [= E].
      apply filter_In in H1, H2. destruct H1 as [H1 _], H2 as [H2 _].
      revert E. clear - Hmonths H1 H2.
      induction billing_months as [ | x l IHm]; [contradiction | ].
      cbn in Hmonths. inversion Hmonths as [ | ? ? Hx Hl]; subst.
      intros E. destruct H1 as [<- | H1], H2 as [<- | H2]; try reflexivity.
      * exfalso. apply Hx. rewrite E. apply in_map, H2.
      * exfalso. apply Hx. rewrite <- E. apply in_map, H1.
      * apply IHm; assumption.
    + apply NoDup_filter. apply NoDup_map_inv in Hmonths. exact Hmonths.
  - exact IH.
  - intros [k' lbl] H1 H2. apply in_map_iff in H1. destruct H1 as (bp & [= <- _] & _).
    apply in_flat_map in H2. destruct H2 as (k2 & Hk2 & H2).
    apply in_map_iff in H2. destruct H2 as (bp2 & [= <- _] & _). contradiction.
Qed.

(** X27.  [generate_monthly_bills_dynamic] makes its bills per meter number,
    not per meter.  It raises exactly when the readings frame has no row (it
    has no column then, and the grouping raises KeyError) or some reading
    carries a number that no row of the meters table carries (IndexError).
    Otherwise every bill is the bill of one number of the readings and one
    billing month in which that number has readings, computed from all the
    readings carrying the number and addressed to the first meter of the
    table that carries it; when the billing months have distinct labels, no
    two bills share number and month.  So, of two meters carrying one number,
    only the first is billed, for the readings of both. *)
Theorem bills_are_per_meter_number (meters_df : list V12.meter)
    (readings_df : list reading) (billing_months : list V11.billing_period)
    (draws : nat -> nat -> bill_draws) :
  (Bills.generate_monthly_bills_dynamic meters_df readings_df billing_months draws = None
   <-> readings_df = []
       \/ exists r, In r readings_df
                    /\ forall m, In m meters_df -> V12.m_meter_number m <> meter_number r)
  /\ forall bills,
       Bills.generate_monthly_bills_dynamic meters_df readings_df billing_months draws
       = Some bills ->
       (forall b,
          In b bills ->
          exists info bp consumption d,
            find (fun m => String.eqb (V12.m_meter_number m) (V11.row_meter_number b))
              meters_df = Some info
            /\ In bp billing_months
            /\ V12.month_consumption
                 (V11.month_readings
                    (V11.meter_readings readings_df (V11.row_meter_number b)) bp)
               = Some consumption
            /\ V11.row_consumer_id b = V12.m_consumer_id info
            /\ V11.row_bill b
               = V12._calculate_bill consumption (V12.m_tariff_category info)
                   (V12.m_connected_load_kw info) (V11.month_str bp) (V11.day25 bp) d)
       /\ (forall r bp,
             In r readings_df -> In bp billing_months ->
             (V11.month_start bp <= time (r_timestamp r) < V11.next_month bp)%Z ->
             exists b, In b bills
                       /\ V11.row_meter_number b = meter_number r
                       /\ billing_month (V11.row_bill b) = V11.month_str bp)
       /\ (NoDup (map V11.month_str billing_months) ->
           NoDup (map (fun b => (V11.row_meter_number b, billing_month (V11.row_bill b)))
                    bills)).
Proof.
  assert (Hcase : readings_df = []
                  \/ (readings_df <> []
                      /\ Bills.generate_monthly_bills_dynamic meters_df readings_df
                           billing_months draws
                         = Bills.groups_loop meters_df readings_df billing_months draws 0
                             (Bills.groupby_keys readings_df))).
  { destruct readings_df; [left; reflexivity | right; split; [discriminate | reflexivity]]. }
  destruct Hcase as [-> | [Hframe ->]].
  { split; [split; [intros _; left; reflexivity | reflexivity] | discriminate]. }
  pose proof (groups_loop_spec meters_df readings_df billing_months draws
                (Bills.groupby_keys readings_df) 0) as Hspec.
  pose proof (groups_loop_keys meters_df readings_df billing_months draws
                (Bills.groupby_keys readings_df) 0) as Hkeys.
  assert (Hnone : forall k, Bills.meter_info meters_df k = None
                            <-> forall m, In m meters_df -> V12.m_meter_number m <> k).
  { intros k. unfold Bills.meter_info. split.
    - intros H m Hm E. apply (find_none _ _ H) in Hm. rewrite E, String.eqb_refl in Hm.
      discriminate.
    - intros H. destruct (find _ meters_df) as [m | ] eqn:E; [ | reflexivity].
      apply find_some in E. destruct E as [E1 E2]. apply String.eqb_eq in E2.
      exfalso. exact (H m E1 E2). }
  destruct (Bills.groups_loop meters_df readings_df billing_months draws 0
              (Bills.groupby_keys readings_df)) as [bills | ].
  - destruct Hspec as [Hall Hin]. split.
    + split; [discriminate | ]. intros [E | (r & Hr & Hm)]; [contradiction | ]. exfalso.
      rewrite Forall_forall in Hall. apply (Hall (meter_number r)).
      * apply groupby_keys_In, in_map, Hr.
      * apply Hnone, Hm.
    + intros bills' [= <-]. split; [ | split].
      * intros b Hb. apply Hin in Hb. destruct Hb as (n & k & info & Hn & Hinfo & Hb).
        apply bills_of_group_spec in Hb. destruct Hb as (j & bp & c & Hj & Hc & ->).
        exists info, bp, c, (draws (0 + n)%nat j). cbn [V11.row_meter_number
          V11.row_consumer_id V11.row_bill].
        split; [exact Hinfo | split; [apply (nth_error_In _ _ Hj) | auto]].
      * intros r bp Hr Hbp Ht.
        assert (Hk : In (meter_number r) (Bills.groupby_keys readings_df))
          by (apply groupby_keys_In, in_map, Hr).
        apply In_nth_error in Hk. destruct Hk as (n & Hn).
        rewrite Forall_forall in Hall.
        destruct (Bills.meter_info meters_df (meter_number r)) as [info | ] eqn:Hinfo;
          [ | exfalso; apply (Hall (meter_number r));
              [apply (nth_error_In _ _ Hn) | exact Hinfo]].
        apply In_nth_error in Hbp. destruct Hbp as (j & Hj).
        assert (Hrows : In r (V11.month_readings
                                (V11.meter_readings readings_df (meter_number r)) bp)).
        { unfold V11.month_readings, V11.meter_readings. rewrite !filter_In.
          rewrite String.eqb_refl, andb_true_iff, Z.leb_le, Z.ltb_lt. tauto. }
        destruct (V12.month_consumption
                    (V11.month_readings
                       (V11.meter_readings readings_df (meter_number r)) bp))
          as [c | ] eqn:Hc.
        -- exists {| V11.row_bill :=
                        V12._calculate_bill c (V12.m_tariff_category info)
                          (V12.m_connected_load_kw info) (V11.month_str bp) (V11.day25 bp)
                          (draws (0 + n)%nat j);
                      V11.row_meter_number := meter_number r;
                      V11.row_consumer_id := V12.m_consumer_id info |}.
           split; [ | split; reflexivity].
           apply Hin. exists n, (meter_number r), info.
           split; [exact Hn | split; [exact Hinfo | ]].
           apply bills_of_group_spec. exists j, bp, c. auto.
        -- exfalso. unfold V12.month_consumption in Hc.
           destruct (V11.month_readings _ bp); [contradiction | discriminate].
      * intros Hmonths. rewrite (Hkeys bills eq_refl).
        apply group_labels_NoDup; [exact Hmonths | apply groupby_keys_NoDup].
  - destruct Hspec as (k & Hk & Hinfo). split; [ | discriminate].
    split; [intros _ | reflexivity].
    apply groupby_keys_In, in_map_iff in Hk. destruct Hk as (r & <- & Hr).
    right. exists r. split; [exact Hr | apply Hnone, Hinfo].
Qed.

(** ** The readings file of v1.1 *)

Lemma writer_loop_memory (chunk_size timestamps : nat) (meters_rows : list (list reading)) :
  forall w,
    let w' := fold_left (Writer.after_meter false chunk_size timestamps) meters_rows w in
    Writer.readings w' = Writer.readings w ++ List.concat meters_rows
    /\ Writer.file w' = Writer.file w.
Proof.
  induction meters_rows as [ | rows rest IH]; intros w; cbv zeta; cbn [fold_left List.concat].
  - rewrite app_nil_r. auto.
  - destruct (IH (Writer.after_meter false chunk_size timestamps w rows)) as [H1 H2].
    rewrite H1, H2. unfold Writer.after_meter. cbn [andb Writer.readings Writer.file].
    rewrite app_assoc. auto.
Qed.

Lemma writer_loop_file (chunk_size timestamps : nat) (file0 : list Writer.line)
    (meters_rows : list (list reading)) :
  (0 < chunk_size * timestamps)%nat ->
  forall w done,
    (if Writer.write_header w
     then Writer.file w = file0 /\ Writer.readings w = done
     else Writer.file w ++ map Writer.Row (Writer.readings w)
          = file0 ++ Writer.Header :: map Writer.Row done) ->
    let w' := fold_left (Writer.after_meter true chunk_size timestamps) meters_rows w in
    let all := done ++ List.concat meters_rows in
    if Writer.write_header w'
    then Writer.file w' = file0 /\ Writer.readings w' = all
    else Writer.file w' ++ map Writer.Row (Writer.readings w')
         = file0 ++ Writer.Header :: map Writer.Row all.
Proof.
  intros Hpos. induction meters_rows as [ | rows rest IH]; intros w done Hinv; cbv zeta;
    cbn [fold_left List.concat].
  - rewrite app_nil_r. exact Hinv.
  - specialize (IH (Writer.after_meter true chunk_size timestamps w rows) (done ++ rows)).
    cbv zeta in IH. rewrite <- app_assoc in IH. apply IH. clear IH.
    unfold Writer.after_meter. cbn [andb].
    destruct (chunk_size * timestamps <=? List.length (Writer.readings w ++ rows))%nat;
      cbn [Writer.write_header Writer.file Writer.readings].
    + unfold Writer.to_csv. destruct (Writer.write_header w).
      * destruct Hinv as [-> ->]. cbn [map app]. rewrite app_nil_r. reflexivity.
      * cbn [app map]. rewrite app_nil_r, !map_app, app_assoc, Hinv.
        rewrite <- app_assoc. reflexivity.
    + destruct (Writer.write_header w).
      * destruct Hinv as [-> ->]. auto.
      * rewrite !map_app, app_assoc, Hinv, <- app_assoc. reflexivity.
Qed.

(** X28.  Around the per-meter loops, [generate_readings] run without an
    output path returns the rows of all the meters, in order, and leaves the
    file alone.  Run with an output path and a positive flush threshold
    (chunk size times number of timestamps) it returns an empty frame and
    appends to the file one header line followed by the same rows in the
    same order, or nothing at all when there is no row: no row is lost,
    repeated or reordered by the chunked writing, whatever the chunk size. *)
Theorem readings_file_has_all_rows (file0 : list Writer.line)
    (chunk_size timestamps : nat) (meters_rows : list (list reading))
    (Hthreshold : (0 < chunk_size * timestamps)%nat) :
  let rows := List.concat meters_rows in
  Writer.generate_readings false file0 chunk_size timestamps meters_rows = (rows, file0)
  /\ Writer.generate_readings true file0 chunk_size timestamps meters_rows
     = ([], match rows with
            | [] => file0
            | _ :: _ => file0 ++ Writer.Header :: map Writer.Row rows
            end).
Proof.
  cbv zeta. unfold Writer.generate_readings. split.
  - destruct (writer_loop_memory chunk_size timestamps meters_rows
                (Writer.mkState [] file0 true 0)) as [H1 H2].
    cbn [andb]. rewrite H1, H2. reflexivity.
  - pose proof (writer_loop_file chunk_size timestamps file0 meters_rows Hthreshold
                  (Writer.mkState [] file0 true 0) [] (conj eq_refl eq_refl)) as H.
    cbv zeta in H. cbn [app] in H. cbn [andb].
    set (w := fold_left (Writer.after_meter true chunk_size timestamps) meters_rows
                (Writer.mkState [] file0 true 0)) in *.
    destruct (Writer.write_header w) eqn:Hh.
    + destruct H as [Hf Hr]. rewrite Hr.
      destruct (List.concat meters_rows) as [ | r rows] eqn:E; cbn [List.length Nat.ltb Nat.leb].
      * rewrite Hf. reflexivity.
      * cbn [Writer.file]. unfold Writer.to_csv. rewrite Hf. reflexivity.
    + assert (Hne : List.concat meters_rows <> []).
      { intros E. rewrite E in H. cbn [map] in H.
        assert (L : List.length (Writer.file w ++ map Writer.Row (Writer.readings w))
                    = List.length (file0 ++ [Writer.Header])) by (rewrite H; reflexivity).
        clear H. revert Hh L. unfold w. clear w.
        assert (G : forall rs v,
                   List.concat rs = [] ->
                   Writer.write_header v = true -> Writer.readings v = [] ->
                   Writer.write_header
                     (fold_left (Writer.after_meter true chunk_size timestamps) rs v) = true).
        { induction rs as [ | x rs IHrs]; intros v Hc Hv Hr; [exact Hv | ].
          cbn [List.concat] in Hc. apply app_eq_nil in Hc. destruct Hc as [-> Hc].
          cbn [fold_left]. apply IHrs; [exact Hc | | ];
            unfold Writer.after_meter; rewrite Hr; cbn [app List.length andb];
            destruct (chunk_size * timestamps)%nat; try lia;
            cbn [Nat.leb Writer.write_header Writer.readings]; auto. }
        intros Hh _.
        rewrite (G meters_rows (Writer.mkState [] file0 true 0) E eq_refl eq_refl) in Hh.
        discriminate Hh. }
      destruct (List.concat meters_rows) as [ | r rows] eqn:E; [contradiction | ].
      destruct (Writer.readings w) as [ | r' rs] eqn:Hr; cbn [List.length Nat.ltb Nat.leb].
      * cbn [map] in H. rewrite app_nil_r in H. rewrite H. reflexivity.
      * cbn [Writer.file]. unfold Writer.to_csv. cbn [app]. rewrite H.
        reflexivity.
Qed.

Lemma readings_file_has_all_rows_witness :
  (0 < 1 * 2)%nat
  /\ Writer.generate_readings true [] 1 2
       [[row 0 10 10 Normal]; [row 0 5 5 Normal; row 15 9 4 Normal]]
     = ([], [Writer.Header; Writer.Row (row 0 10 10 Normal);
             Writer.Row (row 0 5 5 Normal); Writer.Row (row 15 9 4 Normal)]).
Proof.
  assert (H : (0 < 1 * 2)%nat) by (cbn; lia).
  split; [exact H | ].
  exact (proj2 (readings_file_has_all_rows [] 1 2
                  [[row 0 10 10 Normal]; [row 0 5 5 Normal; row 15 9 4 Normal]] H)).
Defined.

(** ** The workers of the parallel generator *)

Lemma append_rows_app {A : Type} (file : option (list (Parallel.line A))) (a b : list A) :
  Parallel.append_rows (Parallel.append_rows file a) b = Parallel.append_rows file (a ++ b).
Proof.
  destruct a as [ | x a]; [reflexivity | ].
  destruct b as [ | y b]; [rewrite app_nil_r; reflexivity | ].
  destruct file as [content | ]; cbn [Parallel.append_rows app].
  - rewrite <- app_assoc, <- map_app. reflexivity.
  - rewrite <- map_app. reflexivity.
Qed.

Lemma append_rows_none {A : Type} (rows : list A) :
  Parallel.append_rows None rows = file_of rows.
Proof. destruct rows; reflexivity. Qed.

Lemma list_sum_Permutation (l l' : list nat) :
  Permutation.Permutation l l' -> list_sum l = list_sum l'.
Proof. induction 1; unfold list_sum in *; cbn [fold_right] in *; lia. Qed.

Lemma run_spec_shared (schedule : list Parallel.action) :
  forall s,
    let s' := fold_left Parallel.step schedule s in
    let blocks {A : Type} (f : Pipeline.results -> list A) :=
      List.concat (map f (written schedule)) in
    let counted (f : Pipeline.results -> nat) :=
      list_sum (map (fun a => match a with
                              | Parallel.Write _ => 0%nat
                              | Parallel.Count results => f results
                              end) schedule) in
    Parallel.readings_file (Parallel.files s')
    = Parallel.append_rows (Parallel.readings_file (Parallel.files s))
        (blocks Pipeline.readings)
    /\ Parallel.bills_file (Parallel.files s')
       = Parallel.append_rows (Parallel.bills_file (Parallel.files s))
           (blocks Pipeline.bills)
    /\ Parallel.payments_file (Parallel.files s')
       = Parallel.append_rows (Parallel.payments_file (Parallel.files s))
           (blocks Pipeline.payments)
    /\ Parallel.meters_completed (Parallel.progress_stats s')
       = (Parallel.meters_completed (Parallel.progress_stats s) + counted (fun _ => 1))%nat
    /\ Parallel.readings_generated (Parallel.progress_stats s')
       = (Parallel.readings_generated (Parallel.progress_stats s)
          + counted (fun r => List.length (Pipeline.readings r)))%nat
    /\ Parallel.bills_generated (Parallel.progress_stats s')
       = (Parallel.bills_generated (Parallel.progress_stats s)
          + counted (fun r => List.length (Pipeline.bills r)))%nat
    /\ Parallel.payments_generated (Parallel.progress_stats s')
       = (Parallel.payments_generated (Parallel.progress_stats s)
          + counted (fun r => List.length (Pipeline.payments r)))%nat.
Proof.
  induction schedule as [ | a rest IH]; intros s; cbv zeta.
  - cbn [fold_left written flat_map map List.concat]. cbn [list_sum fold_right].
    rewrite !Nat.add_0_r. repeat split.
  - cbn [fold_left]. specialize (IH (Parallel.step s a)). cbv zeta in IH.
    destruct IH as (H1 & H2 & H3 & H4 & H5 & H6 & H7).
    rewrite H1, H2, H3, H4, H5, H6, H7.
    destruct a as [r | r];
      cbn [Parallel.step Parallel.files Parallel.progress_stats Parallel.readings_file
           Parallel.bills_file Parallel.payments_file Parallel.meters_completed
           Parallel.readings_generated Parallel.bills_generated
           Parallel.payments_generated written flat_map map List.concat app];
      change (list_sum (?x :: ?l)) with (x + list_sum l)%nat;
      rewrite ?append_rows_app; repeat split; lia.
Qed.

Lemma written_workers (outcomes : list (option Pipeline.results)) :
  written (flat_map Parallel.worker outcomes) = completed outcomes.
Proof.
  induction outcomes as [ | [r | ] rest IH]; cbn; [reflexivity | | exact IH].
  f_equal. exact IH.
Qed.

Lemma counted_workers (f : Pipeline.results -> nat)
    (outcomes : list (option Pipeline.results)) :
  list_sum (map (fun a => match a with
                          | Parallel.Write _ => 0%nat
                          | Parallel.Count results => f results
                          end) (flat_map Parallel.worker outcomes))
  = list_sum (map f (completed outcomes)).
Proof.
  induction outcomes as [ | [r | ] rest IH]; [reflexivity | | exact IH].
  cbn [flat_map Parallel.worker app map completed].
  unfold list_sum in *. cbn [fold_right]. rewrite IH. reflexivity.
Qed.

(** X29.  The parallel workers share the three output files and the
    progress counters, and touch them only in two critical sections each.  In
    whatever order these sections run, the counters end at the number of
    pipelines that completed and at the total numbers of their readings, bills
    and payments; each file, when there is a row to write, is one header line
    followed by the blocks of the meters in the order in which they were
    written, every block whole and every completed meter written once; a
    file without rows is not created.  Only the order of the blocks depends
    on the schedule. *)
Theorem parallel_outcome_any_schedule (outcomes : list (option Pipeline.results))
    (schedule : list Parallel.action)
    (Hschedule : Permutation.Permutation schedule (flat_map Parallel.worker outcomes)) :
  let s := Parallel.run schedule in
  Permutation.Permutation (written schedule) (completed outcomes)
  /\ Parallel.readings_file (Parallel.files s)
     = file_of (List.concat (map Pipeline.readings (written schedule)))
  /\ Parallel.bills_file (Parallel.files s)
     = file_of (List.concat (map Pipeline.bills (written schedule)))
  /\ Parallel.payments_file (Parallel.files s)
     = file_of (List.concat (map Pipeline.payments (written schedule)))
  /\ Parallel.progress_stats s
     = {| Parallel.meters_completed := List.length (completed outcomes);
          Parallel.readings_generated := total Pipeline.readings (completed outcomes);
          Parallel.bills_generated := total Pipeline.bills (completed outcomes);
          Parallel.payments_generated := total Pipeline.payments (completed outcomes) |}.
Proof.
  cbv zeta. unfold Parallel.run.
  destruct (run_spec_shared schedule
              (Parallel.mkShared (Parallel.mkDisk None None None) (Parallel.mkStats 0 0 0 0)))
    as (H1 & H2 & H3 & H4 & H5 & H6 & H7).
  cbn [Parallel.files Parallel.progress_stats Parallel.readings_file Parallel.bills_file
       Parallel.payments_file Parallel.meters_completed Parallel.readings_generated
       Parallel.bills_generated Parallel.payments_generated] in H1, H2, H3, H4, H5, H6, H7.
  rewrite append_rows_none in H1. rewrite append_rows_none in H2.
  rewrite append_rows_none in H3.
  assert (Hsum : forall f,
             list_sum (map (fun a => match a with
                                     | Parallel.Write _ => 0%nat
                                     | Parallel.Count results => f results
                                     end) schedule)
             = list_sum (map f (completed outcomes))).
  { intros f. rewrite <- counted_workers.
    apply list_sum_Permutation, Permutation.Permutation_map, Hschedule. }
  rewrite !Hsum in *.
  split; [ | split; [exact H1 | split; [exact H2 | split; [exact H3 | ]]]].
  - rewrite <- written_workers. unfold written.
    apply Permutation.Permutation_flat_map, Hschedule.
  - destruct (Parallel.progress_stats _) as [a b c d].
    cbn [Parallel.meters_completed Parallel.readings_generated Parallel.bills_generated
         Parallel.payments_generated] in H4, H5, H6, H7.
    unfold total. rewrite H4, H5, H6, H7. f_equal.
    clear. induction (completed outcomes) as [ | r l IH]; [reflexivity | ].
    cbn [map List.length]. unfold list_sum in *. cbn [fold_right]. rewrite <- IH.
    reflexivity.
Qed.

Lemma parallel_outcome_any_schedule_witness :
  let r1 := Pipeline.mkResults [] [None] [] in
  let r2 := Pipeline.mkResults [] [None; None] [None] in
  let schedule := [Parallel.Write r2; Parallel.Write r1; Parallel.Count r1;
                   Parallel.Count r2] in
  Permutation.Permutation schedule (flat_map Parallel.worker [Some r1; None; Some r2])
  /\ Parallel.progress_stats (Parallel.run schedule) = Parallel.mkStats 2 0 3 1.
Proof.
  cbv zeta.
  set (r1 := Pipeline.mkResults [] [None] []).
  set (r2 := Pipeline.mkResults [] [None; None] [None]).
  assert (H : Permutation.Permutation
                [Parallel.Write r2; Parallel.Write r1; Parallel.Count r1; Parallel.Count r2]
                (flat_map Parallel.worker [Some r1; None; Some r2])).
  { cbn [flat_map Parallel.worker app].
    apply Permutation.Permutation_sym.
    apply (Permutation.perm_trans
             (l' := [Parallel.Write r1; Parallel.Write r2; Parallel.Count r1;
                     Parallel.Count r2])).
    - apply Permutation.perm_skip, Permutation.perm_swap.
    - apply Permutation.perm_swap. }
  split; [exact H | ].
  exact (proj2 (proj2 (proj2 (proj2
           (parallel_outcome_any_schedule [Some r1; None; Some r2] _ H))))).
Defined.

(** ** Disconnections after replacements *)

Lemma update_at_length {A : Type} (f : A -> A) (l : list A) :
  forall i, List.length (update_at i f l) = List.length l.
Proof. induction l as [ | x l IH]; intros [ | i]; cbn; auto. Qed.

Lemma churn_fold (current_date : Z) (active : list nat) (draws : list Churn.churn_draws) :
  forall ms,
    let out := Churn.consumer_churn current_date active draws ms in
    List.length out = List.length ms
    /\ map V12.m_meter_number out = map V12.m_meter_number ms
    /\ map V12.m_consumer_id out = map V12.m_consumer_id ms
    /\ (forall j, churned active draws j = false -> nth_error out j = nth_error ms j)
    /\ (forall j m, churned active draws j = true -> nth_error out j = Some m ->
          V12.m_is_active m = false
          /\ V12.m_deactivation_date m = Some current_date
          /\ (In (V12.m_status m) Churn.statuses)).
Proof.
  unfold Churn.consumer_churn.
  induction draws as [ | d rest IH]; intros ms; cbv zeta; cbn [fold_left].
  - repeat apply conj; try reflexivity. intros j m H. discriminate H.
  - unfold churned. cbn [existsb]. fold (churned active rest).
    destruct (nth_error active (Churn.choice d)) as [i | ] eqn:Hi.
    + set (status := nth (Churn.status_pick d) Churn.statuses "Disconnected"%string).
      assert (Hstatus : In status Churn.statuses).
      { unfold status, Churn.statuses.
        destruct (Churn.status_pick d) as [ | [ | [ | n]]]; cbn; auto.
        destruct n; cbn; auto. }
      destruct (IH (update_at i (Churn.disconnect current_date status) ms))
        as (H1 & H2 & H3 & H4 & H5).
      assert (Hmap : forall (B : Type) (g : V12.meter -> B),
                 (forall m, g (Churn.disconnect current_date status m) = g m) ->
                 map g (update_at i (Churn.disconnect current_date status) ms) = map g ms).
      { intros B g Hg. apply nth_error_ext. intros n. rewrite !nth_error_map.
        rewrite update_at_nth_error. destruct (Nat.eqb n i); [ | reflexivity].
        destruct (nth_error ms n); cbn; [rewrite Hg | ]; reflexivity. }
      repeat apply conj.
      * rewrite H1. apply update_at_length.
      * rewrite H2. apply Hmap. reflexivity.
      * rewrite H3. apply Hmap. reflexivity.
      * intros j Hj. apply orb_false_iff in Hj. destruct Hj as [Hj1 Hj2].
        rewrite (H4 j Hj2), update_at_nth_error, (Nat.eqb_sym j i), Hj1. reflexivity.
      * intros j m Hj Hm. destruct (churned active rest j) eqn:Hc.
        -- exact (H5 j m Hc Hm).
        -- change ((i =? j)%nat || churned active rest j = true) in Hj.
           rewrite Hc, orb_false_r in Hj. apply Nat.eqb_eq in Hj. subst j.
           rewrite (H4 i Hc), update_at_nth_error, Nat.eqb_refl in Hm.
           destruct (nth_error ms i) as [m0 | ]; [ | discriminate Hm].
           cbn in Hm. injection Hm as <-. cbn. auto.
    + cbn [orb]. apply IH.
Qed.

(** X30.  Section 5 of the v1.2 monthly step draws the meters it disconnects
    from the list of meters that were active before the replacements of
    section 2.  So it changes neither the length of the meters list nor any
    meter number or consumer id; a record it picks ends inactive, deactivated
    on the date of the step, with one of the statuses Disconnected, Suspended
    or Closed, also when section 2 had already replaced it, in which case the
    status Replaced is overwritten; every other record, and in particular
    every replacement appended by section 2, is left as section 2 made it. *)
Theorem churn_after_replacements (current_date : Z)
    (replacement_draws : list V12.replacement_draws) (draws : list Churn.churn_draws)
    (meters_list : list V12.meter) :
  let active := positions V12.m_is_active meters_list in
  let replaced_list := V12.meter_replacements current_date replacement_draws meters_list in
  let out := Churn.replacements_then_churn current_date replacement_draws draws meters_list in
  List.length out = List.length replaced_list
  /\ map V12.m_meter_number out = map V12.m_meter_number replaced_list
  /\ map V12.m_consumer_id out = map V12.m_consumer_id replaced_list
  /\ (forall j, churned active draws j = false ->
        nth_error out j = nth_error replaced_list j)
  /\ (forall j, (List.length meters_list <= j)%nat ->
        nth_error out j = nth_error replaced_list j)
  /\ (forall j m, churned active draws j = true -> nth_error out j = Some m ->
        V12.m_is_active m = false
        /\ V12.m_deactivation_date m = Some current_date
        /\ In (V12.m_status m) Churn.statuses
        /\ V12.m_status m <> "Replaced"%string).
Proof.
  cbv zeta. unfold Churn.replacements_then_churn.
  destruct (churn_fold current_date (positions V12.m_is_active meters_list) draws
              (V12.meter_replacements current_date replacement_draws meters_list))
    as (H1 & H2 & H3 & H4 & H5).
  repeat apply conj; try assumption.
  - intros j Hj. apply H4. apply not_true_iff_false. intros Hc.
    unfold churned in Hc. apply existsb_exists in Hc. destruct Hc as (d & _ & Hd).
    destruct (nth_error (positions V12.m_is_active meters_list) (Churn.choice d))
      as [i | ] eqn:Hi; [ | discriminate].
    apply Nat.eqb_eq in Hd. subst i. apply nth_error_In, positions_spec in Hi.
    destruct Hi as (m & Hm & _).
    assert (j < List.length meters_list)%nat by (apply nth_error_Some; congruence). lia.
  - intros j m Hj Hm. destruct (H5 j m Hj Hm) as (A1 & A2 & A3).
    repeat apply conj; try assumption.
    intros E. rewrite E in A3. unfold Churn.statuses in A3. cbn in A3.
    destruct A3 as [A | [A | [A | []]]]; discriminate A.
Qed.

(** ** Monthly bills of v1.1 and the frame they are made from *)

Lemma months_loop_nil (m : V11.consumer) (billing_months : list V11.billing_period)
    (draws : nat -> bill_draws) :
  Frames.months_loop [] m billing_months draws = [].
Proof.
  unfold Frames.months_loop.
  induction (V11.indexed billing_months) as [ | [j bp] l IH]; [reflexivity | ].
  cbn [flat_map]. rewrite IH. reflexivity.
Qed.

Lemma months_loop_selected (readings : list reading) (m : V11.consumer)
    (billing_months : list V11.billing_period) (draws : nat -> bill_draws) :
  Frames.months_loop (V11.meter_readings readings (V11.c_meter_number m)) m
    billing_months draws
  = flat_map (fun jbp =>
      match V11.monthly_bill readings m (snd jbp) (draws (fst jbp)) with
      | Some b => [b]
      | None => []
      end) (V11.indexed billing_months).
Proof. reflexivity. Qed.

(** On a frame without columns the first selection raises. *)
Lemma meters_loop_no_columns (billing_months : list V11.billing_period)
    (draws : nat -> nat -> bill_draws) (meters : list (nat * V11.consumer)) :
  Frames.meters_loop Frames.NoColumns billing_months draws meters
  = match meters with
    | [] => Returned []
    | _ :: _ => Raised KeyError
    end.
Proof. destruct meters as [ | [i m] rest]; reflexivity. Qed.

(** On a frame whose meter numbers are strings the loop is the one over the
    rows. *)
Lemma meters_loop_object (rows : list reading) (billing_months : list V11.billing_period)
    (draws : nat -> nat -> bill_draws) (meters : list (nat * V11.consumer)) :
  Frames.meters_loop (Frames.Columns Frames.dt_object rows) billing_months draws meters
  = Returned
      (flat_map (fun im =>
         flat_map (fun jbp =>
           match V11.monthly_bill rows (snd im) (snd jbp) (draws (fst im) (fst jbp)) with
           | Some b => [b]
           | None => []
           end) (V11.indexed billing_months)) meters).
Proof.
  induction meters as [ | [i m] rest IH]; [reflexivity | ].
  cbn [Frames.meters_loop Frames.select Frames.bind flat_map fst snd].
  rewrite IH. cbn [Frames.bind]. rewrite months_loop_selected. reflexivity.
Qed.

(** A selection that finds no row leaves no bill. *)
Lemma meters_loop_nothing_selected (df : Frames.frame)
    (billing_months : list V11.billing_period) (draws : nat -> nat -> bill_draws)
    (meters : list (nat * V11.consumer)) :
  (forall number, Frames.select df number = Returned []) ->
  Frames.meters_loop df billing_months draws meters = Returned [].
Proof.
  intros Hsel. induction meters as [ | [i m] rest IH]; [reflexivity | ].
  cbn [Frames.meters_loop]. rewrite Hsel, IH. cbn [Frames.bind].
  rewrite months_loop_nil. reflexivity.
Qed.

Lemma select_numeric (dt : Frames.dtype) (rows : list reading) (number : string) :
  dt <> Frames.dt_object -> Frames.select (Frames.Columns dt rows) number = Returned [].
Proof. destruct dt; [contradiction | reflexivity ..]. Qed.

(** A chunk of numerals, read back, holds no row that equals a str. *)
Lemma select_numerals (infer : Frames.inference) (rows : list reading) (number : string) :
  reads_numerals_as_int64 infer ->
  forallb numeral (map meter_number rows) = true ->
  Frames.select (Frames.read_csv infer rows) number = Returned [].
Proof.
  intros Hinfer Hnum. unfold Frames.read_csv. destruct rows as [ | r rows].
  - cbn [map]. destruct (infer []); reflexivity.
  - rewrite (Hinfer (map meter_number (r :: rows))); [reflexivity | discriminate | exact Hnum].
Qed.

Lemma forallb_firstn {A : Type} (p : A -> bool) (n : nat) (l : list A) :
  forallb p l = true -> forallb p (firstn n l) = true.
Proof.
  revert l. induction n as [ | n IH]; intros [ | x l]; cbn; try reflexivity.
  rewrite !andb_true_iff. intros [H1 H2]. auto.
Qed.

Lemma forallb_skipn {A : Type} (p : A -> bool) (n : nat) (l : list A) :
  forallb p l = true -> forallb p (skipn n l) = true.
Proof.
  revert l. induction n as [ | n IH]; intros [ | x l]; cbn; try reflexivity; try tauto.
  rewrite andb_true_iff. intros [_ H2]. auto.
Qed.

Lemma firstn_incl {A : Type} (n : nat) (l : list A) : incl (firstn n l) l.
Proof.
  intros x Hx. rewrite <- (firstn_skipn n l). apply in_or_app. left. exact Hx.
Qed.

Lemma skipn_incl {A : Type} (n : nat) (l : list A) : incl (skipn n l) l.
Proof.
  intros x Hx. rewrite <- (firstn_skipn n l). apply in_or_app. right. exact Hx.
Qed.

(** What holds of a file and of every part of it holds of every chunk. *)
Lemma next_chunks_Forall (P : list reading -> Prop) (chunk_size : nat) :
  (forall rows, P rows -> P (firstn chunk_size rows) /\ P (skipn chunk_size rows)) ->
  forall fuel rows, P rows -> Forall P (Frames.next_chunks fuel chunk_size rows).
Proof.
  intros Hpart. induction fuel as [ | fuel IH]; intros [ | r rows] HP;
    cbn [Frames.next_chunks]; try constructor.
  - apply (Hpart _ HP).
  - apply IH. apply (Hpart _ HP).
Qed.

(** The chunks, put end to end, are the rows of the file. *)
Lemma next_chunks_concat (chunk_size : nat) :
  (0 < chunk_size)%nat ->
  forall fuel rows,
    (List.length rows <= fuel)%nat ->
    List.concat (Frames.next_chunks fuel chunk_size rows) = rows.
Proof.
  intros Hn. induction fuel as [ | fuel IH]; intros rows Hfuel.
  - destruct rows; [reflexivity | cbn in Hfuel; lia].
  - destruct rows as [ | r rows]; [reflexivity | ].
    cbn [Frames.next_chunks List.concat]. rewrite IH.
    + apply firstn_skipn.
    + rewrite length_skipn. cbn [List.length] in *. lia.
Qed.

Lemma chunk_loop_nothing_selected (chunks : list Frames.frame) (number : string) :
  Forall (fun chunk => Frames.select chunk number = Returned []) chunks ->
  Frames.chunk_loop chunks number = Returned [].
Proof.
  induction 1 as [ | chunk chunks Hsel _ IH]; [reflexivity | ].
  cbn [Frames.chunk_loop]. rewrite Hsel, IH. reflexivity.
Qed.

(** Over chunks read as text the loop keeps, of each chunk, the rows of the
    meter, and drops the chunks that have none. *)
Lemma chunk_loop_object (infer : Frames.inference) (raw : list (list reading))
    (number : string) :
  Forall (fun rows => infer (map meter_number rows) = Frames.dt_object) raw ->
  exists meter_readings,
    Frames.chunk_loop (map (Frames.read_csv infer) raw) number = Returned meter_readings
    /\ List.concat meter_readings = V11.meter_readings (List.concat raw) number.
Proof.
  induction 1 as [ | rows raw Hdt _ (mr & Hloop & Hcat)].
  - exists []. split; reflexivity.
  - cbn [map Frames.chunk_loop]. unfold Frames.read_csv at 1. rewrite Hdt.
    cbn [Frames.select Frames.bind]. rewrite Hloop. cbn [Frames.bind].
    eexists. split; [reflexivity | ].
    cbn [List.concat]. unfold V11.meter_readings in *. rewrite filter_app, <- Hcat.
    destruct (filter _ rows); reflexivity.
Qed.

Lemma chunked_loop_nothing_selected (infer : Frames.inference) (readings_file : list reading)
    (billing_months : list V11.billing_period) (chunk_size : nat)
    (draws : nat -> nat -> bill_draws) (meters : list (nat * V11.consumer)) :
  (forall number, exists chunks,
      Frames.read_csv_chunks infer chunk_size readings_file = Returned chunks
      /\ Frames.chunk_loop chunks number = Returned []) ->
  Frames.chunked_meters_loop infer readings_file billing_months chunk_size draws meters
  = Returned [].
Proof.
  intros Hsel. induction meters as [ | [i m] rest IH]; [reflexivity | ].
  cbn [Frames.chunked_meters_loop].
  destruct (Hsel (V11.c_meter_number m)) as (chunks & -> & Hloop).
  cbn [Frames.bind]. rewrite Hloop, IH. reflexivity.
Qed.

(** [In] for the result of the nested loops over meters and months. *)
Lemma generate_monthly_bills_In (meters_df : list V11.consumer) (readings : list reading)
    (billing_months : list V11.billing_period) (draws : nat -> nat -> bill_draws)
    (b : V11.bill_row) :
  In b (V11.generate_monthly_bills meters_df readings billing_months draws)
  <-> exists i j m bp,
        nth_error meters_df i = Some m
        /\ nth_error billing_months j = Some bp
        /\ V11.monthly_bill readings m bp (draws i j) = Some b.
Proof.
  unfold V11.generate_monthly_bills. rewrite in_flat_map. split.
  - intros ([i m] & Hm & Hb). apply in_flat_map in Hb. destruct Hb as ([j bp] & Hbp & Hb).
    cbn [fst snd] in Hb.
    destruct (V11.monthly_bill readings m bp (draws i j)) as [b' | ] eqn:Hbill;
      [ | destruct Hb].
    destruct Hb as [<- | []].
    exists i, j, m, bp. rewrite <- !indexed_In. auto.
  - intros (i & j & m & bp & Hm & Hbp & Hbill).
    exists (i, m). split; [apply indexed_In, Hm | ].
    apply in_flat_map. exists (j, bp). split; [apply indexed_In, Hbp | ].
    cbn [fst snd]. rewrite Hbill. left. reflexivity.
Qed.

Lemma monthly_bill_none_iff (readings : list reading) (m : V11.consumer)
    (bp : V11.billing_period) (d : bill_draws) :
  V11.monthly_bill readings m bp d = None
  <-> forall r, In r readings ->
        meter_number r = V11.c_meter_number m ->
        ~ (V11.month_start bp <= time (r_timestamp r) < V11.next_month bp)%Z.
Proof.
  unfold V11.monthly_bill, V11.total_consumption.
  set (rows := V11.month_readings (V11.meter_readings readings (V11.c_meter_number m)) bp).
  assert (Hin : forall r, In r rows <->
                  In r readings /\ meter_number r = V11.c_meter_number m
                  /\ (V11.month_start bp <= time (r_timestamp r) < V11.next_month bp)%Z).
  { intros r. unfold rows, V11.month_readings, V11.meter_readings.
    rewrite !filter_In, String.eqb_eq, andb_true_iff, Z.leb_le, Z.ltb_lt. tauto. }
  destruct rows as [ | r0 rest]; split.
  - intros _ r Hr Hm Ht. apply (proj2 (Hin r)). auto.
  - reflexivity.
  - discriminate.
  - intros H. exfalso. destruct (proj1 (Hin r0) (or_introl eq_refl)) as (H1 & H2 & H3).
    exact (H r0 H1 H2 H3).
Qed.

Lemma monthly_bill_fields (readings : list reading) (m : V11.consumer)
    (bp : V11.billing_period) (d : bill_draws) (b : V11.bill_row) :
  V11.monthly_bill readings m bp d = Some b ->
  V11.row_meter_number b = V11.c_meter_number m
  /\ V11.row_consumer_id b = V11.c_consumer_id m
  /\ billing_month (V11.row_bill b) = V11.month_str bp
  /\ 0 <= units_consumed (V11.row_bill b).
Proof.
  unfold V11.monthly_bill. intros Hbill.
  destruct (V11.total_consumption _) as [cons | ] eqn:Hc; [ | discriminate].
  injection Hbill as <-. repeat apply conj; try reflexivity.
  cbn. apply round_nonneg.
  unfold V11.total_consumption in Hc.
  destruct (V11.month_readings _ bp); [discriminate | ].
  injection Hc as <-. apply py_max_0_nonneg.
Qed.

(** X3.  [generate_monthly_bills] on the frame [pd.DataFrame(readings)] that
    [generate_readings] returns in memory, whose meter numbers are strings.
    When the frame has no row it has no column either, and the call raises
    KeyError at the first meter.  Otherwise the result holds exactly the
    bills of the meters and months for which the readings hold a reading of
    the meter with [month_start <= timestamp < next_month]: every such meter
    and month has its bill in the result, a month without such a reading is
    skipped, and every bill of the result is the bill of one meter of the
    table and one billing month, carries that meter's number and consumer id
    and the month's label, and bills a consumption that is not negative. *)
Theorem monthly_bill_iff_readings (meters_df : list V11.consumer)
    (readings : list reading) (billing_months : list V11.billing_period)
    (draws : nat -> nat -> bill_draws) :
  let bills := V11.generate_monthly_bills meters_df readings billing_months draws in
  Frames.generate_monthly_bills meters_df (Frames.DataFrame readings) billing_months draws
  = match readings, meters_df with
    | [], _ :: _ => Raised KeyError
    | _, _ => Returned bills
    end
  /\ (forall m bp d,
        V11.monthly_bill readings m bp d = None
        <-> forall r, In r readings ->
              meter_number r = V11.c_meter_number m ->
              ~ (V11.month_start bp <= time (r_timestamp r) < V11.next_month bp)%Z)
  /\ (forall b,
        In b bills
        <-> exists i j m bp,
              nth_error meters_df i = Some m
              /\ nth_error billing_months j = Some bp
              /\ V11.monthly_bill readings m bp (draws i j) = Some b)
  /\ (forall i j m bp r,
        nth_error meters_df i = Some m ->
        nth_error billing_months j = Some bp ->
        In r readings ->
        meter_number r = V11.c_meter_number m ->
        (V11.month_start bp <= time (r_timestamp r) < V11.next_month bp)%Z ->
        exists b,
          In b bills
          /\ V11.monthly_bill readings m bp (draws i j) = Some b
          /\ V11.row_meter_number b = V11.c_meter_number m
          /\ billing_month (V11.row_bill b) = V11.month_str bp)
  /\ (forall b,
        In b bills ->
        exists m' bp' d',
          In m' meters_df /\ In bp' billing_months
          /\ V11.monthly_bill readings m' bp' d' = Some b
          /\ V11.row_meter_number b = V11.c_meter_number m'
          /\ V11.row_consumer_id b = V11.c_consumer_id m'
          /\ billing_month (V11.row_bill b) = V11.month_str bp'
          /\ 0 <= units_consumed (V11.row_bill b)).
Proof.
  cbv zeta. split; [ | split; [ | split; [ | split]]].
  - unfold Frames.generate_monthly_bills, Frames.DataFrame.
    destruct readings as [ | r readings].
    + rewrite meters_loop_no_columns. unfold V11.indexed.
      destruct meters_df; reflexivity.
    + rewrite meters_loop_object. reflexivity.
  - intros m bp d. apply monthly_bill_none_iff.
  - intros b. apply generate_monthly_bills_In.
  - intros i j m bp r Hm Hbp Hr Hnum Ht.
    destruct (V11.monthly_bill readings m bp (draws i j)) as [b | ] eqn:Hbill.
    + exists b. destruct (monthly_bill_fields _ _ _ _ _ Hbill) as (H1 & _ & H3 & _).
      repeat apply conj; try assumption; try reflexivity.
      apply generate_monthly_bills_In. exists i, j, m, bp. auto.
    + exfalso. exact (proj1 (monthly_bill_none_iff _ _ _ _) Hbill r Hr Hnum Ht).
  - intros b Hb. apply generate_monthly_bills_In in Hb.
    destruct Hb as (i & j & m & bp & Hm & Hbp & Hbill).
    exists m, bp, (draws i j).
    destruct (monthly_bill_fields _ _ _ _ _ Hbill) as (H1 & H2 & H3 & H4).
    repeat apply conj; try assumption.
    + apply (nth_error_In _ _ Hm).
    + apply (nth_error_In _ _ Hbp).
Qed.

(** ** Bills from the readings file *)

(** X23.  What reading the file back does to the bills of v1.1.  The
    readings file holds the meter numbers as [generate_readings] writes
    them, strings of digits; [pd.read_csv] reads a column of such numerals as
    int64, and an int64 equals no str of the meters table.  So, on a file
    whose meter numbers are all numerals, [generate_monthly_bills] called on
    the frame read back from the file, as [generate_all_data] calls it, and
    [generate_monthly_bills_chunked] with any positive chunk size both return
    without a single bill, for every meters table; so does
    [generate_monthly_bills] on any frame whose [meter_number] column is not
    [object].  Where every chunk is read back as text, both make the bills
    that [generate_monthly_bills] makes from the rows in memory, in the same
    order.  A chunk size of 0 makes the chunked call raise ValueError at the
    first meter. *)
Theorem bills_from_the_readings_file (infer : Frames.inference)
    (meters_df : list V11.consumer) (readings_file : list reading)
    (billing_months : list V11.billing_period) (draws : nat -> nat -> bill_draws) :
  (reads_numerals_as_int64 infer ->
   forallb numeral (map meter_number readings_file) = true ->
   Frames.generate_monthly_bills meters_df (Frames.read_csv infer readings_file)
     billing_months draws = Returned []
   /\ forall chunk_size,
        (0 < chunk_size)%nat ->
        Frames.generate_monthly_bills_chunked infer meters_df readings_file
          billing_months chunk_size draws = Returned [])
  /\ (forall dt rows,
        dt <> Frames.dt_object ->
        Frames.generate_monthly_bills meters_df (Frames.Columns dt rows)
          billing_months draws = Returned [])
  /\ ((forall column,
         incl column (map meter_number readings_file) -> infer column = Frames.dt_object) ->
      Frames.generate_monthly_bills meters_df (Frames.read_csv infer readings_file)
        billing_months draws
      = Returned (V11.generate_monthly_bills meters_df readings_file billing_months draws)
      /\ forall chunk_size,
           (0 < chunk_size)%nat ->
           Frames.generate_monthly_bills_chunked infer meters_df readings_file
             billing_months chunk_size draws
           = Returned (V11.generate_monthly_bills meters_df readings_file
                         billing_months draws))
  /\ (meters_df <> [] ->
      Frames.generate_monthly_bills_chunked infer meters_df readings_file
        billing_months 0 draws = Raised ValueError).
Proof.
  split; [ | split; [ | split]].
  - intros Hinfer Hnum. split.
    + apply meters_loop_nothing_selected. intros number.
      apply select_numerals; assumption.
    + intros chunk_size Hsize. apply chunked_loop_nothing_selected. intros number.
      destruct chunk_size as [ | n]; [lia | ].
      eexists. split; [reflexivity | ].
      apply chunk_loop_nothing_selected, Forall_map.
      assert (Hall : Forall (fun rows => forallb numeral (map meter_number rows) = true)
                       (firstn (S n) readings_file
                        :: Frames.next_chunks (List.length readings_file) (S n)
                             (skipn (S n) readings_file))).
      { assert (Hpart : forall rows,
                  forallb numeral (map meter_number rows) = true ->
                  forallb numeral (map meter_number (firstn (S n) rows)) = true
                  /\ forallb numeral (map meter_number (skipn (S n) rows)) = true).
        { intros rows H. rewrite <- firstn_map, <- skipn_map.
          split; [apply forallb_firstn | apply forallb_skipn]; exact H. }
        constructor; [apply (Hpart _ Hnum) | ].
        apply next_chunks_Forall; [exact Hpart | apply (Hpart _ Hnum)]. }
      eapply Forall_impl; [ | exact Hall]. cbv beta. intros rows Hrows.
      apply select_numerals; assumption.
  - intros dt rows Hdt. apply meters_loop_nothing_selected. intros number.
    apply select_numeric, Hdt.
  - intros Hobj. split.
    + unfold Frames.generate_monthly_bills, Frames.read_csv.
      rewrite (Hobj _ (incl_refl _)). apply meters_loop_object.
    + intros chunk_size Hsize.
      unfold Frames.generate_monthly_bills_chunked, V11.generate_monthly_bills.
      destruct chunk_size as [ | n]; [lia | ].
      set (raw := firstn (S n) readings_file
                  :: Frames.next_chunks (List.length readings_file) (S n)
                       (skipn (S n) readings_file)).
      assert (Hraw : List.concat raw = readings_file).
      { unfold raw. cbn [List.concat].
        rewrite (next_chunks_concat (S n) Hsize).
        - apply firstn_skipn.
        - rewrite length_skipn. lia. }
      assert (Hall : Forall (fun rows => infer (map meter_number rows) = Frames.dt_object)
                       raw).
      { assert (Hpart : forall rows,
                  incl rows readings_file ->
                  incl (firstn (S n) rows) readings_file
                  /\ incl (skipn (S n) rows) readings_file).
        { intros rows H. split; (eapply incl_tran; [ | exact H]);
            [apply firstn_incl | apply skipn_incl]. }
        assert (Hin : Forall (fun rows => incl rows readings_file) raw).
        { unfold raw. constructor; [apply firstn_incl | ].
          apply next_chunks_Forall; [exact Hpart | apply skipn_incl]. }
        eapply Forall_impl; [ | exact Hin]. cbv beta. intros rows Hrows.
        apply Hobj, incl_map, Hrows. }
      induction (V11.indexed meters_df) as [ | [i m] rest IH]; [reflexivity | ].
      cbn [Frames.chunked_meters_loop Frames.read_csv_chunks Frames.bind flat_map fst snd].
      fold raw.
      destruct (chunk_loop_object infer raw (V11.c_meter_number m) Hall)
        as (mr & Hloop & Hcat).
      rewrite Hloop, IH. cbn [Frames.bind]. rewrite Hraw in Hcat.
      f_equal. f_equal. rewrite <- months_loop_selected, <- Hcat.
      destruct mr; [cbn [List.concat]; rewrite months_loop_nil | ]; reflexivity.
  - intros Hmeters. unfold Frames.generate_monthly_bills_chunked, V11.indexed.
    destruct meters_df as [ | m rest]; [contradiction | reflexivity].
Qed.

Lemma bills_from_the_readings_file_witness :
  reads_numerals_as_int64 sample_inference
  /\ forallb numeral (map meter_number sample_file) = true
  /\ Frames.generate_monthly_bills sample_consumers
       (Frames.read_csv sample_inference sample_file)
       [V11.mkPeriod "JAN 24" 0 100 24] (fun _ _ => mkBillDraws 0 0) = Returned []
  /\ Frames.generate_monthly_bills_chunked sample_inference sample_consumers sample_file
       [V11.mkPeriod "JAN 24" 0 100 24] 2 (fun _ _ => mkBillDraws 0 0) = Returned []
  /\ exists b,
       V11.generate_monthly_bills sample_consumers sample_file
         [V11.mkPeriod "JAN 24" 0 100 24] (fun _ _ => mkBillDraws 0 0) = [b]
       /\ V11.row_meter_number b = "10000000001"%string
       /\ units_consumed (V11.row_bill b) == 20.
Proof.
  assert (H1 : reads_numerals_as_int64 sample_inference).
  { intros column Hne Hnum. unfold sample_inference.
    destruct column; [contradiction | rewrite Hnum; reflexivity]. }
  assert (H2 : forallb numeral (map meter_number sample_file) = true) by reflexivity.
  split; [exact H1 | split; [exact H2 | ]].
  destruct (proj1 (bills_from_the_readings_file sample_inference sample_consumers
                     sample_file [V11.mkPeriod "JAN 24" 0 100 24]
                     (fun _ _ => mkBillDraws 0 0)) H1 H2) as [Hwhole Hchunked].
  split; [exact Hwhole | split; [exact (Hchunked 2%nat (le_S _ _ (le_n 1))) | ]].
  eexists. split; [vm_compute; reflexivity | ].
  split; [reflexivity | vm_compute; reflexivity].
Defined.
